(** * Authentication core of the fruit-inventory backend

    A shallow embedding of the session subsystem: the password policy
    ([PasswordService], utils/password.ts), the token helpers
    ([JWTService], config/jwt.ts), the [authenticate] middleware
    (middleware/auth.middleware.ts) and the [AuthController] handlers
    register, login, refreshToken, logout and getProfile
    (controllers/auth.controller.ts), over an explicit model of the Prisma
    tables they read and write.

    Conventions.
    - A JavaScript string is a [string]: each [ascii] is one UTF-16 code
      unit below 256.  [toLowerCase] is the Unicode lower-casing restricted
      to that range.
    - A [Date] is its epoch value in milliseconds, a [Z].
    - A Prisma table is the list of its rows in insertion order; the
      queries ([findFirst], [findUnique], [update], [updateMany], [create])
      are list functions, which throw where Prisma Client does: on an
      [update] of a missing row and on a [where] value it cannot read.
      Failures of the store itself (I/O, a constraint of the schema
      firing) are outside the model.
    - bcryptjs and jsonwebtoken are libraries, not code of this
      repository: they enter as the operations of the classes [Bcrypt]
      and [Jwt].  The bcrypt operations return; [jwt.sign] and
      [jwt.verify] may throw, and nothing else is assumed about what they
      compute.
    - [req.cookies] is what cookie-parser leaves there: the text of the
      cookie, or the JSON value of a cookie written [j:<json>].  The
      handlers pass it to the store unchecked, so all of these are
      inputs.
    - Values the handlers draw from the environment (clock readings, the
      bcrypt salt, the random refresh token) are fields of an explicit
      environment record passed to the handler. *)

From Stdlib Require Import ZArith List Bool Lia.
From Stdlib Require Import Strings.String Strings.Ascii.
From Stdlib Require Import Numbers.DecimalString.
Import ListNotations.

Open Scope string_scope.
Open Scope list_scope.
Open Scope Z_scope.

(** ** JavaScript string helpers *)

Module Js.

Definition code (c : ascii) : Z := Z.of_N (N_of_ascii c).

Definition chars (s : string) : list ascii := list_ascii_of_string s.

(** [s.length] *)
Definition length (s : string) : Z := Z.of_nat (String.length s).

(** [/[...]/.test(s)] for a character class given as a predicate. *)
Definition test (cls : ascii -> bool) (s : string) : bool :=
  existsb cls (chars s).

Definition in_range (lo hi : ascii) (c : ascii) : bool :=
  (code lo <=? code c) && (code c <=? code hi).

Definition lower_char (c : ascii) : ascii :=
  let n := code c in
  if ((65 <=? n) && (n <=? 90))
     || ((192 <=? n) && (n <=? 222) && negb (n =? 215))
  then ascii_of_N (Z.to_N (n + 32))
  else c.

(** [s.toLowerCase()] *)
Fixpoint toLowerCase (s : string) : string :=
  match s with
  | EmptyString => EmptyString
  | String c s' => String (lower_char c) (toLowerCase s')
  end.

(** [xs.includes(s)] *)
Definition includes (xs : list string) (s : string) : bool :=
  existsb (String.eqb s) xs.

(** [s.startsWith(p)] *)
Definition startsWith (p s : string) : bool := String.prefix p s.

(** [s.substring(n)] for [0 <= n] *)
Definition substring_from (n : nat) (s : string) : string :=
  String.substring n (String.length s - n) s.

(** Truthiness of a possibly undefined string: [undefined] and the
    empty string are falsy. *)
Definition truthy (o : option string) : bool :=
  match o with
  | Some s => negb (String.eqb s EmptyString)
  | None => false
  end.

(** [o || d] on strings *)
Definition or_else (o : option string) (d : string) : string :=
  match o with
  | Some s => if String.eqb s EmptyString then d else s
  | None => d
  end.

(** Template-literal rendering of an integer. *)
Definition of_int (n : Z) : string := NilZero.string_of_int (Z.to_int n).

End Js.

(** ** utils/password.ts: the strength policy *)

Module PasswordService.

Definition is_upper : ascii -> bool := Js.in_range "A"%char "Z"%char.
Definition is_lower : ascii -> bool := Js.in_range "a"%char "z"%char.
Definition is_digit : ascii -> bool := Js.in_range "0"%char "9"%char.

(** The punctuation class of the fifth rule; character 34 is the
    double quote, which the class lists between [?] and [:]. *)
Definition special_chars : list ascii :=
  Js.chars "!@#$%^&*(),.?" ++ [ascii_of_nat 34] ++ Js.chars ":{}|<>".

Definition is_special (c : ascii) : bool :=
  existsb (Ascii.eqb c) special_chars.

Definition commonPasswords : list string :=
  [ "password"; "123456"; "123456789"; "qwerty"; "abc123";
    "password123"; "admin"; "letmein"; "welcome"; "12345678" ].

Definition msg_length := "Password must be at least 8 characters long".
Definition msg_upper :=
  "Password must contain at least one uppercase letter".
Definition msg_lower :=
  "Password must contain at least one lowercase letter".
Definition msg_digit := "Password must contain at least one number".
Definition msg_special :=
  "Password must contain at least one special character".
Definition msg_common :=
  "Password is too common. Please choose a more secure password".

Record Validation := { valid : bool; errors : list string }.

(** [errors.push(m)] under a guard *)
Definition push_if (b : bool) (m : string) (errs : list string) :=
  if b then errs ++ [m] else errs.

Definition validatePasswordStrength (password : string) : Validation :=
  let errors := [] in
  let errors := push_if (Js.length password <? 8) msg_length errors in
  let errors := push_if (negb (Js.test is_upper password)) msg_upper errors in
  let errors := push_if (negb (Js.test is_lower password)) msg_lower errors in
  let errors := push_if (negb (Js.test is_digit password)) msg_digit errors in
  let errors :=
    push_if (negb (Js.test is_special password)) msg_special errors in
  let errors :=
    push_if (Js.includes commonPasswords (Js.toLowerCase password))
            msg_common errors in
  {| valid := Nat.eqb (List.length errors) 0; errors := errors |}.

End PasswordService.

(** ** The Prisma tables *)

Module User.
(** Modelled from the spec: prisma/schema.prisma is not among the
    sources; the columns are those the handlers read and write and the
    data model lists.  The store-maintained [createdAt]/[updatedAt]
    columns are left out. *)
Record t := {
  id : Z;
  username : string;
  email : string;
  password : string;
  role : string;
  isActive : bool;
  failedLoginAttempts : Z;
  lockoutUntil : option Z;
  passwordChangedAt : option Z;
  lastLoginAt : option Z;
  lastLoginIP : option string
}.
End User.

Module RefreshToken.
(** The columns the handlers use; [createdAt] is left out. *)
Record t := {
  token : string;
  userId : Z;
  expiresAt : Z;
  isRevoked : bool
}.
End RefreshToken.

Module LoginLog.
(** What the handlers put in [data]; the id and the timestamp the store
    adds are left out. *)
Record t := {
  userId : option Z;
  email : string;
  ipAddress : string;
  userAgent : string;
  success : bool;
  reason : string
}.
End LoginLog.

Record Store := {
  users : list User.t;
  refreshTokens : list RefreshToken.t;
  loginLogs : list LoginLog.t
}.

(** ** Cookie values

    cookie-parser hands a cookie whose text starts with [j:] to
    [JSON.parse] and keeps the result when it is truthy.  So
    [req.cookies.refreshToken] is a string (the cookie's text, or a JSON
    string), or a JSON object, array, number or [true].  The handlers give
    it to Prisma as the value of the string column [token] in a [where]
    clause.  Prisma reads a string as equality, reads an object that is a
    string filter ([{ contains: ... }], [{ not: ... }], [{ in: [...] }],
    ...) as that filter, and rejects the query for any other value. *)

Inductive CookieValue :=
| Text (s : string)                   (* a string *)
| Filter (accepts : string -> bool)   (* a string-filter object, with the
                                         column values it accepts *)
| Unusable.                           (* a number such as [j:123], [true],
                                         an array, any other object *)

(** [refreshToken] as a condition: truthy exactly when the cookie is
    there and is not the empty string. *)
Definition cookie_truthy (c : option CookieValue) : bool :=
  match c with
  | Some (Text s) => negb (String.eqb s EmptyString)
  | Some (Filter _) => true
  | Some Unusable => true
  | None => false
  end.

(** The test Prisma builds from the value given for a string column;
    [None] when it rejects the value. *)
Definition where_string (v : CookieValue) : option (string -> bool) :=
  match v with
  | Text s => Some (fun value => String.eqb value s)
  | Filter accepts => Some accepts
  | Unusable => None
  end.

(** A column value matches what the cookie holds. *)
Definition matches (v : CookieValue) (value : string) : Prop :=
  match v with
  | Text s => value = s
  | Filter accepts => accepts value = true
  | Unusable => False
  end.

(** ** Store computations

    An [await]ed Prisma call reads and writes the store and either
    returns or throws; a write that happened before a throw stays (no
    transaction wraps a handler). *)

Inductive Outcome (A : Type) :=
| Ok (a : A)
| Throw (e : string).
Arguments Ok {A} a.
Arguments Throw {A} e.

Definition Prisma (A : Type) : Type := Store -> Store * Outcome A.

Definition ret {A} (a : A) : Prisma A := fun db => (db, Ok a).

Definition throw {A} (e : string) : Prisma A := fun db => (db, Throw e).

Definition bind {A B} (m : Prisma A) (k : A -> Prisma B) : Prisma B :=
  fun db =>
    match m db with
    | (db', Ok a) => k a db'
    | (db', Throw e) => (db', Throw e)
    end.

Notation "x <- m ;; k" := (bind m (fun x => k))
  (at level 61, m at next level, right associativity).
Notation "m ;;; k" := (bind m (fun _ => k))
  (at level 61, right associativity).

(** [try { body } catch (error) { handler }] *)
Definition try_catch {A} (body : Prisma A) (handler : A) : Prisma A :=
  fun db =>
    match body db with
    | (db', Ok a) => (db', Ok a)
    | (db', Throw _) => (db', Ok handler)
    end.

Module prisma.

Module user.

(** The first row with the given email, and with the given id. *)
Definition by_email (e : string) (us : list User.t) : option User.t :=
  find (fun u => String.eqb (User.email u) e) us.

Definition by_id (i : Z) (us : list User.t) : option User.t :=
  find (fun u => User.id u =? i) us.

(** The table after [data] has been assigned to the rows with id [i]. *)
Definition assign (i : Z) (data : User.t -> User.t) (us : list User.t)
  : list User.t :=
  map (fun u => if User.id u =? i then data u else u) us.

(** [findUnique({ where: { email } })] *)
Definition findUnique_email (e : string) : Prisma (option User.t) :=
  fun db => (db, Ok (by_email e (users db))).

(** [findUnique({ where: { id } })] *)
Definition findUnique_id (i : Z) : Prisma (option User.t) :=
  fun db => (db, Ok (by_id i (users db))).

(** [findFirst({ where: { OR: [{ email }, { username }] } })] *)
Definition findFirst_email_or_username (e n : string)
  : Prisma (option User.t) :=
  fun db =>
    (db, Ok (find (fun u => String.eqb (User.email u) e
                            || String.eqb (User.username u) n)
                  (users db))).

(** [findFirst({ where: { id, isActive: true } })] *)
Definition findFirst_id_active (i : Z) : Prisma (option User.t) :=
  fun db =>
    (db, Ok (find (fun u => (User.id u =? i)
                            && Bool.eqb (User.isActive u) true)
                  (users db))).

(** [update({ where: { id }, data })]: [data] assigns columns, so it
    is a function on rows; the call returns the updated row and
    throws when no row has the id. *)
Definition update (i : Z) (data : User.t -> User.t) : Prisma User.t :=
  fun db =>
    match by_id i (users db) with
    | Some u =>
        ({| users := assign i data (users db);
            refreshTokens := refreshTokens db;
            loginLogs := loginLogs db |},
         Ok (data u))
    | None => (db, Throw "Record to update not found")
    end.

(** The auto-increment primary key: one more than the largest id in
    the table. *)
Definition next_id (us : list User.t) : Z :=
  1 + fold_right (fun u m => Z.max (User.id u) m) 0 us.

(** Modelled from the spec: the column defaults of the absent schema
    (role user, active, no failed attempts, no lockout, no password
    change, no login yet). *)
Definition with_defaults (i : Z) (n e p : string) : User.t :=
  {| User.id := i; User.username := n; User.email := e;
     User.password := p; User.role := "user"; User.isActive := true;
     User.failedLoginAttempts := 0; User.lockoutUntil := None;
     User.passwordChangedAt := None; User.lastLoginAt := None;
     User.lastLoginIP := None |}.

(** [create({ data: { username, email, password } })] *)
Definition create (n e p : string) : Prisma User.t :=
  fun db =>
    let u := with_defaults (next_id (users db)) n e p in
    ({| users := users db ++ [u];
        refreshTokens := refreshTokens db;
        loginLogs := loginLogs db |},
     Ok u).

End user.

Module refreshToken.

(** [create({ data: { token, userId, expiresAt } })]; [isRevoked]
    takes its default. *)
Definition create (t : string) (u : Z) (e : Z) : Prisma unit :=
  fun db =>
    ({| users := users db;
        refreshTokens :=
          refreshTokens db ++
          [{| RefreshToken.token := t; RefreshToken.userId := u;
              RefreshToken.expiresAt := e;
              RefreshToken.isRevoked := false |}];
        loginLogs := loginLogs db |},
     Ok tt).

(** The filter [{ token, isRevoked: false, expiresAt: { gt: now } }],
    with [test] the test on the token column. *)
Definition usable (test : string -> bool) (now : Z) (r : RefreshToken.t)
  : bool :=
  test (RefreshToken.token r)
  && Bool.eqb (RefreshToken.isRevoked r) false
  && (now <? RefreshToken.expiresAt r).

(** The first usable row, and the owner the join attaches to a row. *)
Definition first_usable (test : string -> bool) (now : Z)
    (rs : list RefreshToken.t) : option RefreshToken.t :=
  find (usable test now) rs.

Definition owner (r : RefreshToken.t) (us : list User.t) : option User.t :=
  user.by_id (RefreshToken.userId r) us.

(** [findFirst({ where: ..., include: { user: true } })]: the row
    with its owner joined in.  A value Prisma cannot read as a test on
    the token column makes the query throw; the relation is required, so
    a row whose owner is missing makes it throw too. *)
Definition findFirst_usable_with_user (v : CookieValue) (now : Z)
  : Prisma (option (RefreshToken.t * User.t)) :=
  fun db =>
    match where_string v with
    | None => (db, Throw "Invalid value provided")
    | Some test =>
        match first_usable test now (refreshTokens db) with
        | None => (db, Ok None)
        | Some r =>
            match owner r (users db) with
            | Some u => (db, Ok (Some (r, u)))
            | None => (db, Throw "Inconsistent query result")
            end
        end
    end.

Definition revoke (r : RefreshToken.t) : RefreshToken.t :=
  {| RefreshToken.token := RefreshToken.token r;
     RefreshToken.userId := RefreshToken.userId r;
     RefreshToken.expiresAt := RefreshToken.expiresAt r;
     RefreshToken.isRevoked := true |}.

(** The filter [{ token, userId }] of logout, with [test] the test on
    the token column. *)
Definition owned_by (test : string -> bool) (u : Z) (r : RefreshToken.t)
  : bool :=
  test (RefreshToken.token r) && (RefreshToken.userId r =? u).

(** The table after the rows that pass [owned_by] have been revoked. *)
Definition revoke_owned (test : string -> bool) (u : Z)
    (rs : list RefreshToken.t) : list RefreshToken.t :=
  map (fun r => if owned_by test u r then revoke r else r) rs.

(** [updateMany({ where: { token, userId }, data: { isRevoked: true } })];
    it throws, and writes nothing, on a value Prisma cannot read as a
    test on the token column. *)
Definition updateMany_revoke (v : CookieValue) (u : Z) : Prisma unit :=
  fun db =>
    match where_string v with
    | None => (db, Throw "Invalid value provided")
    | Some test =>
        ({| users := users db;
            refreshTokens := revoke_owned test u (refreshTokens db);
            loginLogs := loginLogs db |},
         Ok tt)
    end.

End refreshToken.

Module loginLog.

(** The store with one more audit record. *)
Definition logged (db : Store) (l : LoginLog.t) : Store :=
  {| users := users db;
     refreshTokens := refreshTokens db;
     loginLogs := loginLogs db ++ [l] |}.

(** [create({ data })] *)
Definition create (l : LoginLog.t) : Prisma unit :=
  fun db => (logged db l, Ok tt).

End loginLog.

End prisma.

(** ** Requests and responses (the Express surface the handlers use) *)

Record ReqUser := {
  ru_userId : Z;
  ru_username : string;
  ru_role : string
}.

Record Request := {
  body_username : string;
  body_email : string;
  body_password : string;
  ip : option string;
  header_userAgent : option string;
  header_authorization : option string;
  cookie_refreshToken : option CookieValue;
  user : option ReqUser
}.

Record CookieOptions := {
  httpOnly : bool;
  secure : bool;
  sameSite : string;
  path : string;
  maxAge : option Z
}.

Inductive CookieOp :=
| SetCookie (name value : string) (opts : CookieOptions)
| ClearCookie (name : string) (opts : CookieOptions).

Record PublicUser := {
  pu_id : Z;
  pu_username : string;
  pu_email : string;
  pu_role : string
}.

Record Profile := {
  pr_user : PublicUser;
  pr_isActive : bool;
  pr_lastLoginAt : option Z
}.

Inductive Data :=
| NoData
| Registered (u : PublicUser)
| LoggedIn (u : PublicUser) (accessToken : string)
| Refreshed (accessToken : string)
| ProfileOf (p : Profile).

Record Response := {
  status : Z;
  success : bool;
  message : option string;
  errors : option (list string);
  data : Data;
  cookies : list CookieOp
}.

(** [res.status(code).json({ success: false, message })] *)
Definition failure (code : Z) (msg : string) : Response :=
  {| status := code; success := false; message := Some msg;
     errors := None; data := NoData; cookies := [] |}.

(** The error taxonomy, as the responses the code sends. *)
Definition Conflict (msg : string) : Response := failure 409 msg.
Definition WeakPassword (errs : list string) : Response :=
  {| status := 400; success := false;
     message := Some "Password does not meet security requirements";
     errors := Some errs; data := NoData; cookies := [] |}.
Definition InvalidCredentials : Response :=
  failure 401 "Invalid email or password".
Definition AccountDeactivated : Response :=
  failure 401 "Account has been deactivated".
Definition AccountLocked : Response :=
  failure 423 "Account is temporarily locked due to too many failed attempts".
Definition MissingAccessToken : Response :=
  failure 401 "Access token required".
Definition InvalidAccessToken : Response :=
  failure 401 "Invalid or expired token".
Definition UserUnavailable : Response :=
  failure 401 "User not found or inactive".
Definition StaleToken : Response :=
  failure 401 "Password has been changed. Please login again".
Definition MissingToken : Response := failure 401 "Refresh token not found".
Definition InvalidToken : Response :=
  failure 401 "Invalid or expired refresh token".
Definition NotFound : Response := failure 404 "User not found".
Definition Internal : Response := failure 500 "Internal server error".

(** ** The libraries and the process environment *)

(** bcryptjs: [hash(password, salt)] and [compare(password, hash)]. *)
Class Bcrypt := {
  bcrypt_hash : string -> string -> string;
  bcrypt_compare : string -> string -> bool
}.

Record TokenClaims := {
  tc_userId : Z;
  tc_username : string;
  tc_role : string
}.

Record JWTPayload := {
  userId : Z;
  username : string;
  role : string;
  iat : option Z;
  exp : option Z
}.

Record JwtOptions := {
  expiresIn : option string;
  issuer : string;
  audience : string
}.

(** jsonwebtoken under the process-wide access secret, each call at a
    clock reading.  [sign] throws ([None]) on options it does not accept
    (an [expiresIn] that is not a time span, such as [abc]) and on a
    missing secret; [verify] throws ([None]) on a token it does not
    accept. *)
Class Jwt := {
  jwt_sign : TokenClaims -> JwtOptions -> Z -> option string;
  jwt_verify : string -> JwtOptions -> Z -> option JWTPayload
}.

(** [process.env] *)
Class ProcessEnv := {
  JWT_ACCESS_EXPIRE : option string
}.

(** ** utils/password.ts: hashing *)

Section Hashing.
Context {B : Bcrypt}.

(** [hashPassword]: [salt] is what [bcrypt.genSalt(SALT_ROUNDS)]
    returned. *)
Definition hashPassword (password salt : string) : string :=
  bcrypt_hash password salt.

Definition comparePassword (password hashedPassword : string) : bool :=
  bcrypt_compare password hashedPassword.

End Hashing.

(** ** config/jwt.ts *)

Module JWTService.
Section WithJwt.
Context {J : Jwt} {P : ProcessEnv}.

(** An exception of [jwt.sign] leaves [generateAccessToken] as it
    is. *)
Definition generateAccessToken (payload : TokenClaims) (now : Z)
  : Prisma string :=
  match jwt_sign payload
          {| expiresIn := Some (Js.or_else JWT_ACCESS_EXPIRE "15m");
             issuer := "fruit-inventory";
             audience := "fruit-inventory-client" |}
          now with
  | Some token => ret token
  | None => throw "jwt.sign"
  end.

Definition verifyAccessToken (token : string) (now : Z)
  : Prisma JWTPayload :=
  match jwt_verify token
          {| expiresIn := None;
             issuer := "fruit-inventory";
             audience := "fruit-inventory-client" |}
          now with
  | Some payload => ret payload
  | None => throw "Invalid or expired access token"
  end.

End WithJwt.

Definition extractTokenFromHeader (authHeader : option string)
  : option string :=
  match authHeader with
  | Some h =>
      if negb (Js.truthy (Some h)) || negb (Js.startsWith "Bearer " h)
      then None
      else Some (Js.substring_from 7 h)
  | None => None
  end.

End JWTService.

(** ** middleware/auth.middleware.ts *)

Definition attach_user (req : Request) (u : ReqUser) : Request :=
  {| body_username := body_username req;
     body_email := body_email req;
     body_password := body_password req;
     ip := ip req;
     header_userAgent := header_userAgent req;
     header_authorization := header_authorization req;
     cookie_refreshToken := cookie_refreshToken req;
     user := Some u |}.

(** [tokenIssuedAt < user.passwordChangedAt], guarded by
    [user.passwordChangedAt &&]; with [iat] undefined the date is invalid
    and the comparison is false. *)
Definition issued_before_change (payload : JWTPayload) (u : User.t) : bool :=
  match User.passwordChangedAt u, iat payload with
  | Some changed, Some seconds => seconds * 1000 <? changed
  | _, _ => false
  end.

Section Middleware.
Context {J : Jwt} {P : ProcessEnv}.

(** The result is [inl response] when the middleware answers itself and
    [inr req'] when it calls [next()] on the request [req']. [now] is
    the clock reading of [jwt.verify]. *)
Definition authenticate (now : Z) (req : Request)
  : Prisma (Response + Request) :=
  try_catch
    (match JWTService.extractTokenFromHeader (header_authorization req) with
     | None => ret (inl MissingAccessToken)
     | Some token =>
         if negb (Js.truthy (Some token)) then ret (inl MissingAccessToken)
         else
           payload <- JWTService.verifyAccessToken token now ;;
           found <- prisma.user.findFirst_id_active (userId payload) ;;
           match found with
           | None => ret (inl UserUnavailable)
           | Some u =>
               if issued_before_change payload u
               then ret (inl StaleToken)
               else ret (inr (attach_user req
                                {| ru_userId := User.id u;
                                   ru_username := User.username u;
                                   ru_role := User.role u |}))
           end
     end)
    (inl InvalidAccessToken).

End Middleware.

Definition authorize (roles : list string) (req : Request)
  : Response + Request :=
  match user req with
  | None => inl (failure 401 "Authentication required")
  | Some u =>
      if negb (Js.includes roles (ru_role u))
      then inl (failure 403 "Insufficient permissions")
      else inr req
  end.

(** ** controllers/auth.controller.ts *)

(** What a handler draws from its environment while it runs: clock
    readings and random values, one field per place of the source. *)

Record RegisterEnv := {
  salt : string            (* what bcrypt.genSalt returns *)
}.

Record LoginEnv := {
  at_lock_check : Z;       (* new Date() of the lock check *)
  at_failure : Z;          (* Date.now() of the lockout computation *)
  at_success : Z;          (* new Date() stored as lastLoginAt *)
  at_sign : Z;             (* the clock reading of jwt.sign *)
  at_issue : Z;            (* Date.now() of the refresh token's expiry *)
  random_token : string    (* crypto.randomBytes(64).toString(hex) *)
}.

Record RefreshEnv := {
  at_lookup : Z;           (* new Date() of the lookup *)
  at_resign : Z            (* the clock reading of jwt.sign *)
}.

Definition LOCKOUT_MS : Z := 30 * 60 * 1000.
Definition REFRESH_MS : Z := 7 * 24 * 60 * 60 * 1000.

Definition refresh_cookie_options : CookieOptions :=
  {| httpOnly := true; secure := true; sameSite := "none"; path := "/";
     maxAge := Some REFRESH_MS |}.

Definition clear_cookie_options : CookieOptions :=
  {| httpOnly := true; secure := true; sameSite := "none"; path := "/";
     maxAge := None |}.

Definition public (u : User.t) : PublicUser :=
  {| pu_id := User.id u; pu_username := User.username u;
     pu_email := User.email u; pu_role := User.role u |}.

(** [data] of the update after a failed password comparison *)
Definition failed_attempt (n : Z) (l : option Z) (u : User.t) : User.t :=
  {| User.id := User.id u; User.username := User.username u;
     User.email := User.email u; User.password := User.password u;
     User.role := User.role u; User.isActive := User.isActive u;
     User.failedLoginAttempts := n; User.lockoutUntil := l;
     User.passwordChangedAt := User.passwordChangedAt u;
     User.lastLoginAt := User.lastLoginAt u;
     User.lastLoginIP := User.lastLoginIP u |}.

(** [data] of the update on a successful login *)
Definition successful_login (now : Z) (addr : string) (u : User.t)
  : User.t :=
  {| User.id := User.id u; User.username := User.username u;
     User.email := User.email u; User.password := User.password u;
     User.role := User.role u; User.isActive := User.isActive u;
     User.failedLoginAttempts := 0; User.lockoutUntil := None;
     User.passwordChangedAt := User.passwordChangedAt u;
     User.lastLoginAt := Some now;
     User.lastLoginIP := Some addr |}.

(** [user.lockoutUntil && user.lockoutUntil > new Date()] *)
Definition locked_at (now : Z) (u : User.t) : bool :=
  match User.lockoutUntil u with
  | Some until => now <? until
  | None => false
  end.

Definition with_reason (l : LoginLog.t) (r : string) : LoginLog.t :=
  {| LoginLog.userId := LoginLog.userId l; LoginLog.email := LoginLog.email l;
     LoginLog.ipAddress := LoginLog.ipAddress l;
     LoginLog.userAgent := LoginLog.userAgent l;
     LoginLog.success := LoginLog.success l; LoginLog.reason := r |}.

Definition with_success (l : LoginLog.t) (b : bool) : LoginLog.t :=
  {| LoginLog.userId := LoginLog.userId l; LoginLog.email := LoginLog.email l;
     LoginLog.ipAddress := LoginLog.ipAddress l;
     LoginLog.userAgent := LoginLog.userAgent l;
     LoginLog.success := b; LoginLog.reason := LoginLog.reason l |}.

(** The audit record of an attempt: [logData] with its branch-specific
    outcome filled in. *)
Definition attempt_log (req : Request) (uid : option Z) (ok : bool)
    (why : string) : LoginLog.t :=
  {| LoginLog.userId := uid;
     LoginLog.email := body_email req;
     LoginLog.ipAddress := Js.or_else (ip req) "unknown";
     LoginLog.userAgent := Js.or_else (header_userAgent req) "unknown";
     LoginLog.success := ok;
     LoginLog.reason := why |}.

Module AuthController.
Section Handlers.
Context {B : Bcrypt} {J : Jwt} {P : ProcessEnv}.

Definition register (env : RegisterEnv) (req : Request)
  : Prisma Response :=
  try_catch
    (let username := body_username req in
     let email := body_email req in
     let password := body_password req in
     let usernameLowerCase := Js.toLowerCase username in
     existingUser <-
       prisma.user.findFirst_email_or_username email usernameLowerCase ;;
     match existingUser with
     | Some existing =>
         ret (Conflict (if String.eqb (User.email existing) email
                        then "Email already exists"
                        else "Username already exists"))
     | None =>
         let passwordValidation :=
           PasswordService.validatePasswordStrength password in
         if negb (PasswordService.valid passwordValidation)
         then ret (WeakPassword
                     (PasswordService.errors passwordValidation))
         else
           let hashedPassword := hashPassword password (salt env) in
           created <-
             prisma.user.create usernameLowerCase email hashedPassword ;;
           prisma.loginLog.create
             {| LoginLog.userId := Some (User.id created);
                LoginLog.email := User.email created;
                LoginLog.ipAddress := Js.or_else (ip req) "unknown";
                LoginLog.userAgent :=
                  Js.or_else (header_userAgent req) "unknown";
                LoginLog.success := true;
                LoginLog.reason := "User registration" |} ;;;
           ret {| status := 201; success := true;
                  message := Some "User registered successfully";
                  errors := None;
                  data := Registered (public created);
                  cookies := [] |}
     end)
    Internal.

Definition login (env : LoginEnv) (req : Request) : Prisma Response :=
  try_catch
    (let email := body_email req in
     let password := body_password req in
     let ipAddress := Js.or_else (ip req) "unknown" in
     let userAgent := Js.or_else (header_userAgent req) "unknown" in
     found <- prisma.user.findUnique_email email ;;
     let logData :=
       {| LoginLog.userId := option_map User.id found;
          LoginLog.email := email;
          LoginLog.ipAddress := ipAddress;
          LoginLog.userAgent := userAgent;
          LoginLog.success := false;
          LoginLog.reason := EmptyString |} in
     match found with
     | None =>
         prisma.loginLog.create (with_reason logData "User not found") ;;;
         ret InvalidCredentials
     | Some u =>
         if negb (User.isActive u) then
           prisma.loginLog.create
             (with_reason logData "Account deactivated") ;;;
           ret AccountDeactivated
         else if locked_at (at_lock_check env) u then
           prisma.loginLog.create
             (with_reason logData "Account locked") ;;;
           ret AccountLocked
         else
           let isPasswordValid :=
             comparePassword password (User.password u) in
           if negb isPasswordValid then
             updatedUser <-
               prisma.user.update (User.id u)
                 (failed_attempt
                    (User.failedLoginAttempts u + 1)
                    (if 5 <=? User.failedLoginAttempts u + 1
                     then Some (at_failure env + LOCKOUT_MS)
                     else None)) ;;
             prisma.loginLog.create
               (with_reason logData
                  ("Invalid password (attempt "
                   ++ Js.of_int (User.failedLoginAttempts updatedUser)
                   ++ ")")%string) ;;;
             ret InvalidCredentials
           else
             prisma.user.update (User.id u)
               (successful_login (at_success env) ipAddress) ;;;
             accessToken <-
               JWTService.generateAccessToken
                 {| tc_userId := User.id u;
                    tc_username := User.username u;
                    tc_role := User.role u |}
                 (at_sign env) ;;
             let refreshToken := random_token env in
             prisma.refreshToken.create refreshToken (User.id u)
               (at_issue env + REFRESH_MS) ;;;
             prisma.loginLog.create
               (with_reason (with_success logData true)
                            "Successful login") ;;;
             ret {| status := 200; success := true;
                    message := Some "Login successful";
                    errors := None;
                    data := LoggedIn (public u) accessToken;
                    cookies :=
                      [SetCookie "refreshToken" refreshToken
                                 refresh_cookie_options] |}
     end)
    Internal.

Definition refreshToken (env : RefreshEnv) (req : Request)
  : Prisma Response :=
  try_catch
    (match cookie_refreshToken req with
     | None => ret MissingToken
     | Some presented =>
         if negb (cookie_truthy (Some presented)) then ret MissingToken
         else
           tokenRecord <-
             prisma.refreshToken.findFirst_usable_with_user
               presented (at_lookup env) ;;
           match tokenRecord with
           | None => ret InvalidToken
           | Some (_, owner) =>
               if negb (User.isActive owner) then ret InvalidToken
               else
                 accessToken <-
                   JWTService.generateAccessToken
                     {| tc_userId := User.id owner;
                        tc_username := User.username owner;
                        tc_role := User.role owner |}
                     (at_resign env) ;;
                 ret {| status := 200; success := true;
                        message := None; errors := None;
                        data := Refreshed accessToken;
                        cookies := [] |}
           end
     end)
    Internal.

Definition logout (req : Request) : Prisma Response :=
  try_catch
    ((if cookie_truthy (cookie_refreshToken req) then
        match cookie_refreshToken req, user req with
        | Some presented, Some caller =>
            prisma.refreshToken.updateMany_revoke
              presented (ru_userId caller)
        | _, _ => throw "Cannot read properties of undefined"
        end
      else ret tt) ;;;
     ret {| status := 200; success := true;
            message := Some "Logged out successfully";
            errors := None; data := NoData;
            cookies :=
              [ClearCookie "refreshToken" clear_cookie_options] |})
    Internal.

Definition getProfile (req : Request) : Prisma Response :=
  try_catch
    (match user req with
     | None => throw "Cannot read properties of undefined"
     | Some caller =>
         found <- prisma.user.findUnique_id (ru_userId caller) ;;
         match found with
         | None => ret NotFound
         | Some u =>
             ret {| status := 200; success := true;
                    message := None; errors := None;
                    data := ProfileOf
                              {| pr_user := public u;
                                 pr_isActive := User.isActive u;
                                 pr_lastLoginAt := User.lastLoginAt u |};
                    cookies := [] |}
         end
     end)
    Internal.

End Handlers.
End AuthController.

(** ** routes/auth.routes.ts: the protected routes *)

Section Routes.
Context {B : Bcrypt} {J : Jwt} {P : ProcessEnv}.

(** [router.post("/logout", authenticate, AuthController.logout)] *)
Definition route_logout (now : Z) (req : Request) : Prisma Response :=
  checked <- authenticate now req ;;
  match checked with
  | inl response => ret response
  | inr req' => AuthController.logout req'
  end.

(** [router.get("/profile", authenticate, AuthController.getProfile)] *)
Definition route_profile (now : Z) (req : Request) : Prisma Response :=
  checked <- authenticate now req ;;
  match checked with
  | inl response => ret response
  | inr req' => AuthController.getProfile req'
  end.

(** One request to the auth router. *)
Inductive Call :=
| PostRegister (env : RegisterEnv) (req : Request)
| PostLogin (env : LoginEnv) (req : Request)
| PostRefreshToken (env : RefreshEnv) (req : Request)
| PostLogout (now : Z) (req : Request)
| GetProfile (now : Z) (req : Request).

Definition serve (c : Call) : Prisma Response :=
  match c with
  | PostRegister env req => AuthController.register env req
  | PostLogin env req => AuthController.login env req
  | PostRefreshToken env req => AuthController.refreshToken env req
  | PostLogout now req => route_logout now req
  | GetProfile now req => route_profile now req
  end.

(** The store after a call, and what the call answered. *)
Definition store_after {A} (m : Prisma A) (db : Store) : Store :=
  fst (m db).

Definition answer {A} (m : Prisma A) (db : Store) : Outcome A :=
  snd (m db).

(** The store after a sequence of calls served one after the other. *)
Fixpoint serve_all (cs : list Call) (db : Store) : Store :=
  match cs with
  | [] => db
  | c :: cs' => serve_all cs' (store_after (serve c) db)
  end.

(** The store after a sequence of login requests. *)
Fixpoint login_all (rs : list (LoginEnv * Request)) (db : Store) : Store :=
  match rs with
  | [] => db
  | (env, req) :: rs' =>
      login_all rs' (store_after (AuthController.login env req) db)
  end.

End Routes.

(** ** The password policy as the specification words it

    These definitions follow the rule list of the specification, not the
    code; [validatePasswordStrength] is compared with them below. *)

Module Policy.












End Policy.





(** ** The login decision as the specification numbers it

    These definitions follow the decision list of the specification, not
    the code; [AuthController.login] is compared with them below. *)

Module Decision.

Inductive Branch :=
| NoUser | Deactivated | Locked | WrongPassword | Granted.

(** The first case that applies, in the order 1 to 5. *)
Definition branch (found : option User.t) (now : Z) (password_ok : bool)
  : Branch :=
  match found with
  | None => NoUser
  | Some u =>
      if negb (User.isActive u) then Deactivated
      else match User.lockoutUntil u with
           | Some until =>
               if now <? until then Locked
               else if password_ok then Granted else WrongPassword
           | None => if password_ok then Granted else WrongPassword
           end
  end.

Definition client_status (b : Branch) : Z :=
  match b with
  | NoUser | Deactivated | WrongPassword => 401
  | Locked => 423
  | Granted => 200
  end.

Definition client_message (b : Branch) : string :=
  match b with
  | NoUser | WrongPassword => "Invalid email or password"
  | Deactivated => "Account has been deactivated"
  | Locked => "Account is temporarily locked due to too many failed attempts"
  | Granted => "Login successful"
  end.

(** A count written out in decimal, by the standard library's printer
    of integers. *)
Definition numeral (n : Z) : string := NilZero.string_of_int (Z.to_int n).

(** The audit reason; [n] is the count after the failed attempt. *)
Definition audit_reason (b : Branch) (n : Z) : string :=
  match b with
  | NoUser => "User not found"
  | Deactivated => "Account deactivated"
  | Locked => "Account locked"
  | WrongPassword => ("Invalid password (attempt " ++ numeral n ++ ")")%string
  | Granted => "Successful login"
  end.

Definition granted (b : Branch) : bool :=
  match b with Granted => true | _ => false end.

End Decision.

(** [u'] is the row [u] up to the two lockout columns. *)
Definition same_account (u u' : User.t) : Prop :=
  User.id u' = User.id u
  /\ User.username u' = User.username u
  /\ User.email u' = User.email u
  /\ User.password u' = User.password u
  /\ User.role u' = User.role u
  /\ User.isActive u' = User.isActive u
  /\ User.passwordChangedAt u' = User.passwordChangedAt u
  /\ User.lastLoginAt u' = User.lastLoginAt u
  /\ User.lastLoginIP u' = User.lastLoginIP u.

(** A login request for the account [u] under email [e] whose password
    the comparison rejects. *)
Definition wrong_for {B : Bcrypt} (e : string) (u : User.t)
    (a : LoginEnv * Request) : Prop :=
  body_email (snd a) = e
  /\ comparePassword (body_password (snd a)) (User.password u) = false.

(** The user a registration would collide with: the result of the
    pre-check query of [register]. *)
Definition existing_user (req : Request) (db : Store) : option User.t :=
  find (fun u => String.eqb (User.email u) (body_email req)
                 || String.eqb (User.username u)
                               (Js.toLowerCase (body_username req)))
       (users db).

(** The data-model invariant on the lockout columns: the counter is not
    negative, and a lockout is set only once the counter has reached the
    threshold. *)
Definition lockout_consistent (u : User.t) : Prop :=
  0 <= User.failedLoginAttempts u
  /\ (User.lockoutUntil u <> None -> 5 <= User.failedLoginAttempts u).

(** What the audit record of a request holds for a header or address
    that may be missing: the value, or "unknown" when it is undefined or
    empty. *)
Definition or_unknown (o : option string) : string :=
  match o with
  | Some s => if String.eqb s EmptyString then "unknown" else s
  | None => "unknown"
  end.

(** What [jwt.sign] returns when asked to sign for a user row at a clock
    reading: the claims are the row's id, username and role; the life
    time is [JWT_ACCESS_EXPIRE], or 15 minutes when that is unset or
    empty; issuer and audience are those of this service.  [None] when
    [jwt.sign] throws. *)
Definition signature_for {J : Jwt} {P : ProcessEnv} (u : User.t) (now : Z)
  : option string :=
  jwt_sign
    {| tc_userId := User.id u;
       tc_username := User.username u;
       tc_role := User.role u |}
    {| expiresIn :=
         Some (match JWT_ACCESS_EXPIRE with
               | Some span => if String.eqb span EmptyString then "15m"
                              else span
               | None => "15m"
               end);
       issuer := "fruit-inventory";
       audience := "fruit-inventory-client" |}
    now.


(** ** Chained middleware *)

Section Guard.
Context {J : Jwt} {P : ProcessEnv}.

(** [authenticate] followed by [authorize(roles)] on one route, the order
    the comment in [authorize] expects; Express chains them so that the
    second runs on the request the first passed on.  (The routes of this
    repository put [authenticate] alone before their handlers.) *)
Definition guard (now : Z) (roles : list string) (req : Request)
  : Prisma (Response + Request) :=
  checked <- authenticate now req ;;
  match checked with
  | inl response => ret (inl response)
  | inr req' => ret (authorize roles req')
  end.

End Guard.

(** The options [verifyAccessToken] passes to [jwt.verify]. *)
Definition verify_options : JwtOptions :=
  {| expiresIn := None;
     issuer := "fruit-inventory";
     audience := "fruit-inventory-client" |}.

(** The request-scoped identity [authenticate] builds from a user row. *)
Definition identity (u : User.t) : ReqUser :=
  {| ru_userId := User.id u;
     ru_username := User.username u;
     ru_role := User.role u |}.

(** ** Notions used to state what the routes keep *)

(** The primary key and the two unique columns of the users table. *)
Definition keys_unique (us : list User.t) : Prop :=
  NoDup (map User.id us)
  /\ NoDup (map User.email us)
  /\ NoDup (map User.username us).

(** Every row of [old] is still at its place in [new] with the same
    identity, credentials and role. *)
Definition accounts_kept (old new : list User.t) : Prop :=
  forall k u,
    nth_error old k = Some u ->
    exists u',
      nth_error new k = Some u'
      /\ User.id u' = User.id u
      /\ User.username u' = User.username u
      /\ User.email u' = User.email u
      /\ User.password u' = User.password u
      /\ User.role u' = User.role u
      /\ User.isActive u' = User.isActive u
      /\ User.passwordChangedAt u' = User.passwordChangedAt u.

(** Every row of [old] is still at its place in [new] with the same
    token, owner and expiry, and still revoked if it was. *)
Definition sessions_kept (old new : list RefreshToken.t) : Prop :=
  forall k r,
    nth_error old k = Some r ->
    exists r',
      nth_error new k = Some r'
      /\ RefreshToken.token r' = RefreshToken.token r
      /\ RefreshToken.userId r' = RefreshToken.userId r
      /\ RefreshToken.expiresAt r' = RefreshToken.expiresAt r
      /\ (RefreshToken.isRevoked r = true -> RefreshToken.isRevoked r' = true).

(** The call is a login that draws [t] as its refresh token. *)
Definition draws (t : string) (c : Call) : Prop :=
  match c with
  | PostLogin env _ => random_token env = t
  | _ => False
  end.

(** ** controllers/fruit.controller.ts: deleteFruit

    The fruit table is kept apart from [Store]: the auth handlers never
    touch it and [deleteFruit] touches nothing else.  A row is its id and
    its other columns, which [deleteFruit] does not look at. *)

Module Fruit.

Record row (Columns : Type) := {
  id : Z;
  columns : Columns
}.
Arguments id {Columns} r.
Arguments columns {Columns} r.

(** White space that [parseInt] skips, among code units below 256. *)
Definition is_space (c : ascii) : bool :=
  let n := Js.code c in
  ((9 <=? n) && (n <=? 13)) || (n =? 32) || (n =? 160).

Fixpoint trim_start (s : string) : string :=
  match s with
  | String c rest => if is_space c then trim_start rest else s
  | EmptyString => EmptyString
  end.

(** The value of the longest prefix of decimal digits, read left to right
    from the value [acc] of the digits already seen; [None] while no digit
    has been seen. *)
Fixpoint digits (acc : option Z) (s : string) : option Z :=
  match s with
  | String c rest =>
      if PasswordService.is_digit c
      then digits (Some (10 * match acc with Some a => a | None => 0 end
                         + (Js.code c - 48)))
                  rest
      else acc
  | EmptyString => acc
  end.

(** [parseInt(s, 10)]; [None] is NaN.  The value is the exact integer
    (JavaScript rounds it to a double above 2^53). *)
Definition parseInt10 (s : string) : option Z :=
  match trim_start s with
  | String c rest =>
      if Ascii.eqb c "-" then option_map Z.opp (digits None rest)
      else if Ascii.eqb c "+" then digits None rest
      else digits None (String c rest)
  | EmptyString => None
  end.

Section Handler.
Context {Columns : Type}.

Definition table : Type := list (row Columns).

(** [findUnique({ where: { id } })] *)
Definition findUnique (i : Z) (rows : table) : option (row Columns) :=
  find (fun r => id r =? i) rows.

(** [delete({ where: { id } })] *)
Definition delete (i : Z) (rows : table) : table :=
  filter (fun r => negb (id r =? i)) rows.

(** [deleteFruit], on the route parameter [req.params.id]; the result is
    the table afterwards and the answer.  The store calls succeed here
    (an id the column cannot hold is a failure of the store). *)
Definition deleteFruit (param : string) (rows : table) : table * Response :=
  match parseInt10 param with
  | None => (rows, failure 400 "Invalid ID")
  | Some i =>
      match findUnique i rows with
      | None => (rows, failure 404 "Fruit not found")
      | Some _ =>
          (delete i rows,
           {| status := 200; success := true;
              message := Some "Fruit deleted successfully";
              errors := None; data := NoData; cookies := [] |})
      end
  end.

End Handler.

(** A string of decimal digits. *)
Definition all_digits (s : string) : Prop :=
  Forall (fun c => PasswordService.is_digit c = true) (Js.chars s).

(** The number a string of decimal digits denotes. *)
Definition number (s : string) : Z :=
  fold_left (fun a c => 10 * a + (Js.code c - 48)) (Js.chars s) 0.

(** The text after the digits: empty, or starting with a non-digit. *)
Definition ends_number (rest : string) : Prop :=
  match rest with
  | String c _ => PasswordService.is_digit c = false
  | EmptyString => True
  end.

End Fruit.

(** The ids a 32-bit integer column can hold. *)
Definition fits_int (i : Z) : Prop := - 2147483648 <= i <= 2147483647.

(** ** Test doubles and sample data

    Stand-ins for the two libraries with fixed, computable behaviour, and
    small stores on which the statements below are exercised. *)

Module Sample.

(** A bcrypt double: the hash is the salt, a separator and the password;
    comparison re-derives it from the salt kept in front. *)
Definition hash_with (password salt : string) : string :=
  (salt ++ "$" ++ password)%string.

Fixpoint compare_with (password hashed : string) : bool :=
  match hashed with
  | EmptyString => false
  | String c rest =>
      if Ascii.eqb c "$" then String.eqb rest password
      else compare_with password rest
  end.

#[local] Instance bcrypt : Bcrypt :=
  {| bcrypt_hash := hash_with; bcrypt_compare := compare_with |}.

(** A jsonwebtoken double.  Signing accepts a few time spans and throws
    on anything else, as the library does on [abc]; the token is the user
    name.  Verification knows the two tokens used below. *)
Definition sign_with (c : TokenClaims) (o : JwtOptions) (_ : Z)
  : option string :=
  match expiresIn o with
  | Some span =>
      if Js.includes ["15m"; "1h"; "7d"] span then Some (tc_username c)
      else None
  | None => Some (tc_username c)
  end.

Definition verify_with (token : string) (_ : JwtOptions) (_ : Z)
  : option JWTPayload :=
  if String.eqb token "alice"
  then Some {| userId := 1; username := "alice"; role := "user";
               iat := Some 1000; exp := Some 1900 |}
  else if String.eqb token "bob"
  then Some {| userId := 2; username := "bob"; role := "user";
               iat := Some 1000; exp := Some 1900 |}
  else None.

#[local] Instance jwt : Jwt :=
  {| jwt_sign := sign_with; jwt_verify := verify_with |}.

#[local] Instance process_env : ProcessEnv :=
  {| JWT_ACCESS_EXPIRE := None |}.

(** A deployment whose [JWT_ACCESS_EXPIRE] is not a time span. *)
Definition misconfigured : ProcessEnv :=
  {| JWT_ACCESS_EXPIRE := Some "abc" |}.

Definition alice : User.t :=
  {| User.id := 1; User.username := "alice"; User.email := "alice@x.com";
     User.password := hash_with "Str0ng!Pass" "salt";
     User.role := "user"; User.isActive := true;
     User.failedLoginAttempts := 0; User.lockoutUntil := None;
     User.passwordChangedAt := None; User.lastLoginAt := None;
     User.lastLoginIP := None |}.

Definition bob : User.t :=
  {| User.id := 2; User.username := "bob"; User.email := "bob@x.com";
     User.password := hash_with "An0ther?Pass" "salt";
     User.role := "user"; User.isActive := true;
     User.failedLoginAttempts := 0; User.lockoutUntil := None;
     User.passwordChangedAt := None; User.lastLoginAt := None;
     User.lastLoginIP := None |}.

Definition request : Request :=
  {| body_username := EmptyString; body_email := EmptyString;
     body_password := EmptyString; ip := Some "10.0.0.1";
     header_userAgent := Some "curl"; header_authorization := None;
     cookie_refreshToken := None; user := None |}.

Definition credentials (n e p : string) : Request :=
  {| body_username := n; body_email := e; body_password := p;
     ip := Some "10.0.0.1"; header_userAgent := Some "curl";
     header_authorization := None; cookie_refreshToken := None;
     user := None |}.

Definition db0 : Store :=
  {| users := [alice; bob]; refreshTokens := []; loginLogs := [] |}.

Definition clock (t : Z) : LoginEnv :=
  {| at_lock_check := t; at_failure := t; at_success := t; at_sign := t;
     at_issue := t; random_token := "c0ffee" |}.

Definition alice_login (p : string) : Request :=
  credentials EmptyString "alice@x.com" p.

(** Alice after five failures, the last at time 5000. *)
Definition alice_locked : User.t :=
  failed_attempt 5 (Some (5000 + LOCKOUT_MS)) alice.



(** Alice locked out until 1,805,000 ms, Bob as he was. *)
Definition db_alice_locked : Store :=
  {| users := [alice_locked; bob]; refreshTokens := []; loginLogs := [] |}.

(** Bob deactivated while a lockout is pending. *)
Definition bob_deactivated : User.t :=
  {| User.id := 2; User.username := "bob"; User.email := "bob@x.com";
     User.password := hash_with "An0ther?Pass" "salt";
     User.role := "user"; User.isActive := false;
     User.failedLoginAttempts := 5;
     User.lockoutUntil := Some (5000 + LOCKOUT_MS);
     User.passwordChangedAt := None; User.lastLoginAt := None;
     User.lastLoginIP := None |}.

Definition db_locked : Store :=
  {| users := [alice_locked; bob_deactivated];
     refreshTokens := []; loginLogs := [] |}.

(** Alice after a password change at 2,000,000 ms; the token the double
    accepts for her was issued at second 1000. *)
Definition alice_changed : User.t :=
  {| User.id := 1; User.username := "alice"; User.email := "alice@x.com";
     User.password := hash_with "N3w!Password" "salt";
     User.role := "user"; User.isActive := true;
     User.failedLoginAttempts := 0; User.lockoutUntil := None;
     User.passwordChangedAt := Some 2000000; User.lastLoginAt := None;
     User.lastLoginIP := None |}.

Definition db_changed : Store :=
  {| users := [alice_changed; bob]; refreshTokens := []; loginLogs := [] |}.

Definition bearer (token : string) : Request :=
  {| body_username := EmptyString; body_email := EmptyString;
     body_password := EmptyString; ip := Some "10.0.0.1";
     header_userAgent := Some "curl";
     header_authorization := Some ("Bearer " ++ token)%string;
     cookie_refreshToken := None; user := None |}.

Definition token_of_alice : RefreshToken.t :=
  {| RefreshToken.token := "aaaa"; RefreshToken.userId := 1;
     RefreshToken.expiresAt := 9000; RefreshToken.isRevoked := false |}.

Definition token_of_bob : RefreshToken.t :=
  {| RefreshToken.token := "bbbb"; RefreshToken.userId := 2;
     RefreshToken.expiresAt := 9000; RefreshToken.isRevoked := false |}.

Definition db_sessions : Store :=
  {| users := [alice; bob];
     refreshTokens := [token_of_alice; token_of_bob];
     loginLogs := [] |}.

Definition as_alice : ReqUser :=
  {| ru_userId := 1; ru_username := "alice"; ru_role := "user" |}.

(** Alice, authenticated, presenting a cookie. *)
Definition alice_presenting (cookie : CookieValue) : Request :=
  {| body_username := EmptyString; body_email := EmptyString;
     body_password := EmptyString; ip := Some "10.0.0.1";
     header_userAgent := Some "curl"; header_authorization := None;
     cookie_refreshToken := Some cookie; user := Some as_alice |}.

(** Alice, authenticated, presenting a cookie whose text is [value]. *)
Definition alice_with_cookie (value : string) : Request :=
  alice_presenting (Text value).

(** The cookie [refreshToken=j:123]: cookie-parser turns it into the
    number 123. *)
Definition cookie_number : CookieValue := Unusable.

(** The cookie whose JSON is an object with the one key [contains] and
    the empty string as its value: cookie-parser turns it into that
    object, a filter that every string passes. *)
Definition cookie_contains_anything : CookieValue := Filter (fun _ => true).

Definition refresh_at (t : Z) : RefreshEnv :=
  {| at_lookup := t; at_resign := t |}.

Definition empty : Store :=
  {| users := []; refreshTokens := []; loginLogs := [] |}.

(** A request carrying both an access token and the refresh cookie. *)
Definition session_request (access cookie : string) : Request :=
  {| body_username := EmptyString; body_email := EmptyString;
     body_password := EmptyString; ip := Some "10.0.0.1";
     header_userAgent := Some "curl";
     header_authorization := Some ("Bearer " ++ access)%string;
     cookie_refreshToken := Some (Text cookie); user := None |}.

End Sample.

(** ** More sample data *)

Module Fixture.
Import Sample.

(** Bob's session, revoked. *)
Definition token_of_bob_revoked : RefreshToken.t :=
  {| RefreshToken.token := "bbbb"; RefreshToken.userId := 2;
     RefreshToken.expiresAt := 9000; RefreshToken.isRevoked := true |}.

Definition db_revoked : Store :=
  {| users := [alice; bob];
     refreshTokens := [token_of_alice; token_of_bob_revoked];
     loginLogs := [] |}.

(** A registration, two logins of Alice and a logout of Alice. *)
Definition traffic : list Call :=
  [ PostRegister {| salt := "salt" |}
      (credentials "Carol" "carol@x.com" "Str0ng!Pass");
    PostLogin (clock 1000) (alice_login "guess");
    PostLogin (clock 2000) (alice_login "Str0ng!Pass");
    PostLogout 3000 (session_request "alice" "c0ffee") ].

(** Three fruit records; the other columns are a label here. *)
Definition fruits : list (Fruit.row string) :=
  [ {| Fruit.id := 11; Fruit.columns := "apple" |};
    {| Fruit.id := 12; Fruit.columns := "banana" |};
    {| Fruit.id := 13; Fruit.columns := "cherry" |} ].

End Fixture.

(** * Properties *)

(** ** The password policy *)

Module PolicyFacts.
Import PasswordService Policy.













End PolicyFacts.


(** ** The tables *)

Module TableFacts.
Import prisma.user.

Lemma by_email_some (e : string) (us : list User.t) (u : User.t) :
  by_email e us = Some u -> In u us /\ User.email u = e.
Proof.
  unfold by_email. intros Hf. apply find_some in Hf.
  destruct Hf as [Hin Heq]. apply String.eqb_eq in Heq. now split.
Qed.

Lemma by_id_some (i : Z) (us : list User.t) (u : User.t) :
  by_id i us = Some u -> In u us /\ User.id u = i.
Proof.
  unfold by_id. intros Hf. apply find_some in Hf.
  destruct Hf as [Hin Heq]. apply Z.eqb_eq in Heq. now split.
Qed.

(** A row that is in the table is reachable through its id. *)
Lemma by_id_of_member (us : list User.t) (u : User.t) :
  In u us -> exists u0, by_id (User.id u) us = Some u0.
Proof.
  intros Hin. unfold by_id.
  destruct (find (fun x => User.id x =? User.id u) us) as [u0 |] eqn:E.
  - now exists u0.
  - apply (find_none _ _ E) in Hin. rewrite Z.eqb_refl in Hin. discriminate.
Qed.

(** An assignment that keeps the email column keeps the order in which
    [by_email] meets the rows. *)
Lemma by_email_assign (e : string) (i : Z) (data : User.t -> User.t)
    (us : list User.t) :
  (forall x, User.email (data x) = User.email x) ->
  by_email e (assign i data us)
  = option_map (fun x => if User.id x =? i then data x else x)
               (by_email e us).
Proof.
  intros Hkeep. unfold by_email, assign.
  induction us as [| x us IH]; cbn [map find option_map]; [reflexivity |].
  assert (Hx : User.email (if User.id x =? i then data x else x)
               = User.email x)
    by (destruct (User.id x =? i); auto).
  rewrite Hx. destruct (String.eqb (User.email x) e); [reflexivity | exact IH].
Qed.

Lemma assign_nth (i : Z) (data : User.t -> User.t) (us : list User.t)
    (k : nat) :
  nth_error (assign i data us) k
  = option_map (fun x => if User.id x =? i then data x else x)
               (nth_error us k).
Proof. unfold assign. apply nth_error_map. Qed.


End TableFacts.

(** ** Login, branch by branch *)

(** Expose the body of [login] up to its first query and its update. *)
Ltac enter_login :=
  unfold AuthController.login, try_catch, bind,
    prisma.user.findUnique_email, prisma.user.update.

Section LoginBranches.
Context {B : Bcrypt} {J : Jwt} {P : ProcessEnv}.
Import prisma.user.

Variables (env : LoginEnv) (req : Request) (db : Store).

(** [generateAccessToken] returns what [jwt.sign] returns for the row,
    and throws when it throws. *)
Lemma generateAccessToken_run (u : User.t) (now : Z) (d : Store) :
  JWTService.generateAccessToken
    {| tc_userId := User.id u;
       tc_username := User.username u;
       tc_role := User.role u |} now d
  = (d, match signature_for u now with
        | Some token => Ok token
        | None => Throw "jwt.sign"
        end).
Proof.
  unfold JWTService.generateAccessToken, signature_for, Js.or_else, ret, throw.
  destruct JWT_ACCESS_EXPIRE as [span |];
    [destruct (String.eqb span EmptyString) |];
    match goal with
    | |- context [jwt_sign ?c ?o ?n] => destruct (jwt_sign c o n)
    end; reflexivity.
Qed.

Lemma login_not_found :
  by_email (body_email req) (users db) = None ->
  AuthController.login env req db
  = (prisma.loginLog.logged db
       (attempt_log req None false "User not found"),
     Ok InvalidCredentials).
Proof.
  intros Hf. enter_login. rewrite Hf. reflexivity.
Qed.

Lemma login_deactivated (u : User.t) :
  by_email (body_email req) (users db) = Some u ->
  User.isActive u = false ->
  AuthController.login env req db
  = (prisma.loginLog.logged db
       (attempt_log req (Some (User.id u)) false "Account deactivated"),
     Ok AccountDeactivated).
Proof.
  intros Hf Ha. enter_login. rewrite Hf, Ha. reflexivity.
Qed.

Lemma login_locked (u : User.t) :
  by_email (body_email req) (users db) = Some u ->
  User.isActive u = true ->
  locked_at (at_lock_check env) u = true ->
  AuthController.login env req db
  = (prisma.loginLog.logged db
       (attempt_log req (Some (User.id u)) false "Account locked"),
     Ok AccountLocked).
Proof.
  intros Hf Ha Hl. enter_login. rewrite Hf, Ha, Hl. reflexivity.
Qed.

Lemma login_wrong_password (u : User.t) :
  by_email (body_email req) (users db) = Some u ->
  User.isActive u = true ->
  locked_at (at_lock_check env) u = false ->
  comparePassword (body_password req) (User.password u) = false ->
  AuthController.login env req db
  = ({| users :=
          assign (User.id u)
            (failed_attempt
               (User.failedLoginAttempts u + 1)
               (if 5 <=? User.failedLoginAttempts u + 1
                then Some (at_failure env + LOCKOUT_MS) else None))
            (users db);
        refreshTokens := refreshTokens db;
        loginLogs :=
          loginLogs db ++
          [attempt_log req (Some (User.id u)) false
             ("Invalid password (attempt "
              ++ Decision.numeral (User.failedLoginAttempts u + 1)
              ++ ")")%string] |},
     Ok InvalidCredentials).
Proof.
  intros Hf Ha Hl Hp.
  destruct (TableFacts.by_id_of_member (users db) u) as [u0 Hu0].
  { now apply TableFacts.by_email_some in Hf. }
  enter_login. rewrite Hf, Ha, Hl, Hp. cbn [negb]. rewrite Hu0. reflexivity.
Qed.

(** The password is right and [jwt.sign] returns a token. *)
Lemma login_success (u : User.t) (token : string) :
  by_email (body_email req) (users db) = Some u ->
  User.isActive u = true ->
  locked_at (at_lock_check env) u = false ->
  comparePassword (body_password req) (User.password u) = true ->
  signature_for u (at_sign env) = Some token ->
  AuthController.login env req db
  = ({| users :=
          assign (User.id u)
            (successful_login (at_success env)
               (Js.or_else (ip req) "unknown"))
            (users db);
        refreshTokens :=
          refreshTokens db ++
          [{| RefreshToken.token := random_token env;
              RefreshToken.userId := User.id u;
              RefreshToken.expiresAt := at_issue env + REFRESH_MS;
              RefreshToken.isRevoked := false |}];
        loginLogs :=
          loginLogs db ++
          [attempt_log req (Some (User.id u)) true "Successful login"] |},
     Ok {| status := 200; success := true;
           message := Some "Login successful"; errors := None;
           data := LoggedIn (public u) token;
           cookies :=
             [SetCookie "refreshToken" (random_token env)
                        refresh_cookie_options] |}).
Proof.
  intros Hf Ha Hl Hp Hs.
  destruct (TableFacts.by_id_of_member (users db) u) as [u0 Hu0].
  { now apply TableFacts.by_email_some in Hf. }
  enter_login. rewrite Hf, Ha, Hl, Hp. cbn [negb]. rewrite Hu0.
  rewrite generateAccessToken_run, Hs. reflexivity.
Qed.

(** The password is right and [jwt.sign] throws: the row has been reset
    already, nothing else is written, and the catch block answers. *)
Lemma login_unsigned (u : User.t) :
  by_email (body_email req) (users db) = Some u ->
  User.isActive u = true ->
  locked_at (at_lock_check env) u = false ->
  comparePassword (body_password req) (User.password u) = true ->
  signature_for u (at_sign env) = None ->
  AuthController.login env req db
  = ({| users :=
          assign (User.id u)
            (successful_login (at_success env)
               (Js.or_else (ip req) "unknown"))
            (users db);
        refreshTokens := refreshTokens db;
        loginLogs := loginLogs db |},
     Ok Internal).
Proof.
  intros Hf Ha Hl Hp Hs.
  destruct (TableFacts.by_id_of_member (users db) u) as [u0 Hu0].
  { now apply TableFacts.by_email_some in Hf. }
  enter_login. rewrite Hf, Ha, Hl, Hp. cbn [negb]. rewrite Hu0.
  rewrite generateAccessToken_run, Hs. reflexivity.
Qed.

End LoginBranches.

(** ** Login: what each branch writes and answers *)

Section LoginProperties.
Context {B : Bcrypt} {J : Jwt} {P : ProcessEnv}.
Import prisma.user.


(** C10. When login rejects because no user has the email, or the user is
    deactivated, or the user is locked, the users table and the refresh
    tokens are exactly as before (so no counter is incremented and no
    lockout changed) and the audit log has grown by one record. *)
Theorem rejected_login_only_logs
    (env : LoginEnv) (req : Request) (db : Store) :
  by_email (body_email req) (users db) = None
  \/ (exists u, by_email (body_email req) (users db) = Some u
                /\ (User.isActive u = false
                    \/ locked_at (at_lock_check env) u = true)) ->
  let after := store_after (AuthController.login env req) db in
  users after = users db
  /\ by_email (body_email req) (users after)
     = by_email (body_email req) (users db)
  /\ refreshTokens after = refreshTokens db
  /\ exists l, loginLogs after = loginLogs db ++ [l].
Proof.
  intros Hcase after. unfold after, store_after.
  destruct Hcase as [Hnone | [u [Hf Hwhy]]].
  - rewrite (login_not_found env req db Hnone). cbn. eauto.
  - destruct (User.isActive u) eqn:Ha.
    + destruct Hwhy as [Hwhy | Hl]; [discriminate |].
      rewrite (login_locked env req db u Hf Ha Hl). cbn. eauto.
    + rewrite (login_deactivated env req db u Hf Ha). cbn. eauto.
Qed.

Lemma branch_locked_at (u : User.t) (now : Z) (ok : bool) :
  User.isActive u = true ->
  Decision.branch (Some u) now ok
  = if locked_at now u then Decision.Locked
    else if ok then Decision.Granted else Decision.WrongPassword.
Proof.
  intros Ha. unfold Decision.branch, locked_at. rewrite Ha. cbn [negb].
  destruct (User.lockoutUntil u) as [until |]; [| reflexivity].
  destruct (now <? until); reflexivity.
Qed.

(** C4 (amended: the fifth case answers 200 only when the access token
    gets signed).  Login answers and logs by the first case that applies
    in the order: no user, deactivated, locked, wrong password, success.
    The client sees the same generic message in the first and the fourth
    case, a message of their own in the second and the third, and the
    appended audit record carries the case's own reason (with N the new
    count in the fourth case).  The one exception is the fifth case when
    [jwt.sign] throws: the catch block answers 500 "Internal server
    error" and no audit record is written. *)
Theorem login_follows_decision_order
    (env : LoginEnv) (req : Request) (db : Store) :
  let found := by_email (body_email req) (users db) in
  let password_ok :=
    match found with
    | Some u => comparePassword (body_password req) (User.password u)
    | None => false
    end in
  let n :=
    match found with
    | Some u => User.failedLoginAttempts u + 1
    | None => 0
    end in
  let b := Decision.branch found (at_lock_check env) password_ok in
  let unsigned :=
    b = Decision.Granted
    /\ exists u, found = Some u /\ signature_for u (at_sign env) = None in
  let after := store_after (AuthController.login env req) db in
  exists response,
    answer (AuthController.login env req) db = Ok response
    /\ ((unsigned
         /\ response = Internal
         /\ loginLogs after = loginLogs db)
        \/ (~ unsigned
            /\ status response = Decision.client_status b
            /\ message response = Some (Decision.client_message b)
            /\ loginLogs after
               = loginLogs db ++
                 [{| LoginLog.userId := option_map User.id found;
                     LoginLog.email := body_email req;
                     LoginLog.ipAddress := or_unknown (ip req);
                     LoginLog.userAgent := or_unknown (header_userAgent req);
                     LoginLog.success := Decision.granted b;
                     LoginLog.reason := Decision.audit_reason b n |}])).
Proof.
  unfold store_after, answer. cbv zeta.
  destruct (by_email (body_email req) (users db)) as [u |] eqn:Hf.
  - destruct (User.isActive u) eqn:Ha.
    + rewrite (branch_locked_at u _ _ Ha).
      destruct (locked_at (at_lock_check env) u) eqn:Hl.
      * rewrite (login_locked env req db u Hf Ha Hl).
        eexists. split; [reflexivity |]. right.
        split; [intros [Hb _]; discriminate |].
        repeat split; reflexivity.
      * destruct (comparePassword (body_password req) (User.password u))
          eqn:Hp.
        -- destruct (signature_for u (at_sign env)) as [token |] eqn:Hs.
           ++ rewrite (login_success env req db u token Hf Ha Hl Hp Hs).
              eexists. split; [reflexivity |]. right. split.
              ** intros [_ (u' & [= <-] & Hnone)]. congruence.
              ** repeat split; reflexivity.
           ++ rewrite (login_unsigned env req db u Hf Ha Hl Hp Hs).
              eexists. split; [reflexivity |]. left.
              repeat split; eauto.
        -- rewrite (login_wrong_password env req db u Hf Ha Hl Hp).
           eexists. split; [reflexivity |]. right.
           split; [intros [Hb _]; discriminate |].
           repeat split; reflexivity.
    + rewrite (login_deactivated env req db u Hf Ha).
      unfold Decision.branch. rewrite Ha.
      eexists. split; [reflexivity |]. right.
      split; [intros [Hb _]; discriminate |].
      repeat split; reflexivity.
  - rewrite (login_not_found env req db Hf).
    eexists. split; [reflexivity |]. right.
    split; [intros [Hb _]; discriminate |].
    repeat split; reflexivity.
Qed.

End LoginProperties.

(** ** Lockout over consecutive attempts *)

Section Lockout.
Context {B : Bcrypt} {J : Jwt} {P : ProcessEnv}.
Import prisma.user.

(** The account row after one failed password comparison. *)
Lemma row_after_failure
    (env : LoginEnv) (req : Request) (db : Store) (u : User.t) :
  by_email (body_email req) (users db) = Some u ->
  User.isActive u = true ->
  locked_at (at_lock_check env) u = false ->
  comparePassword (body_password req) (User.password u) = false ->
  by_email (body_email req)
           (users (store_after (AuthController.login env req) db))
  = Some (failed_attempt
            (User.failedLoginAttempts u + 1)
            (if 5 <=? User.failedLoginAttempts u + 1
             then Some (at_failure env + LOCKOUT_MS) else None)
            u).
Proof.
  intros Hf Ha Hl Hp. unfold store_after.
  rewrite (login_wrong_password env req db u Hf Ha Hl Hp).
  cbn [fst users]. rewrite TableFacts.by_email_assign by reflexivity.
  rewrite Hf. cbn [option_map]. now rewrite Z.eqb_refl.
Qed.

(** The account row after a login with the right password, whether or
    not the token gets signed afterwards. *)
Lemma row_after_success
    (env : LoginEnv) (req : Request) (db : Store) (u : User.t) :
  by_email (body_email req) (users db) = Some u ->
  User.isActive u = true ->
  locked_at (at_lock_check env) u = false ->
  comparePassword (body_password req) (User.password u) = true ->
  by_email (body_email req)
           (users (store_after (AuthController.login env req) db))
  = Some (successful_login (at_success env)
            (Js.or_else (ip req) "unknown") u).
Proof.
  intros Hf Ha Hl Hp. unfold store_after.
  destruct (signature_for u (at_sign env)) as [token |] eqn:Hs;
    [rewrite (login_success env req db u token Hf Ha Hl Hp Hs)
    | rewrite (login_unsigned env req db u Hf Ha Hl Hp Hs)];
    cbn [fst users]; rewrite TableFacts.by_email_assign by reflexivity;
    rewrite Hf; cbn [option_map]; now rewrite Z.eqb_refl.
Qed.

Lemma same_account_refl (u : User.t) : same_account u u.
Proof. unfold same_account. tauto. Qed.

Lemma same_account_failed (u u' : User.t) (n : Z) (l : option Z) :
  same_account u u' -> same_account u (failed_attempt n l u').
Proof. unfold same_account. cbn. tauto. Qed.

Lemma login_all_app (xs ys : list (LoginEnv * Request)) (db : Store) :
  login_all (xs ++ ys) db = login_all ys (login_all xs db).
Proof.
  revert db. induction xs as [| [env req] xs IH]; intros db; cbn; auto.
Qed.

(** Failures that keep the count below five leave the account unlocked
    and add up in the counter. *)
Lemma failure_streak (e : string) (u : User.t)
    (attempts : list (LoginEnv * Request)) :
  forall (db : Store) (u0 : User.t),
    by_email e (users db) = Some u0 ->
    same_account u u0 ->
    User.isActive u = true ->
    match attempts with
    | a :: _ => locked_at (at_lock_check (fst a)) u0 = false
    | [] => True
    end ->
    Forall (wrong_for e u) attempts ->
    User.failedLoginAttempts u0 + Z.of_nat (List.length attempts) < 5 ->
    exists u',
      by_email e (users (login_all attempts db)) = Some u'
      /\ same_account u u'
      /\ User.failedLoginAttempts u'
         = User.failedLoginAttempts u0 + Z.of_nat (List.length attempts)
      /\ (attempts <> [] -> User.lockoutUntil u' = None).
Proof.
  induction attempts as [| [env req] rest IH]; intros db u0 Hf Hsame Ha Hl Hw Hn.
  - exists u0. cbn [login_all List.length].
    split; [exact Hf |]. split; [exact Hsame |]. split; [cbn; lia |].
    intros Hne. now elim Hne.
  - rename Hl into Hl1.
    inversion Hw as [| ? ? [He Hp] Hwr]; subst.
    cbn [fst snd] in *. cbn [login_all].
    assert (Ha0 : User.isActive u0 = true)
      by (destruct Hsame as (_ & _ & _ & _ & _ & -> & _); exact Ha).
    assert (Hp0 : comparePassword (body_password req) (User.password u0)
                  = false)
      by (destruct Hsame as (_ & _ & _ & -> & _); exact Hp).
    pose proof (row_after_failure env req db u0 Hf Ha0 Hl1 Hp0) as Hrow.
    cbn [List.length] in Hn. rewrite Nat2Z.inj_succ in Hn.
    assert (E : (5 <=? User.failedLoginAttempts u0 + 1) = false)
      by (apply Z.leb_gt; lia).
    rewrite E in Hrow.
    destruct (IH _ _ Hrow) as [u' (Hf' & Hs' & Hc' & Hnone)].
    + now apply same_account_failed.
    + exact Ha.
    + now destruct rest.
    + exact Hwr.
    + cbn. lia.
    + exists u'. split; [exact Hf' |]. split; [exact Hs' |]. split.
      * rewrite Hc'. cbn [List.length]. rewrite Nat2Z.inj_succ. cbn. lia.
      * intros _. destruct rest as [| a rest'].
        -- cbn [login_all] in Hf'. rewrite Hrow in Hf'.
           injection Hf' as <-. reflexivity.
        -- apply Hnone. discriminate.
Qed.

Lemma same_account_trans (u v w : User.t) :
  same_account u v -> same_account v w -> same_account u w.
Proof. unfold same_account. intuition congruence. Qed.

(** One attempt with a wrong password: refused as locked and nothing
    changes, or counted. *)
Lemma wrong_password_step
    (env : LoginEnv) (req : Request) (db : Store) (u0 : User.t) :
  by_email (body_email req) (users db) = Some u0 ->
  User.isActive u0 = true ->
  comparePassword (body_password req) (User.password u0) = false ->
  exists u1,
    by_email (body_email req)
             (users (store_after (AuthController.login env req) db))
    = Some u1
    /\ same_account u0 u1
    /\ ((User.lockoutUntil u0 <> None /\ u1 = u0)
        \/ (User.failedLoginAttempts u1 = User.failedLoginAttempts u0 + 1
            /\ (5 <= User.failedLoginAttempts u1
                <-> User.lockoutUntil u1 <> None))).
Proof.
  intros Hf Ha Hp.
  destruct (locked_at (at_lock_check env) u0) eqn:Hl.
  - exists u0. unfold store_after.
    rewrite (login_locked env req db u0 Hf Ha Hl). cbn [fst].
    split; [exact Hf |]. split; [apply same_account_refl |]. left.
    split; [| reflexivity]. unfold locked_at in Hl.
    destruct (User.lockoutUntil u0); [discriminate | discriminate].
  - eexists. split; [apply (row_after_failure env req db u0 Hf Ha Hl Hp) |].
    split; [apply same_account_failed, same_account_refl |]. right.
    cbn [failed_attempt User.failedLoginAttempts User.lockoutUntil].
    split; [reflexivity |].
    destruct (5 <=? User.failedLoginAttempts u0 + 1) eqn:E;
      [apply Z.leb_le in E | apply Z.leb_gt in E];
      split; intros; try discriminate; try lia; congruence.
Qed.

(** Wrong passwords in a row, on an account whose lockout columns are
    consistent: the counter reaches the threshold within five attempts
    and, from the first attempt on, the account is locked exactly when
    the counter has reached it. *)
Lemma wrong_password_streak (e : string) (u : User.t)
    (attempts : list (LoginEnv * Request)) :
  forall (db : Store) (u0 : User.t),
    by_email e (users db) = Some u0 ->
    same_account u u0 ->
    User.isActive u = true ->
    (User.lockoutUntil u0 <> None -> 5 <= User.failedLoginAttempts u0) ->
    Forall (wrong_for e u) attempts ->
    exists u',
      by_email e (users (login_all attempts db)) = Some u'
      /\ same_account u u'
      /\ (User.lockoutUntil u' <> None -> 5 <= User.failedLoginAttempts u')
      /\ (User.failedLoginAttempts u0 + Z.of_nat (List.length attempts)
          <= User.failedLoginAttempts u'
          \/ 5 <= User.failedLoginAttempts u')
      /\ (attempts <> [] ->
          5 <= User.failedLoginAttempts u' ->
          User.lockoutUntil u' <> None).
Proof.
  induction attempts as [| [env req] rest IH]; intros db u0 Hf Hsame Ha Hc Hw.
  - exists u0. cbn [login_all List.length].
    split; [exact Hf |]. split; [exact Hsame |]. split; [exact Hc |].
    split; [left; cbn; lia |]. intros Hne. now elim Hne.
  - inversion Hw as [| ? ? [He Hp] Hwr]; subst. cbn [fst snd] in *.
    cbn [login_all].
    assert (Ha0 : User.isActive u0 = true)
      by (destruct Hsame as (_ & _ & _ & _ & _ & -> & _); exact Ha).
    assert (Hp0 : comparePassword (body_password req) (User.password u0)
                  = false)
      by (destruct Hsame as (_ & _ & _ & -> & _); exact Hp).
    destruct (wrong_password_step env req db u0 Hf Ha0 Hp0)
      as (u1 & Hf1 & Hs1 & Hstep).
    assert (Hc1 : User.lockoutUntil u1 <> None ->
                  5 <= User.failedLoginAttempts u1).
    { destruct Hstep as [[_ ->] | [_ Hiff]]; [exact Hc | apply Hiff]. }
    destruct (IH _ u1 Hf1 (same_account_trans _ _ _ Hsame Hs1) Ha Hc1 Hwr)
      as (u' & Hf' & Hs' & Hc' & Hgrow & Hlock).
    exists u'. split; [exact Hf' |]. split; [exact Hs' |].
    split; [exact Hc' |]. split.
    + cbn [List.length]. rewrite Nat2Z.inj_succ.
      destruct Hstep as [[Hset ->] | [Hinc _]].
      * specialize (Hc Hset). lia.
      * lia.
    + intros _ Hfive. destruct rest as [| a rest'].
      * cbn [login_all] in Hf'. rewrite Hf1 in Hf'. injection Hf' as <-.
        destruct Hstep as [[Hset ->] | [_ Hiff]];
          [exact Hset | now apply Hiff].
      * apply Hlock; [discriminate | exact Hfive].
Qed.

Lemma locked_at_future (u : User.t) (now until : Z) :
  User.lockoutUntil u = Some until -> now < until -> locked_at now u = true.
Proof. intros Hu Hlt. unfold locked_at. rewrite Hu. now apply Z.ltb_lt. Qed.

Lemma locked_at_elapsed (u : User.t) (now : Z) :
  (forall until, User.lockoutUntil u = Some until -> until <= now) ->
  locked_at now u = false.
Proof.
  intros Hu. unfold locked_at.
  destruct (User.lockoutUntil u) as [until |]; [| reflexivity].
  apply Z.ltb_ge. now apply Hu.
Qed.

(** The answer to a login with the right password on an open account:
    200 when [jwt.sign] returns, 500 when it throws. *)
Lemma login_granted_answer
    (env : LoginEnv) (req : Request) (db : Store) (u : User.t) :
  by_email (body_email req) (users db) = Some u ->
  User.isActive u = true ->
  locked_at (at_lock_check env) u = false ->
  comparePassword (body_password req) (User.password u) = true ->
  (forall token,
      signature_for u (at_sign env) = Some token ->
      answer (AuthController.login env req) db
      = Ok {| status := 200; success := true;
              message := Some "Login successful"; errors := None;
              data := LoggedIn (public u) token;
              cookies :=
                [SetCookie "refreshToken" (random_token env)
                           refresh_cookie_options] |})
  /\ (signature_for u (at_sign env) = None ->
      answer (AuthController.login env req) db = Ok Internal).
Proof.
  intros Hf Ha Hl Hp. unfold answer. split.
  - intros token Hs.
    now rewrite (login_success env req db u token Hf Ha Hl Hp Hs).
  - intros Hs. now rewrite (login_unsigned env req db u Hf Ha Hl Hp Hs).
Qed.

(** C2 (amended: the account is active, and a login succeeds only when
    the access token gets signed).  (a) While an active user's
    [lockoutUntil] is set and in the future, login answers
    [AccountLocked], status 423, whatever the password.  (b) Once an
    active user's [lockoutUntil] is null or has elapsed, login with the
    correct password leaves [failedLoginAttempts] at 0 and [lockoutUntil]
    null; it answers 200 with the token [jwt.sign] returned, and 500 when
    [jwt.sign] throws.  (c) After five consecutive wrong-password logins
    on an active account whose lockout columns are consistent, the
    account has a [lockoutUntil]; a sixth attempt before that time
    answers [AccountLocked] even with the correct password, and a sixth
    attempt with the correct password at or after that time resets the
    counter to 0 and is answered as in (b).  (d) When the counter was 0
    before the five attempts, that time is 30 minutes after the fifth
    failure and the counter is 5. *)
Theorem lockout_blocks_then_releases :
  (forall env req db u until,
      by_email (body_email req) (users db) = Some u ->
      User.isActive u = true ->
      User.lockoutUntil u = Some until ->
      at_lock_check env < until ->
      answer (AuthController.login env req) db = Ok AccountLocked
      /\ status AccountLocked = 423)
  /\ (forall env req db u,
        by_email (body_email req) (users db) = Some u ->
        User.isActive u = true ->
        (forall until, User.lockoutUntil u = Some until ->
                       until <= at_lock_check env) ->
        comparePassword (body_password req) (User.password u) = true ->
        (exists u',
            by_email (body_email req)
              (users (store_after (AuthController.login env req) db))
            = Some u'
            /\ User.failedLoginAttempts u' = 0
            /\ User.lockoutUntil u' = None)
        /\ (forall token,
              signature_for u (at_sign env) = Some token ->
              exists response,
                answer (AuthController.login env req) db = Ok response
                /\ status response = 200
                /\ success response = true
                /\ data response = LoggedIn (public u) token)
        /\ (signature_for u (at_sign env) = None ->
            answer (AuthController.login env req) db = Ok Internal))
  /\ (forall e u db attempts,
        by_email e (users db) = Some u ->
        User.isActive u = true ->
        lockout_consistent u ->
        List.length attempts = 5%nat ->
        Forall (wrong_for e u) attempts ->
        let db5 := login_all attempts db in
        exists u5 until,
          by_email e (users db5) = Some u5
          /\ same_account u u5
          /\ User.lockoutUntil u5 = Some until
          /\ (forall env6 req6,
                body_email req6 = e ->
                at_lock_check env6 < until ->
                answer (AuthController.login env6 req6) db5
                = Ok AccountLocked)
          /\ (forall env6 req6,
                body_email req6 = e ->
                until <= at_lock_check env6 ->
                comparePassword (body_password req6) (User.password u)
                = true ->
                (exists u',
                    by_email e
                      (users (store_after
                                (AuthController.login env6 req6) db5))
                    = Some u'
                    /\ User.failedLoginAttempts u' = 0
                    /\ User.lockoutUntil u' = None)
                /\ (forall token,
                      signature_for u5 (at_sign env6) = Some token ->
                      exists response,
                        answer (AuthController.login env6 req6) db5
                        = Ok response
                        /\ status response = 200
                        /\ success response = true
                        /\ data response = LoggedIn (public u5) token)
                /\ (signature_for u5 (at_sign env6) = None ->
                    answer (AuthController.login env6 req6) db5
                    = Ok Internal)))
  /\ (forall e u db a1 a2 a3 a4 a5,
        by_email e (users db) = Some u ->
        User.isActive u = true ->
        User.failedLoginAttempts u = 0 ->
        locked_at (at_lock_check (fst a1)) u = false ->
        Forall (wrong_for e u) [a1; a2; a3; a4; a5] ->
        exists u5,
          by_email e (users (login_all [a1; a2; a3; a4; a5] db)) = Some u5
          /\ same_account u u5
          /\ User.failedLoginAttempts u5 = 5
          /\ User.lockoutUntil u5
             = Some (at_failure (fst a5) + 30 * 60 * 1000)).
Proof.
  assert (Hlocked : forall env req db u until,
             by_email (body_email req) (users db) = Some u ->
             User.isActive u = true ->
             User.lockoutUntil u = Some until ->
             at_lock_check env < until ->
             answer (AuthController.login env req) db = Ok AccountLocked).
  { intros env req db u until Hf Ha Hu Hlt. unfold answer.
    now rewrite (login_locked env req db u Hf Ha
                   (locked_at_future u _ _ Hu Hlt)). }
  assert (Hopen : forall env req db u,
             by_email (body_email req) (users db) = Some u ->
             User.isActive u = true ->
             (forall until, User.lockoutUntil u = Some until ->
                            until <= at_lock_check env) ->
             comparePassword (body_password req) (User.password u) = true ->
             (exists u',
                 by_email (body_email req)
                   (users (store_after (AuthController.login env req) db))
                 = Some u'
                 /\ User.failedLoginAttempts u' = 0
                 /\ User.lockoutUntil u' = None)
             /\ (forall token,
                   signature_for u (at_sign env) = Some token ->
                   exists response,
                     answer (AuthController.login env req) db = Ok response
                     /\ status response = 200
                     /\ success response = true
                     /\ data response = LoggedIn (public u) token)
             /\ (signature_for u (at_sign env) = None ->
                 answer (AuthController.login env req) db = Ok Internal)).
  { intros env req db u Hf Ha Hu Hp.
    pose proof (locked_at_elapsed u _ Hu) as Hl.
    destruct (login_granted_answer env req db u Hf Ha Hl Hp) as [Hyes Hno].
    split; [| split].
    - eexists. rewrite (row_after_success env req db u Hf Ha Hl Hp).
      repeat split; reflexivity.
    - intros token Hs. eexists. rewrite (Hyes token Hs).
      repeat split; reflexivity.
    - exact Hno. }
  split; [| split; [| split]].
  - intros env req db u until Hf Ha Hu Hlt. split; [eauto | reflexivity].
  - exact Hopen.
  - intros e u db attempts Hf Ha [Hpos Hcons] Hlen Hw db5.
    destruct (wrong_password_streak e u attempts db u Hf
                (same_account_refl u) Ha Hcons Hw)
      as (u5 & Hf5 & Hs5 & _ & Hgrow & Hlock).
    assert (Hfive : 5 <= User.failedLoginAttempts u5).
    { rewrite Hlen in Hgrow. cbn in Hgrow. lia. }
    assert (Hne : attempts <> []) by (intros ->; discriminate).
    specialize (Hlock Hne Hfive).
    destruct (User.lockoutUntil u5) as [until |] eqn:Hu5; [| congruence].
    pose proof Hs5 as (_ & _ & _ & Hpw & _ & Hact & _).
    exists u5, until. split; [exact Hf5 |]. split; [exact Hs5 |].
    split; [exact Hu5 |]. split.
    + intros env6 req6 He6 Hlt.
      apply (Hlocked env6 req6 db5 u5 until).
      * rewrite He6. exact Hf5.
      * congruence.
      * exact Hu5.
      * exact Hlt.
    + intros env6 req6 He6 Hge Hp6.
      assert (Hrow : by_email (body_email req6) (users db5) = Some u5)
        by (rewrite He6; exact Hf5).
      assert (Hact5 : User.isActive u5 = true) by congruence.
      assert (Hgone : forall l, User.lockoutUntil u5 = Some l ->
                                l <= at_lock_check env6).
      { intros l Hl. rewrite Hu5 in Hl. injection Hl as <-. exact Hge. }
      assert (Hp5 : comparePassword (body_password req6) (User.password u5)
                    = true) by congruence.
      destruct (Hopen env6 req6 db5 u5 Hrow Hact5 Hgone Hp5)
        as (Hreset & Hyes & Hno).
      rewrite He6 in Hreset. auto.
  - intros e u db a1 a2 a3 a4 a5 Hf Ha H0 Hl Hw.
    change [a1; a2; a3; a4; a5] with ([a1; a2; a3; a4] ++ [a5]) in Hw.
    apply Forall_app in Hw. destruct Hw as [Hw4 Hw5].
    apply Forall_inv in Hw5. destruct Hw5 as [He5 Hp5].
    destruct (failure_streak e u [a1; a2; a3; a4] db u Hf
                (same_account_refl u) Ha Hl Hw4)
      as [u4 (Hf4 & Hs4 & Hc4 & Hn4)].
    { rewrite H0. cbn. lia. }
    specialize (Hn4 ltac:(discriminate)).
    rewrite H0 in Hc4. cbn in Hc4.
    pose proof Hs4 as (Hid & _ & _ & Hpw & _ & Hact & _).
    exists (failed_attempt 5 (Some (at_failure (fst a5) + 30 * 60 * 1000)) u4).
    split; [| split; [now apply same_account_failed | split; reflexivity]].
    change [a1; a2; a3; a4; a5] with ([a1; a2; a3; a4] ++ [a5]).
    rewrite login_all_app. destruct a5 as [env5 req5].
    cbn [fst snd] in *. subst e.
    change (login_all [(env5, req5)] ?d)
      with (store_after (AuthController.login env5 req5) d).
    rewrite (row_after_failure env5 req5
               (login_all [a1; a2; a3; a4] db) u4 Hf4).
    + rewrite Hc4. reflexivity.
    + congruence.
    + unfold locked_at. now rewrite Hn4.
    + congruence.
Qed.

End Lockout.

(** ** The authentication middleware *)

Section MiddlewareProperties.
Context {J : Jwt} {P : ProcessEnv}.
Import prisma.user.

Lemma substring_all (s : string) :
  String.substring 0 (String.length s) s = s.
Proof. induction s as [| c s IH]; cbn; [reflexivity | now rewrite IH]. Qed.

(** [extractTokenFromHeader] returns what follows the scheme. *)
Lemma extractTokenFromHeader_bearer (token : string) :
  JWTService.extractTokenFromHeader (Some ("Bearer " ++ token)%string)
  = Some token.
Proof.
  unfold JWTService.extractTokenFromHeader, Js.substring_from. cbn.
  assert (Hp : String.prefix EmptyString token = true)
    by (destruct token; reflexivity).
  rewrite Hp. cbn [negb]. rewrite Nat.sub_0_r. now rewrite substring_all.
Qed.

(** When the row reached through the id is active, it is the row the
    middleware's query returns. *)
Lemma findFirst_id_active_by_id (i : Z) (us : list User.t) (u : User.t) :
  by_id i us = Some u ->
  User.isActive u = true ->
  find (fun x => (User.id x =? i) && Bool.eqb (User.isActive x) true) us
  = Some u.
Proof.
  unfold by_id. induction us as [| x us IH]; cbn [find]; [discriminate |].
  destruct (User.id x =? i); cbn [andb].
  - intros [= ->] ->. reflexivity.
  - exact IH.
Qed.

Lemma truthy_nonempty (s : string) :
  s <> EmptyString -> Js.truthy (Some s) = true.
Proof.
  intros Hs. unfold Js.truthy. destruct (String.eqb_spec s EmptyString);
    [contradiction | reflexivity].
Qed.

(** The middleware only reads the store. *)
Lemma authenticate_reads_only (now : Z) (req : Request) (db : Store) :
  store_after (authenticate now req) db = db.
Proof.
  unfold store_after, authenticate, try_catch, bind,
    JWTService.verifyAccessToken, findFirst_id_active, ret, throw.
  destruct (JWTService.extractTokenFromHeader (header_authorization req))
    as [token |]; [| reflexivity].
  destruct (negb (Js.truthy (Some token))); [reflexivity |].
  destruct (jwt_verify token _ now) as [payload |]; [| reflexivity].
  cbn. destruct (find _ (users db)) as [u |]; [| reflexivity].
  destruct (issued_before_change payload u); reflexivity.
Qed.

(** C5. Let the request carry a bearer token that [verifyAccessToken]
    accepts with payload [payload], and let the user the payload refers
    to be in the table and active.  If that user has a password-change
    time later than the token's issued-at time (its [iat] in seconds,
    times 1000), the middleware answers [StaleToken], status 401;
    otherwise it calls the next handler on the incoming request with
    [req.user] set to the id, username and role of the user's row, and
    nothing else changed.  The store is not written. *)
Theorem authenticate_rejects_stale_tokens
    (now : Z) (req : Request) (db : Store)
    (token : string) (payload : JWTPayload) (u : User.t) :
  header_authorization req = Some ("Bearer " ++ token)%string ->
  token <> EmptyString ->
  answer (JWTService.verifyAccessToken token now) db = Ok payload ->
  by_id (userId payload) (users db) = Some u ->
  User.isActive u = true ->
  let stale :=
    exists changed issued,
      User.passwordChangedAt u = Some changed
      /\ iat payload = Some issued
      /\ issued * 1000 < changed in
  (stale -> answer (authenticate now req) db = Ok (inl StaleToken))
  /\ (~ stale ->
      answer (authenticate now req) db
      = Ok (inr {| body_username := body_username req;
                   body_email := body_email req;
                   body_password := body_password req;
                   ip := ip req;
                   header_userAgent := header_userAgent req;
                   header_authorization := header_authorization req;
                   cookie_refreshToken := cookie_refreshToken req;
                   user := Some {| ru_userId := User.id u;
                                   ru_username := User.username u;
                                   ru_role := User.role u |} |}))
  /\ status StaleToken = 401
  /\ store_after (authenticate now req) db = db.
Proof.
  intros Hh Ht Hv Hu Ha stale.
  assert (Hrun : answer (authenticate now req) db
                 = Ok (if issued_before_change payload u
                       then inl StaleToken
                       else inr (attach_user req
                                   {| ru_userId := User.id u;
                                      ru_username := User.username u;
                                      ru_role := User.role u |}))).
  { unfold answer, authenticate, try_catch, bind, findFirst_id_active in *.
    rewrite Hh, extractTokenFromHeader_bearer, (truthy_nonempty _ Ht).
    cbn [negb].
    destruct (JWTService.verifyAccessToken token now db) as [db' [p |]] eqn:E;
      cbn [snd] in Hv; [| discriminate].
    injection Hv as ->.
    assert (db' = db) as ->.
    { unfold JWTService.verifyAccessToken, ret, throw in E.
      destruct (jwt_verify token _ now); now inversion E. }
    rewrite (findFirst_id_active_by_id _ _ _ Hu Ha).
    destruct (issued_before_change payload u); reflexivity. }
  assert (Hdec : issued_before_change payload u = true <-> stale).
  { unfold issued_before_change, stale. split.
    - destruct (User.passwordChangedAt u) as [c |]; [| discriminate].
      destruct (iat payload) as [i |]; [| discriminate].
      intros Hlt. apply Z.ltb_lt in Hlt. eauto.
    - intros (c & i & -> & -> & Hlt). now apply Z.ltb_lt. }
  repeat split.
  - intros Hs. apply Hdec in Hs. now rewrite Hrun, Hs.
  - intros Hs. rewrite Hrun.
    destruct (issued_before_change payload u); [| reflexivity].
    exfalso. apply Hs. now apply Hdec.
  - apply authenticate_reads_only.
Qed.

End MiddlewareProperties.

(** ** Logout and refresh *)

Section SessionProperties.
Context {B : Bcrypt} {J : Jwt} {P : ProcessEnv}.
Import prisma.refreshToken.

(** The test Prisma builds accepts the values that match the cookie. *)
Lemma where_string_matches (v : CookieValue) (test : string -> bool) :
  where_string v = Some test ->
  forall value, test value = true <-> matches v value.
Proof.
  destruct v as [s | accepts |]; cbn; intros [= <-] value;
    [apply String.eqb_eq | tauto].
Qed.

(** The cookie counts as present unless it is missing or the empty
    string. *)
Lemma cookie_truthy_iff (v : CookieValue) :
  cookie_truthy (Some v) = true <-> v <> Text EmptyString.
Proof.
  destruct v as [s | accepts |]; cbn; [| split; congruence ..].
  destruct (String.eqb_spec s EmptyString) as [-> | Hne]; cbn.
  - split; [discriminate | intros H; now elim H].
  - split; [intros _ [= ->]; now elim Hne | reflexivity].
Qed.

Lemma where_string_none (v : CookieValue) :
  where_string v = None <-> v = Unusable.
Proof. destruct v; cbn; split; (discriminate || reflexivity). Qed.

(** Logout for an authenticated caller, case by case on the cookie. *)
Lemma logout_run (req : Request) (db : Store) (caller : ReqUser) :
  user req = Some caller ->
  AuthController.logout req db
  = match cookie_refreshToken req with
    | Some v =>
        if cookie_truthy (Some v) then
          match where_string v with
          | Some test =>
              ({| users := users db;
                  refreshTokens :=
                    revoke_owned test (ru_userId caller) (refreshTokens db);
                  loginLogs := loginLogs db |},
               Ok {| status := 200; success := true;
                     message := Some "Logged out successfully";
                     errors := None; data := NoData;
                     cookies := [ClearCookie "refreshToken"
                                             clear_cookie_options] |})
          | None => (db, Ok Internal)
          end
        else
          (db, Ok {| status := 200; success := true;
                     message := Some "Logged out successfully";
                     errors := None; data := NoData;
                     cookies := [ClearCookie "refreshToken"
                                             clear_cookie_options] |})
    | None =>
        (db, Ok {| status := 200; success := true;
                   message := Some "Logged out successfully";
                   errors := None; data := NoData;
                   cookies := [ClearCookie "refreshToken"
                                           clear_cookie_options] |})
    end.
Proof.
  intros Hu. unfold AuthController.logout, try_catch, bind, ret,
    updateMany_revoke.
  rewrite Hu. destruct (cookie_refreshToken req) as [v |]; [| reflexivity].
  destruct (cookie_truthy (Some v)); [| reflexivity].
  destruct (where_string v); reflexivity.
Qed.

(** What revoking the caller's matching rows does to one row. *)
Lemma revoke_owned_nth (test : string -> bool) (i : Z)
    (rs : list RefreshToken.t) (k : nat) (r : RefreshToken.t) :
  nth_error rs k = Some r ->
  nth_error (revoke_owned test i rs) k
  = Some (if owned_by test i r then revoke r else r).
Proof.
  intros Hk. unfold revoke_owned. now rewrite nth_error_map, Hk.
Qed.

(** C6 (amended: success unless the store rejects the cookie value).
    For an authenticated caller, logout leaves users and audit records
    alone and keeps every refresh-token row in place with its token,
    owner and expiry; a row owned by another user, or whose token does not
    match the cookie, is unchanged in every field; a row whose token
    matches a cookie that is there and not empty, and whose owner is the
    caller, has [isRevoked] set.  Logout answers success and clears the
    [refreshToken] cookie, whether or not a row matched, for every cookie
    that is absent, a string or a string filter; for a cookie of another
    JSON type (such as the number of [j:123]) the store rejects the query,
    logout answers 500 without clearing the cookie, and nothing is
    written. *)
Theorem logout_revokes_only_own_token
    (req : Request) (db : Store) (caller : ReqUser) :
  user req = Some caller ->
  let after := store_after (AuthController.logout req) db in
  let said := answer (AuthController.logout req) db in
  users after = users db
  /\ loginLogs after = loginLogs db
  /\ List.length (refreshTokens after) = List.length (refreshTokens db)
  /\ (forall k r,
        nth_error (refreshTokens db) k = Some r ->
        exists r',
          nth_error (refreshTokens after) k = Some r'
          /\ RefreshToken.token r' = RefreshToken.token r
          /\ RefreshToken.userId r' = RefreshToken.userId r
          /\ RefreshToken.expiresAt r' = RefreshToken.expiresAt r
          /\ (RefreshToken.userId r <> ru_userId caller -> r' = r)
          /\ (cookie_refreshToken req = None -> r' = r)
          /\ (forall v,
                cookie_refreshToken req = Some v ->
                ~ matches v (RefreshToken.token r) ->
                r' = r)
          /\ (forall v,
                cookie_refreshToken req = Some v ->
                v <> Text EmptyString ->
                matches v (RefreshToken.token r) ->
                RefreshToken.userId r = ru_userId caller ->
                RefreshToken.isRevoked r' = true))
  /\ (cookie_refreshToken req <> Some Unusable ->
      said
      = Ok {| status := 200; success := true;
              message := Some "Logged out successfully";
              errors := None; data := NoData;
              cookies :=
                [ClearCookie "refreshToken"
                   {| httpOnly := true; secure := true; sameSite := "none";
                      path := "/"; maxAge := None |}] |})
  /\ (cookie_refreshToken req = Some Unusable ->
      said = Ok Internal
      /\ status Internal = 500
      /\ cookies Internal = []
      /\ after = db).
Proof.
  intros Hu after said. unfold after, said, store_after, answer.
  rewrite (logout_run req db caller Hu).
  destruct (cookie_refreshToken req) as [v |].
  - destruct (cookie_truthy (Some v)) eqn:Ht.
    + destruct (where_string v) as [test |] eqn:Hw.
      * pose proof (where_string_matches v test Hw) as Hm.
        cbn [fst snd users refreshTokens loginLogs].
        split; [reflexivity |]. split; [reflexivity |].
        split; [apply length_map |]. split; [| split].
        -- intros k r Hk. rewrite (revoke_owned_nth test _ _ k r Hk).
           eexists. split; [reflexivity |]. unfold owned_by.
           destruct (test (RefreshToken.token r)) eqn:Et;
             destruct (Z.eqb_spec (RefreshToken.userId r) (ru_userId caller))
               as [Hid | Hid];
             cbn [andb revoke RefreshToken.token RefreshToken.userId
                    RefreshToken.expiresAt RefreshToken.isRevoked];
             repeat split; intros; try reflexivity; try congruence;
               try contradiction.
           ++ match goal with
              | H : Some _ = Some ?w, N : ~ matches ?w _ |- _ =>
                  injection H as <-; exfalso; apply N, Hm, Et
              end.
           ++ match goal with
              | H : Some _ = Some ?w, M : matches ?w _ |- _ =>
                  injection H as <-; apply Hm in M; congruence
              end.
        -- reflexivity.
        -- intros [= Hv]. subst v. discriminate.
      * apply where_string_none in Hw. subst v.
        cbn [fst snd].
        split; [reflexivity |]. split; [reflexivity |].
        split; [reflexivity |]. split; [| split].
        -- intros k r Hk. exists r. repeat split; auto.
           intros v [= <-] _ Hm. destruct Hm.
        -- intros Hne. now elim Hne.
        -- intros _. repeat split; reflexivity.
    + cbn [fst snd].
      split; [reflexivity |]. split; [reflexivity |].
      split; [reflexivity |]. split; [| split].
      * intros k r Hk. exists r. repeat split; auto.
        intros v' [= <-] Ht'. apply cookie_truthy_iff in Ht'. congruence.
      * reflexivity.
      * intros [= Hv]. subst v. discriminate.
  - cbn [fst snd].
    split; [reflexivity |]. split; [reflexivity |].
    split; [reflexivity |]. split; [| split].
    + intros k r Hk. exists r. repeat split; auto; discriminate.
    + reflexivity.
    + discriminate.
Qed.

Lemma refresh_reads_only (env : RefreshEnv) (req : Request) (db : Store) :
  store_after (AuthController.refreshToken env req) db = db.
Proof.
  unfold store_after, AuthController.refreshToken, try_catch, bind, ret,
    findFirst_usable_with_user.
  destruct (cookie_refreshToken req) as [presented |]; [| reflexivity].
  destruct (negb (cookie_truthy (Some presented))); [reflexivity |].
  destruct (where_string presented) as [test |]; [| reflexivity].
  destruct (first_usable test (at_lookup env) (refreshTokens db))
    as [r |]; [| reflexivity].
  destruct (owner r (users db)) as [o |]; [| reflexivity].
  cbn. destruct (negb (User.isActive o)); [reflexivity |].
  rewrite generateAccessToken_run.
  destruct (signature_for o (at_resign env)); reflexivity.
Qed.

(** What [usable] decides. *)
Lemma usable_iff (test : string -> bool) (now : Z) (r : RefreshToken.t) :
  usable test now r = true
  <-> test (RefreshToken.token r) = true
      /\ RefreshToken.isRevoked r = false
      /\ now < RefreshToken.expiresAt r.
Proof.
  unfold usable. rewrite !andb_true_iff, Z.ltb_lt.
  destruct (RefreshToken.isRevoked r); cbn; intuition congruence.
Qed.

Lemma first_usable_none (test : string -> bool) (now : Z)
    (rs : list RefreshToken.t) :
  first_usable test now rs = None
  <-> ~ exists r, In r rs
                  /\ test (RefreshToken.token r) = true
                  /\ RefreshToken.isRevoked r = false
                  /\ now < RefreshToken.expiresAt r.
Proof.
  unfold first_usable. split.
  - intros Hn [r [Hin Hr]]. apply usable_iff in Hr.
    pose proof (find_none _ _ Hn r Hin). congruence.
  - intros Hno. destruct (find (usable test now) rs) as [r |] eqn:E; auto.
    exfalso. apply Hno. apply find_some in E. destruct E as [Hin Hr].
    exists r. split; auto. now apply usable_iff.
Qed.

(** Refresh with a cookie the store can read, case by case on the row
    found. *)
Lemma refresh_run (env : RefreshEnv) (req : Request) (db : Store)
    (v : CookieValue) (test : string -> bool) :
  cookie_refreshToken req = Some v ->
  cookie_truthy (Some v) = true ->
  where_string v = Some test ->
  answer (AuthController.refreshToken env req) db
  = match first_usable test (at_lookup env) (refreshTokens db) with
    | None => Ok InvalidToken
    | Some r =>
        match owner r (users db) with
        | None => Ok Internal
        | Some o =>
            if User.isActive o
            then match signature_for o (at_resign env) with
                 | Some token =>
                     Ok {| status := 200; success := true;
                           message := None; errors := None;
                           data := Refreshed token;
                           cookies := [] |}
                 | None => Ok Internal
                 end
            else Ok InvalidToken
        end
    end.
Proof.
  intros Hc Ht Hw.
  unfold answer, AuthController.refreshToken, try_catch, bind,
    ret, findFirst_usable_with_user.
  rewrite Hc, Ht, Hw. cbn [negb].
  destruct (first_usable test (at_lookup env) (refreshTokens db))
    as [r |]; [| reflexivity].
  destruct (owner r (users db)) as [o |]; [| reflexivity].
  cbn. destruct (User.isActive o); [| reflexivity]. cbn [negb].
  rewrite generateAccessToken_run.
  destruct (signature_for o (at_resign env)); reflexivity.
Qed.

(** C7 (amended: a cookie of a JSON type the store rejects is answered
    500).  Refresh never writes the store, so the refresh-token row is
    not rotated or modified.  Without a cookie value (undefined or the
    empty string) it answers [MissingToken].  With a cookie of a JSON
    type that is neither a string nor a string filter, the store rejects
    the query and the answer is 500.  Otherwise it answers [InvalidToken]
    exactly when no row matches the cookie, is unrevoked and expires
    after now, or the owner of the first such row is inactive.  When the
    first such row has an active owner, the answer is a success carrying
    the access token [jwt.sign] returned for the owner's current id,
    username and role, and 500 when [jwt.sign] throws. *)
Theorem refresh_outcomes
    (env : RefreshEnv) (req : Request) (db : Store) :
  let said := answer (AuthController.refreshToken env req) db in
  store_after (AuthController.refreshToken env req) db = db
  /\ status MissingToken = 401
  /\ status InvalidToken = 401
  /\ status Internal = 500
  /\ (cookie_refreshToken req = None
      \/ cookie_refreshToken req = Some (Text EmptyString) ->
      said = Ok MissingToken)
  /\ (cookie_refreshToken req = Some Unusable -> said = Ok Internal)
  /\ (forall v test,
        cookie_refreshToken req = Some v ->
        v <> Text EmptyString ->
        where_string v = Some test ->
        (said = Ok InvalidToken
         <-> (~ exists r, In r (refreshTokens db)
                          /\ matches v (RefreshToken.token r)
                          /\ RefreshToken.isRevoked r = false
                          /\ at_lookup env < RefreshToken.expiresAt r)
             \/ (exists r o,
                    first_usable test (at_lookup env)
                                 (refreshTokens db) = Some r
                    /\ owner r (users db) = Some o
                    /\ User.isActive o = false))
        /\ (forall r o,
              first_usable test (at_lookup env) (refreshTokens db)
              = Some r ->
              owner r (users db) = Some o ->
              User.isActive o = true ->
              matches v (RefreshToken.token r)
              /\ (forall token,
                    signature_for o (at_resign env) = Some token ->
                    said
                    = Ok {| status := 200; success := true;
                            message := None; errors := None;
                            data := Refreshed token;
                            cookies := [] |})
              /\ (signature_for o (at_resign env) = None ->
                  said = Ok Internal))).
Proof.
  intros said. split; [apply refresh_reads_only |].
  split; [reflexivity |]. split; [reflexivity |]. split; [reflexivity |].
  split; [| split].
  - unfold said, answer, AuthController.refreshToken, try_catch, bind, ret.
    intros [-> | ->]; reflexivity.
  - intros Hc. unfold said, answer, AuthController.refreshToken, try_catch,
      bind, ret, findFirst_usable_with_user.
    rewrite Hc. reflexivity.
  - intros v test Hc Ht Hw. apply cookie_truthy_iff in Ht.
    pose proof (where_string_matches v test Hw) as Hm.
    pose proof (refresh_run env req db v test Hc Ht Hw) as Hrun.
    fold said in Hrun.
    assert (Hnone :
      first_usable test (at_lookup env) (refreshTokens db) = None
      <-> ~ exists r, In r (refreshTokens db)
                      /\ matches v (RefreshToken.token r)
                      /\ RefreshToken.isRevoked r = false
                      /\ at_lookup env < RefreshToken.expiresAt r).
    { rewrite first_usable_none. split; intros Hn (r & Hin & Hr & Hrest);
        apply Hn; exists r; split; auto; split; auto; now apply Hm. }
    split.
    + rewrite Hrun. rewrite <- Hnone.
      destruct (first_usable test (at_lookup env) (refreshTokens db))
        as [r |] eqn:Er.
      * destruct (owner r (users db)) as [o |] eqn:Eo.
        -- destruct (User.isActive o) eqn:Ea.
           ++ split.
              ** destruct (signature_for o (at_resign env)); discriminate.
              ** intros [Hn | (r' & o' & [= <-] & Ho & Ha)];
                   [discriminate | congruence].
           ++ split; [| reflexivity]. intros _. right. eauto.
        -- split; [discriminate |].
           intros [Hn | (r' & o' & [= <-] & Ho & Ha)];
             [discriminate | congruence].
      * split; [now left | reflexivity].
    + intros r o Hr Ho Ha. split; [| split].
      * apply Hm. unfold first_usable in Hr. apply find_some in Hr.
        destruct Hr as [_ Hr]. now apply usable_iff in Hr.
      * intros token Hs. now rewrite Hrun, Hr, Ho, Ha, Hs.
      * intros Hs. now rewrite Hrun, Hr, Ho, Ha, Hs.
Qed.

End SessionProperties.

(** ** The protected routes *)

Section RouteFacts.
Context {B : Bcrypt} {J : Jwt} {P : ProcessEnv}.

(** A handler wrapped in [try]/[catch] answers; it does not throw. *)
Lemma try_catch_answers {A} (body : Prisma A) (handler : A) (db d : Store)
    (e : string) :
  try_catch body handler db = (d, Throw e) -> False.
Proof.
  unfold try_catch. destruct (body db) as [d' [a | x]]; discriminate.
Qed.

(** When the middleware lets a request through, it has attached a
    caller and left the cookie alone. *)
Lemma authenticate_attaches (now : Z) (req req' : Request) (db : Store) :
  answer (authenticate now req) db = Ok (inr req') ->
  exists caller,
    user req' = Some caller
    /\ cookie_refreshToken req' = cookie_refreshToken req.
Proof.
  unfold answer, authenticate, try_catch, bind,
    JWTService.verifyAccessToken, prisma.user.findFirst_id_active, ret, throw.
  destruct (JWTService.extractTokenFromHeader (header_authorization req))
    as [token |]; [| discriminate].
  destruct (negb (Js.truthy (Some token))); [discriminate |].
  destruct (jwt_verify token _ now) as [payload |]; [| discriminate].
  cbn. destruct (find _ (users db)) as [u |]; [| discriminate].
  destruct (issued_before_change payload u); [discriminate |].
  cbn. intros [= <-]. eexists. split; reflexivity.
Qed.

(** A protected route answers with the middleware's rejection, or runs
    its handler, on the same store, on a request that carries a caller
    and the incoming cookie. *)
Lemma route_outcome (now : Z) (req : Request) (db : Store)
    (handler : Request -> Prisma Response) :
  let route :=
    checked <- authenticate now req ;;
    match checked with
    | inl response => ret response
    | inr req' => handler req'
    end in
  (exists rejection,
      answer (authenticate now req) db = Ok (inl rejection)
      /\ route db = (db, Ok rejection))
  \/ (exists req' caller,
         answer (authenticate now req) db = Ok (inr req')
         /\ user req' = Some caller
         /\ cookie_refreshToken req' = cookie_refreshToken req
         /\ route db = handler req' db).
Proof.
  pose proof (authenticate_reads_only now req db) as Hpure.
  pose proof (authenticate_attaches now req) as Hatt.
  unfold answer, store_after, bind in *. cbv zeta.
  destruct (authenticate now req db) as [db' [[rejection | req'] | e]] eqn:E;
    cbn [fst snd] in *; subst db'.
  - left. eauto.
  - right. destruct (Hatt req' db) as (caller & Hc & Hk).
    { rewrite E. reflexivity. }
    exists req', caller. auto.
  - exfalso. unfold authenticate in E.
    exact (try_catch_answers _ (inl InvalidAccessToken) db db e E).
Qed.

End RouteFacts.

(** ** The audit log *)

Section AuditProperties.
Context {B : Bcrypt} {J : Jwt} {P : ProcessEnv}.
Import prisma.user.

Lemma register_conflict
    (env : RegisterEnv) (req : Request) (db : Store) (existing : User.t) :
  existing_user req db = Some existing ->
  AuthController.register env req db
  = (db, Ok (Conflict (if String.eqb (User.email existing) (body_email req)
                       then "Email already exists"
                       else "Username already exists"))).
Proof.
  intros He. unfold AuthController.register, try_catch, bind, ret,
    findFirst_email_or_username.
  unfold existing_user in He. rewrite He. reflexivity.
Qed.

Lemma register_weak
    (env : RegisterEnv) (req : Request) (db : Store) :
  existing_user req db = None ->
  PasswordService.valid
    (PasswordService.validatePasswordStrength (body_password req)) = false ->
  AuthController.register env req db
  = (db, Ok (WeakPassword
               (PasswordService.errors
                  (PasswordService.validatePasswordStrength
                     (body_password req))))).
Proof.
  intros He Hv. unfold AuthController.register, try_catch, bind, ret,
    findFirst_email_or_username.
  unfold existing_user in He. rewrite He, Hv. reflexivity.
Qed.

Lemma register_created
    (env : RegisterEnv) (req : Request) (db : Store) :
  existing_user req db = None ->
  PasswordService.valid
    (PasswordService.validatePasswordStrength (body_password req)) = true ->
  let created :=
    with_defaults (next_id (users db))
      (Js.toLowerCase (body_username req)) (body_email req)
      (hashPassword (body_password req) (salt env)) in
  AuthController.register env req db
  = ({| users := users db ++ [created];
        refreshTokens := refreshTokens db;
        loginLogs :=
          loginLogs db ++
          [attempt_log req (Some (User.id created)) true
             "User registration"] |},
     Ok {| status := 201; success := true;
           message := Some "User registered successfully";
           errors := None; data := Registered (public created);
           cookies := [] |}).
Proof.
  intros He Hv. unfold AuthController.register, try_catch, bind, ret,
    findFirst_email_or_username.
  unfold existing_user in He. rewrite He, Hv. reflexivity.
Qed.

(** A login is answered, and appends one audit record unless it ends
    in the catch block, which happens exactly when the password was right
    and [jwt.sign] threw. *)
Lemma login_appends_one (env : LoginEnv) (req : Request) (db : Store) :
  let after := store_after (AuthController.login env req) db in
  exists response,
    answer (AuthController.login env req) db = Ok response
    /\ ((status response <> 500
         /\ exists uid ok why,
              loginLogs after
              = loginLogs db ++
                [{| LoginLog.userId := uid;
                    LoginLog.email := body_email req;
                    LoginLog.ipAddress := or_unknown (ip req);
                    LoginLog.userAgent := or_unknown (header_userAgent req);
                    LoginLog.success := ok;
                    LoginLog.reason := why |}])
        \/ (response = Internal
            /\ loginLogs after = loginLogs db
            /\ exists u,
                 prisma.user.by_email (body_email req) (users db) = Some u
                 /\ User.isActive u = true
                 /\ locked_at (at_lock_check env) u = false
                 /\ comparePassword (body_password req) (User.password u)
                    = true
                 /\ signature_for u (at_sign env) = None)).
Proof.
  unfold store_after, answer. cbv zeta.
  destruct (prisma.user.by_email (body_email req) (users db)) as [u |] eqn:Hf.
  - destruct (User.isActive u) eqn:Ha.
    + destruct (locked_at (at_lock_check env) u) eqn:Hl.
      * rewrite (login_locked env req db u Hf Ha Hl). eexists.
        split; [reflexivity |]. left. cbn. split; [discriminate | do 3 eexists; reflexivity].
      * destruct (comparePassword (body_password req) (User.password u))
          eqn:Hp.
        -- destruct (signature_for u (at_sign env)) as [token |] eqn:Hs.
           ++ rewrite (login_success env req db u token Hf Ha Hl Hp Hs).
              eexists. split; [reflexivity |]. left. cbn.
              split; [discriminate | do 3 eexists; reflexivity].
           ++ rewrite (login_unsigned env req db u Hf Ha Hl Hp Hs).
              eexists. split; [reflexivity |]. right. cbn.
              split; [reflexivity |]. split; [reflexivity |].
              exists u. auto.
        -- rewrite (login_wrong_password env req db u Hf Ha Hl Hp).
           eexists. split; [reflexivity |]. left. cbn.
           split; [discriminate | do 3 eexists; reflexivity].
    + rewrite (login_deactivated env req db u Hf Ha). eexists.
      split; [reflexivity |]. left. cbn. split; [discriminate | do 3 eexists; reflexivity].
  - rewrite (login_not_found env req db Hf). eexists.
    split; [reflexivity |]. left. cbn. split; [discriminate | do 3 eexists; reflexivity].
Qed.

Lemma logout_keeps_log (req : Request) (db : Store) :
  loginLogs (store_after (AuthController.logout req) db) = loginLogs db.
Proof.
  unfold store_after, AuthController.logout, try_catch, bind, ret, throw,
    prisma.refreshToken.updateMany_revoke.
  destruct (cookie_truthy (cookie_refreshToken req)); [| reflexivity].
  destruct (cookie_refreshToken req) as [presented |]; [| reflexivity].
  destruct (user req) as [caller |]; [| reflexivity].
  destruct (where_string presented); reflexivity.
Qed.

Lemma getProfile_reads_only (req : Request) (db : Store) :
  store_after (AuthController.getProfile req) db = db.
Proof.
  unfold store_after, AuthController.getProfile, try_catch, bind, ret, throw,
    findUnique_id.
  destruct (user req) as [caller |]; [| reflexivity].
  destruct (by_id (ru_userId caller) (users db)); reflexivity.
Qed.

(** A step through the middleware: the handler runs on the same store. *)
Lemma behind_middleware (now : Z) (req : Request) (db : Store)
    (handler : Request -> Prisma Response) :
  store_after
    (checked <- authenticate now req ;;
     match checked with
     | inl response => ret response
     | inr req' => handler req'
     end) db = db
  \/ exists req',
       store_after
         (checked <- authenticate now req ;;
          match checked with
          | inl response => ret response
          | inr req' => handler req'
          end) db
       = store_after (handler req') db.
Proof.
  pose proof (authenticate_reads_only now req db) as Hpure.
  unfold store_after, bind in *.
  destruct (authenticate now req db) as [db' [[response | req'] | e]];
    cbn [fst] in Hpure; subst db'; cbn; eauto.
Qed.

Lemma serve_extends_log (c : Call) (db : Store) :
  exists suffix,
    loginLogs (store_after (serve c) db) = loginLogs db ++ suffix
    /\ (List.length suffix <= 1)%nat.
Proof.
  destruct c as [env req | env req | env req | now req | now req];
    cbn [serve].
  - destruct (existing_user req db) as [existing |] eqn:He.
    + unfold store_after. rewrite (register_conflict env req db _ He).
      exists []. rewrite app_nil_r. cbn. auto.
    + destruct (PasswordService.valid
                  (PasswordService.validatePasswordStrength
                     (body_password req))) eqn:Hv.
      * unfold store_after. rewrite (register_created env req db He Hv).
        cbn. eauto.
      * unfold store_after. rewrite (register_weak env req db He Hv).
        exists []. rewrite app_nil_r. cbn. auto.
  - destruct (login_appends_one env req db)
      as (response & _ & [[_ (uid & ok & why & Hl)] | (_ & Hl & _)]);
      rewrite Hl.
    + eauto.
    + exists []. rewrite app_nil_r. cbn. auto.
  - rewrite refresh_reads_only. exists []. rewrite app_nil_r. cbn. auto.
  - exists []. rewrite app_nil_r. split; [| cbn; auto].
    unfold route_logout.
    destruct (behind_middleware now req db AuthController.logout)
      as [-> | [req' ->]]; [reflexivity | apply logout_keeps_log].
  - exists []. rewrite app_nil_r. split; [| cbn; auto].
    unfold route_profile.
    destruct (behind_middleware now req db AuthController.getProfile)
      as [-> | [req' ->]]; [reflexivity |].
    now rewrite getProfile_reads_only.
Qed.

(** C1 (amended: a rejected registration writes no audit record, and
    neither does a login that ends in the catch block).  Every login
    attempt is answered; unless the answer is 500 it appends exactly one
    audit record, carrying the attempted email, the ip, the user agent, a
    success flag and a reason.  When the answer is 500 the log is
    unchanged, and that happens only when the account was open, the
    password right and [jwt.sign] threw.  A register attempt appends exactly one record,
    with success set and reason "User registration", when it creates the
    user; when it is rejected with [Conflict] or [WeakPassword] the log
    is unchanged.  Refresh, logout and profile requests leave the log
    unchanged, and after any sequence of requests the earlier log is
    still there, in order, as a prefix of the log. *)
Theorem audit_log_append_only :
  (forall env req db,
      let after := store_after (AuthController.login env req) db in
      exists response,
        answer (AuthController.login env req) db = Ok response
        /\ ((status response <> 500
             /\ exists uid ok why,
                  loginLogs after
                  = loginLogs db ++
                    [{| LoginLog.userId := uid;
                        LoginLog.email := body_email req;
                        LoginLog.ipAddress := or_unknown (ip req);
                        LoginLog.userAgent :=
                          or_unknown (header_userAgent req);
                        LoginLog.success := ok;
                        LoginLog.reason := why |}])
            \/ (response = Internal
                /\ loginLogs after = loginLogs db
                /\ exists u,
                     prisma.user.by_email (body_email req) (users db)
                     = Some u
                     /\ User.isActive u = true
                     /\ locked_at (at_lock_check env) u = false
                     /\ comparePassword (body_password req)
                                        (User.password u) = true
                     /\ signature_for u (at_sign env) = None)))
  /\ (forall env req db,
        let after := store_after (AuthController.register env req) db in
        exists response,
          answer (AuthController.register env req) db = Ok response
          /\ ((status response = 201
               /\ exists uid,
                    loginLogs after
                    = loginLogs db ++
                      [{| LoginLog.userId := Some uid;
                          LoginLog.email := body_email req;
                          LoginLog.ipAddress := or_unknown (ip req);
                          LoginLog.userAgent :=
                            or_unknown (header_userAgent req);
                          LoginLog.success := true;
                          LoginLog.reason := "User registration" |}])
              \/ ((status response = 409 \/ status response = 400)
                  /\ loginLogs after = loginLogs db)))
  /\ (forall env req db,
        loginLogs (store_after (AuthController.refreshToken env req) db)
        = loginLogs db)
  /\ (forall now req db,
        loginLogs (store_after (route_logout now req) db) = loginLogs db)
  /\ (forall now req db,
        loginLogs (store_after (route_profile now req) db) = loginLogs db)
  /\ (forall calls db,
        exists suffix,
          loginLogs (serve_all calls db) = loginLogs db ++ suffix).
Proof.
  split; [exact login_appends_one |]. split; [| split; [| split; [| split]]].
  - intros env req db after. unfold after, store_after, answer.
    destruct (existing_user req db) as [existing |] eqn:He.
    + rewrite (register_conflict env req db _ He). eexists.
      split; [reflexivity |]. right. cbn. auto.
    + destruct (PasswordService.valid
                  (PasswordService.validatePasswordStrength
                     (body_password req))) eqn:Hv.
      * rewrite (register_created env req db He Hv). eexists.
        split; [reflexivity |]. left.
        split; [reflexivity | eexists; reflexivity].
      * rewrite (register_weak env req db He Hv). eexists.
        split; [reflexivity |]. right. cbn. auto.
  - intros env req db. now rewrite refresh_reads_only.
  - intros now req db. unfold route_logout.
    destruct (behind_middleware now req db AuthController.logout)
      as [-> | [req' ->]]; [reflexivity | apply logout_keeps_log].
  - intros now req db. unfold route_profile.
    destruct (behind_middleware now req db AuthController.getProfile)
      as [-> | [req' ->]]; [reflexivity |].
    now rewrite getProfile_reads_only.
  - induction calls as [| c calls IH]; intros db; cbn [serve_all].
    + exists []. now rewrite app_nil_r.
    + destruct (serve_extends_log c db) as [s1 [H1 _]].
      destruct (IH (store_after (serve c) db)) as [s2 H2].
      exists (s1 ++ s2). now rewrite H2, H1, app_assoc.
Qed.

End AuditProperties.

(** ** Stored credentials *)

Section StoredCredentials.
Context {B : Bcrypt} {J : Jwt} {P : ProcessEnv}.

Lemma find_app_none {A} (p : A -> bool) (xs ys : list A) :
  find p xs = None -> find p (xs ++ ys) = find p ys.
Proof.
  induction xs as [| x xs IH]; cbn; [reflexivity |].
  destruct (p x); [discriminate | exact IH].
Qed.

(** A successful registration stores the output of [hashPassword], and
    that is what a later login hands to [comparePassword]. *)
Lemma register_stores_hash
    (env : RegisterEnv) (req : Request) (db : Store) :
  existing_user req db = None ->
  PasswordService.valid
    (PasswordService.validatePasswordStrength (body_password req)) = true ->
  prisma.user.by_email (body_email req)
    (users (store_after (AuthController.register env req) db))
  = Some (prisma.user.with_defaults (prisma.user.next_id (users db))
            (Js.toLowerCase (body_username req)) (body_email req)
            (hashPassword (body_password req) (salt env))).
Proof.
  intros He Hv. unfold store_after.
  rewrite (register_created env req db He Hv). cbn [fst users].
  unfold prisma.user.by_email.
  assert (Hnone : find (fun u => String.eqb (User.email u) (body_email req))
                       (users db) = None).
  { unfold existing_user in He.
    destruct (find (fun u => String.eqb (User.email u) (body_email req))
                   (users db)) as [u |] eqn:E; [| reflexivity].
    apply find_some in E. destruct E as [Hin Heq].
    pose proof (find_none _ _ He u Hin) as Hno. cbn in Hno.
    rewrite Heq in Hno. discriminate. }
  rewrite (find_app_none _ _ _ Hnone). cbn. now rewrite String.eqb_refl.
Qed.

End StoredCredentials.

(** ** The lockout columns stay consistent *)

Section LockoutInvariant.
Context {B : Bcrypt} {J : Jwt} {P : ProcessEnv}.
Import prisma.user.

Lemma assign_forall (Q : User.t -> Prop) (i : Z) (data : User.t -> User.t)
    (us : list User.t) :
  Forall Q us ->
  (forall x, In x us -> User.id x = i -> Q (data x)) ->
  Forall Q (assign i data us).
Proof.
  intros HQ Hdata. unfold assign. apply Forall_forall.
  intros y Hy. apply in_map_iff in Hy. destruct Hy as (x & <- & Hx).
  destruct (Z.eqb_spec (User.id x) i) as [Hi | Hi].
  - now apply Hdata.
  - rewrite Forall_forall in HQ. now apply HQ.
Qed.

Lemma login_keeps_lockout_consistent
    (env : LoginEnv) (req : Request) (db : Store) :
  Forall lockout_consistent (users db) ->
  Forall lockout_consistent
         (users (store_after (AuthController.login env req) db)).
Proof.
  intros Hinv. unfold store_after.
  destruct (by_email (body_email req) (users db)) as [u |] eqn:Hf.
  - assert (Hu : lockout_consistent u).
    { rewrite Forall_forall in Hinv. apply Hinv.
      now apply TableFacts.by_email_some in Hf. }
    destruct (User.isActive u) eqn:Ha.
    + destruct (locked_at (at_lock_check env) u) eqn:Hl.
      * now rewrite (login_locked env req db u Hf Ha Hl).
      * destruct (comparePassword (body_password req) (User.password u))
          eqn:Hp.
        -- destruct (signature_for u (at_sign env)) as [token |] eqn:Hs;
             [rewrite (login_success env req db u token Hf Ha Hl Hp Hs)
             | rewrite (login_unsigned env req db u Hf Ha Hl Hp Hs)];
             cbn [fst users]; (apply assign_forall; [exact Hinv |]);
             intros x _ _; unfold lockout_consistent; cbn;
             (split; [lia | congruence]).
        -- rewrite (login_wrong_password env req db u Hf Ha Hl Hp).
           cbn [fst users]. apply assign_forall; [exact Hinv |].
           intros x _ _. destruct Hu as [Hpos _].
           unfold lockout_consistent. cbn. split; [lia |].
           destruct (5 <=? User.failedLoginAttempts u + 1) eqn:E;
             [apply Z.leb_le in E; auto | congruence].
    + now rewrite (login_deactivated env req db u Hf Ha).
  - now rewrite (login_not_found env req db Hf).
Qed.

Lemma logout_keeps_users (req : Request) (db : Store) :
  users (store_after (AuthController.logout req) db) = users db.
Proof.
  unfold store_after, AuthController.logout, try_catch, bind, ret, throw,
    prisma.refreshToken.updateMany_revoke.
  destruct (cookie_truthy (cookie_refreshToken req)); [| reflexivity].
  destruct (cookie_refreshToken req) as [presented |]; [| reflexivity].
  destruct (user req) as [caller |]; [| reflexivity].
  destruct (where_string presented); reflexivity.
Qed.

(** Every request to the auth router keeps every account's lockout
    columns consistent; a registration creates a consistent account. *)
Lemma serve_keeps_lockout_consistent (c : Call) (db : Store) :
  Forall lockout_consistent (users db) ->
  Forall lockout_consistent (users (store_after (serve c) db)).
Proof.
  intros Hinv.
  destruct c as [env req | env req | env req | now req | now req];
    cbn [serve].
  - unfold store_after.
    destruct (existing_user req db) as [existing |] eqn:He.
    + now rewrite (register_conflict env req db _ He).
    + destruct (PasswordService.valid
                  (PasswordService.validatePasswordStrength
                     (body_password req))) eqn:Hv.
      * rewrite (register_created env req db He Hv). cbn [fst users].
        apply Forall_app. split; [exact Hinv |].
        constructor; [| constructor].
        unfold lockout_consistent. cbn. split; [lia | congruence].
      * now rewrite (register_weak env req db He Hv).
  - now apply login_keeps_lockout_consistent.
  - now rewrite refresh_reads_only.
  - unfold route_logout.
    destruct (behind_middleware now req db AuthController.logout)
      as [-> | [req' ->]]; [exact Hinv | now rewrite logout_keeps_users].
  - unfold route_profile.
    destruct (behind_middleware now req db AuthController.getProfile)
      as [-> | [req' ->]]; [exact Hinv |].
    now rewrite getProfile_reads_only.
Qed.

Lemma serve_all_keeps_lockout_consistent (cs : list Call) (db : Store) :
  Forall lockout_consistent (users db) ->
  Forall lockout_consistent (users (serve_all cs db)).
Proof.
  revert db. induction cs as [| c cs IH]; intros db Hinv; cbn [serve_all].
  - exact Hinv.
  - now apply IH, serve_keeps_lockout_consistent.
Qed.

End LockoutInvariant.

(** ** The statements on sample data *)

Section OnSamples.
#[local] Existing Instance Sample.bcrypt.
#[local] Existing Instance Sample.jwt.
#[local] Existing Instance Sample.process_env.
Import Sample.


(** A login for an unknown email writes nothing but the audit record. *)
Lemma rejected_login_only_logs_on_unknown :
  let req := credentials EmptyString "nobody@x.com" "Str0ng!Pass" in
  let after := store_after (AuthController.login (clock 1000) req) db0 in
  users after = users db0
  /\ refreshTokens after = refreshTokens db0
  /\ exists l, loginLogs after = loginLogs db0 ++ [l].
Proof.
  destruct (rejected_login_only_logs (clock 1000)
              (credentials EmptyString "nobody@x.com" "Str0ng!Pass") db0
              (or_introl eq_refl))
    as (Hu & _ & Hr & Hl).
  auto.
Defined.

(** Five wrong passwords for Alice at times 1000 to 5000, then the right
    password: refused at 6000, accepted 30 minutes after the fifth. *)
Lemma lockout_on_alice :
  let five :=
    [ (clock 1000, alice_login "guess1"); (clock 2000, alice_login "guess2");
      (clock 3000, alice_login "guess3"); (clock 4000, alice_login "guess4");
      (clock 5000, alice_login "guess5") ] in
  let db5 := login_all five db0 in
  answer (AuthController.login (clock 6000) (alice_login "Str0ng!Pass")) db5
  = Ok AccountLocked
  /\ (exists response,
         answer (AuthController.login (clock 1805000)
                   (alice_login "Str0ng!Pass")) db5
         = Ok response
         /\ status response = 200)
  /\ exists u',
       prisma.user.by_email "alice@x.com"
         (users (store_after
                   (AuthController.login (clock 1805000)
                      (alice_login "Str0ng!Pass")) db5))
       = Some u'
       /\ User.failedLoginAttempts u' = 0.
Proof.
  destruct lockout_blocks_then_releases as (_ & Hopen & _ & Hexact).
  assert (Hwrong :
            Forall (wrong_for "alice@x.com" alice)
              [ (clock 1000, alice_login "guess1");
                (clock 2000, alice_login "guess2");
                (clock 3000, alice_login "guess3");
                (clock 4000, alice_login "guess4");
                (clock 5000, alice_login "guess5") ])
    by (repeat constructor).
  destruct (Hexact "alice@x.com" alice db0 _ _ _ _ _
              eq_refl eq_refl eq_refl eq_refl Hwrong)
    as (u5 & Hrow & (_ & _ & _ & Hpw & _ & Hact & _) & _ & Huntil).
  cbn [fst clock at_failure] in Huntil.
  destruct lockout_blocks_then_releases as (Hshut & _).
  split.
  - assert (Hearly : at_lock_check (clock 6000) < 5000 + 30 * 60 * 1000)
      by reflexivity.
    exact (proj1 (Hshut (clock 6000) (alice_login "Str0ng!Pass") _ u5 _
                    Hrow Hact Huntil Hearly)).
  - assert (Hright :
              comparePassword (body_password (alice_login "Str0ng!Pass"))
                              (User.password u5) = true)
      by (rewrite Hpw; reflexivity).
    assert (Hgone : forall l, User.lockoutUntil u5 = Some l ->
                              l <= at_lock_check (clock 1805000)).
    { intros l Hu. rewrite Huntil in Hu. injection Hu as <-.
      apply Z.leb_le. reflexivity. }
    assert (Hsigned : signature_for u5 (at_sign (clock 1805000))
                      = Some (User.username u5))
      by reflexivity.
    destruct (Hopen (clock 1805000) (alice_login "Str0ng!Pass") _ u5
                Hrow Hact Hgone Hright)
      as ((u' & Hrow' & Hc & _) & Hyes & _).
    split.
    + destruct (Hyes _ Hsigned) as (response & Hr & Hs & _).
      exists response. auto.
    + exists u'. auto.
Defined.

(** Alice's token from before her password change is refused; before
    the change it lets her through as herself. *)
Lemma authenticate_rejects_stale_tokens_on_alice :
  answer (authenticate 1500000 (bearer "alice")) db_changed
  = Ok (inl StaleToken)
  /\ answer (authenticate 1500000 (bearer "alice")) db0
     = Ok (inr {| body_username := EmptyString; body_email := EmptyString;
                  body_password := EmptyString; ip := Some "10.0.0.1";
                  header_userAgent := Some "curl";
                  header_authorization := Some "Bearer alice";
                  cookie_refreshToken := None;
                  user := Some {| ru_userId := 1; ru_username := "alice";
                                  ru_role := "user" |} |}).
Proof.
  assert (Hvalue : "alice" <> EmptyString) by discriminate.
  assert (Haccepted : forall db,
            answer (JWTService.verifyAccessToken "alice" 1500000) db
            = Ok {| userId := 1; username := "alice"; role := "user";
                    iat := Some 1000; exp := Some 1900 |})
    by reflexivity.
  split.
  - destruct (authenticate_rejects_stale_tokens 1500000 (bearer "alice")
                db_changed "alice" _ alice_changed
                eq_refl Hvalue (Haccepted db_changed) eq_refl eq_refl)
      as (Hstale & _).
    apply Hstale. exists 2000000, 1000. repeat split; reflexivity.
  - destruct (authenticate_rejects_stale_tokens 1500000 (bearer "alice")
                db0 "alice" _ alice
                eq_refl Hvalue (Haccepted db0) eq_refl eq_refl)
      as (_ & Hfresh & _).
    apply Hfresh. intros (changed & issued & Hc & _). discriminate.
Defined.

(** Alice logs out presenting Bob's token: Bob's row stays as it was.
    She logs out presenting a filter that every token passes: her own
    session is revoked and Bob's row still stays as it was. *)
Lemma logout_revokes_only_own_token_on_alice :
  user (alice_with_cookie "bbbb") = Some as_alice
  /\ refreshTokens
       (store_after (AuthController.logout (alice_with_cookie "bbbb"))
                    db_sessions)
     = [token_of_alice; token_of_bob]
  /\ answer (AuthController.logout (alice_with_cookie "bbbb")) db_sessions
     = Ok {| status := 200; success := true;
             message := Some "Logged out successfully";
             errors := None; data := NoData;
             cookies :=
               [ClearCookie "refreshToken"
                  {| httpOnly := true; secure := true; sameSite := "none";
                     path := "/"; maxAge := None |}] |}
  /\ nth_error
       (refreshTokens
          (store_after
             (AuthController.logout
                (alice_presenting cookie_contains_anything))
             db_sessions)) 1
     = Some token_of_bob
  /\ exists mine,
       nth_error
         (refreshTokens
            (store_after
               (AuthController.logout
                  (alice_presenting cookie_contains_anything))
               db_sessions)) 0
       = Some mine
       /\ RefreshToken.isRevoked mine = true.
Proof.
  destruct (logout_revokes_only_own_token
              (alice_with_cookie "bbbb") db_sessions as_alice eq_refl)
    as (_ & _ & _ & _ & Hsaid & _).
  destruct (logout_revokes_only_own_token
              (alice_presenting cookie_contains_anything) db_sessions
              as_alice eq_refl)
    as (_ & _ & _ & Hrows & _ & _).
  split; [reflexivity |]. split; [reflexivity |]. split.
  - apply Hsaid. discriminate.
  - split.
    + destruct (Hrows 1%nat token_of_bob eq_refl)
        as (r' & Hr' & _ & _ & _ & Hother & _).
      rewrite Hr'. f_equal. apply Hother. discriminate.
    + destruct (Hrows 0%nat token_of_alice eq_refl)
        as (r' & Hr' & _ & _ & _ & _ & _ & _ & Hmine).
      exists r'. split; [exact Hr' |].
      assert (Hthere : cookie_contains_anything <> Text EmptyString)
        by discriminate.
      exact (Hmine cookie_contains_anything eq_refl Hthere eq_refl eq_refl).
Defined.

(** Refreshing with Bob's usable token yields a token for Bob; with an
    unknown value it is refused. *)
Lemma refresh_outcomes_on_sessions :
  answer (AuthController.refreshToken (refresh_at 100)
            (alice_with_cookie "bbbb")) db_sessions
  = Ok {| status := 200; success := true; message := None; errors := None;
          data := Refreshed "bob"; cookies := [] |}
  /\ answer (AuthController.refreshToken (refresh_at 100)
               (alice_with_cookie "cccc")) db_sessions
     = Ok InvalidToken.
Proof.
  split.
  - destruct (refresh_outcomes (refresh_at 100) (alice_with_cookie "bbbb")
                db_sessions) as (_ & _ & _ & _ & _ & _ & Hvalue).
    assert (Hthere : Text "bbbb" <> Text EmptyString) by discriminate.
    destruct (Hvalue (Text "bbbb") _ eq_refl Hthere eq_refl)
      as (_ & Hgood).
    destruct (Hgood token_of_bob bob eq_refl eq_refl eq_refl)
      as (_ & Hsigned & _).
    exact (Hsigned "bob" eq_refl).
  - destruct (refresh_outcomes (refresh_at 100) (alice_with_cookie "cccc")
                db_sessions) as (_ & _ & _ & _ & _ & _ & Hvalue).
    assert (Hthere : Text "cccc" <> Text EmptyString) by discriminate.
    destruct (Hvalue (Text "cccc") _ eq_refl Hthere eq_refl) as (Hiff & _).
    apply Hiff. left. intros (r & Hin & Htok & _).
    cbn in Hin. destruct Hin as [<- | [<- | []]]; discriminate.
Defined.

(** Against C1 as stated.  Registering with an email that is taken is a
    register attempt, answered with [Conflict], and appends no audit
    record.  And where [JWT_ACCESS_EXPIRE] is not a time span, Alice's
    login with the right password is a login attempt, answered 500, and
    appends no audit record either. *)
Lemma attempts_without_audit_record :
  let req := credentials "carol" "alice@x.com" "Str0ng!Pass" in
  let env := {| salt := "salt" |} in
  let login :=
    @AuthController.login bcrypt jwt misconfigured (clock 1000)
                          (alice_login "Str0ng!Pass") in
  (answer (AuthController.register env req) db0
   = Ok (Conflict "Email already exists")
   /\ loginLogs (store_after (AuthController.register env req) db0)
      = loginLogs db0
   /\ ~ exists l,
          loginLogs (store_after (AuthController.register env req) db0)
          = loginLogs db0 ++ [l])
  /\ (answer login db0 = Ok Internal
      /\ loginLogs (store_after login db0) = loginLogs db0
      /\ ~ exists l, loginLogs (store_after login db0) = loginLogs db0 ++ [l]).
Proof.
  cbn. repeat split; intros [l Hl]; discriminate.
Qed.

(** Against C2 as stated.  Bob's [lockoutUntil] is set and in the
    future, yet login answers [AccountDeactivated] (status 401), not
    [AccountLocked], because the account is inactive.  And where
    [JWT_ACCESS_EXPIRE] is not a time span, Alice's login with the right
    password after her lockout has elapsed does not succeed: it is
    answered 500, with her counter reset all the same. *)
Lemma deactivated_wins_over_locked :
  let req := credentials EmptyString "bob@x.com" "An0ther?Pass" in
  let login :=
    @AuthController.login bcrypt jwt misconfigured (clock 1900000)
                          (alice_login "Str0ng!Pass") in
  (prisma.user.by_email "bob@x.com" (users db_locked) = Some bob_deactivated
   /\ User.lockoutUntil bob_deactivated = Some 1805000
   /\ at_lock_check (clock 6000) < 1805000
   /\ answer (AuthController.login (clock 6000) req) db_locked
      = Ok AccountDeactivated
   /\ answer (AuthController.login (clock 6000) req) db_locked
      <> Ok AccountLocked)
  /\ (User.lockoutUntil alice_locked = Some 1805000
      /\ comparePassword "Str0ng!Pass" (User.password alice_locked) = true
      /\ answer login db_alice_locked = Ok Internal
      /\ status Internal = 500
      /\ option_map User.failedLoginAttempts
           (prisma.user.by_email "alice@x.com"
              (users (store_after login db_alice_locked)))
         = Some 0).
Proof.
  cbn. repeat split. discriminate.
Qed.

(** Against C4 as stated.  Where [JWT_ACCESS_EXPIRE] is not a time span,
    Alice's login with the right password is in the fifth case, yet the
    answer is 500 "Internal server error", not the success of that case,
    and no audit record with the reason "Successful login" is written. *)
Lemma granted_login_can_answer_500 :
  let login :=
    @AuthController.login bcrypt jwt misconfigured (clock 1000)
                          (alice_login "Str0ng!Pass") in
  prisma.user.by_email "alice@x.com" (users db0) = Some alice
  /\ Decision.branch (Some alice) 1000
       (comparePassword "Str0ng!Pass" (User.password alice))
     = Decision.Granted
  /\ answer login db0 = Ok Internal
  /\ status Internal <> Decision.client_status Decision.Granted
  /\ message Internal
     <> Some (Decision.client_message Decision.Granted)
  /\ loginLogs (store_after login db0) = [].
Proof.
  cbn. repeat split; discriminate.
Qed.

(** Against C6 as stated.  Alice, authenticated, logs out with the cookie
    [refreshToken=j:123]: the answer is 500, not success, and carries no
    instruction to clear the cookie. *)
Lemma logout_can_answer_500 :
  let req := alice_presenting cookie_number in
  user req = Some as_alice
  /\ answer (AuthController.logout req) db_sessions = Ok Internal
  /\ status Internal = 500
  /\ success Internal = false
  /\ cookies Internal = [].
Proof.
  cbn. repeat split.
Qed.

(** Against C7 as stated.  With the cookie [refreshToken=j:123] no
    refresh-token row matches the presented value, yet refresh does not
    answer [InvalidToken]: the answer is 500. *)
Lemma refresh_can_answer_500 :
  let req := alice_presenting cookie_number in
  cookie_refreshToken req <> None
  /\ (~ exists r, In r (refreshTokens db_sessions)
                  /\ matches cookie_number (RefreshToken.token r)
                  /\ RefreshToken.isRevoked r = false
                  /\ 100 < RefreshToken.expiresAt r)
  /\ answer (AuthController.refreshToken (refresh_at 100) req) db_sessions
     = Ok Internal
  /\ answer (AuthController.refreshToken (refresh_at 100) req) db_sessions
     <> Ok InvalidToken.
Proof.
  cbn. repeat split; try discriminate.
  intros (r & _ & [] & _).
Qed.

(** The end-to-end scenario: register, log in, read the profile with the
    access token, log out, and find the old cookie refused. *)
Example register_login_profile_logout_refresh :
  let registration := credentials "Alice" "alice@x.com" "Str0ng!Pass" in
  let db1 :=
    store_after (AuthController.register {| salt := "salt" |} registration)
                empty in
  let db2 :=
    store_after (AuthController.login (clock 1000)
                   (alice_login "Str0ng!Pass")) db1 in
  let db3 :=
    store_after (route_logout 2000 (session_request "alice" "c0ffee")) db2 in
  answer (AuthController.register {| salt := "salt" |} registration) empty
  = Ok {| status := 201; success := true;
          message := Some "User registered successfully"; errors := None;
          data := Registered {| pu_id := 1; pu_username := "alice";
                                pu_email := "alice@x.com";
                                pu_role := "user" |};
          cookies := [] |}
  /\ answer (AuthController.login (clock 1000) (alice_login "Str0ng!Pass"))
            db1
     = Ok {| status := 200; success := true;
             message := Some "Login successful"; errors := None;
             data := LoggedIn {| pu_id := 1; pu_username := "alice";
                                 pu_email := "alice@x.com";
                                 pu_role := "user" |} "alice";
             cookies := [SetCookie "refreshToken" "c0ffee"
                                   refresh_cookie_options] |}
  /\ answer (route_profile 1500 (session_request "alice" "c0ffee")) db2
     = Ok {| status := 200; success := true; message := None;
             errors := None;
             data := ProfileOf
                       {| pr_user := {| pu_id := 1; pu_username := "alice";
                                        pu_email := "alice@x.com";
                                        pu_role := "user" |};
                          pr_isActive := true;
                          pr_lastLoginAt := Some 1000 |};
             cookies := [] |}
  /\ answer (route_logout 2000 (session_request "alice" "c0ffee")) db2
     = Ok {| status := 200; success := true;
             message := Some "Logged out successfully"; errors := None;
             data := NoData;
             cookies := [ClearCookie "refreshToken" clear_cookie_options] |}
  /\ answer (AuthController.refreshToken (refresh_at 3000)
               (session_request "alice" "c0ffee")) db2
     = Ok {| status := 200; success := true; message := None;
             errors := None; data := Refreshed "alice"; cookies := [] |}
  /\ answer (AuthController.refreshToken (refresh_at 3000)
               (session_request "alice" "c0ffee")) db3
     = Ok InvalidToken
  /\ List.map LoginLog.reason (loginLogs db3)
     = ["User registration"; "Successful login"].
Proof. repeat split; reflexivity. Qed.

End OnSamples.

(** * Further properties of the code *)

(** ** The bearer header and the middleware *)

Section MiddlewareMore.
Context {J : Jwt} {P : ProcessEnv}.

Lemma prefix_split (p s : string) :
  String.prefix p s = true -> exists rest, s = (p ++ rest)%string.
Proof.
  revert s. induction p as [| c p IH]; intros s Hp.
  - exists s. reflexivity.
  - destruct s as [| d s]; cbn in Hp; [discriminate |].
    destruct (ascii_dec c d) as [-> | _]; [| discriminate].
    destruct (IH s Hp) as [rest ->]. exists rest. reflexivity.
Qed.

Lemma after_bearer (rest : string) :
  Js.substring_from 7 ("Bearer " ++ rest) = rest.
Proof.
  unfold Js.substring_from. cbn. rewrite Nat.sub_0_r. apply substring_all.
Qed.

Lemma bearer_header_of_token
    (header : option string) (token : string) :
  JWTService.extractTokenFromHeader header = Some token ->
  header = Some ("Bearer " ++ token)%string.
Proof.
  destruct header as [h |]; [| discriminate].
  unfold JWTService.extractTokenFromHeader.
  destruct (Js.truthy (Some h)); [| discriminate]. cbn [negb orb].
  destruct (Js.startsWith "Bearer " h) eqn:Hp; [| discriminate].
  destruct (prefix_split _ _ Hp) as [rest ->].
  rewrite after_bearer. intros [= <-]. reflexivity.
Qed.

(** X1. [extractTokenFromHeader] returns a token exactly when the header
    is the scheme [Bearer], one space, and that token (which may be
    empty); for any other header, and for none, it returns null. *)
Theorem extractTokenFromHeader_exactly_bearer
    (header : option string) (token : string) :
  JWTService.extractTokenFromHeader header = Some token
  <-> header = Some ("Bearer " ++ token)%string.
Proof.
  split.
  - apply bearer_header_of_token.
  - intros ->. apply extractTokenFromHeader_bearer.
Qed.

(** The middleware, case by case. *)
Lemma authenticate_run (now : Z) (req : Request) (db : Store) :
  authenticate now req db
  = (db,
     Ok match JWTService.extractTokenFromHeader (header_authorization req) with
        | None => inl MissingAccessToken
        | Some token =>
            if String.eqb token EmptyString then inl MissingAccessToken
            else
              match jwt_verify token verify_options now with
              | None => inl InvalidAccessToken
              | Some payload =>
                  match find (fun x => (User.id x =? userId payload)
                                       && Bool.eqb (User.isActive x) true)
                             (users db) with
                  | None => inl UserUnavailable
                  | Some u =>
                      if issued_before_change payload u
                      then inl StaleToken
                      else inr (attach_user req (identity u))
                  end
              end
        end).
Proof.
  unfold authenticate, try_catch, bind, JWTService.verifyAccessToken,
    prisma.user.findFirst_id_active, ret, throw, verify_options, identity.
  destruct (JWTService.extractTokenFromHeader (header_authorization req))
    as [token |]; [| reflexivity].
  unfold Js.truthy. destruct (String.eqb token EmptyString); [reflexivity |].
  cbn [negb]. destruct (jwt_verify token _ now) as [payload |];
    [| reflexivity].
  cbn. destruct (find _ (users db)) as [u |]; [| reflexivity].
  destruct (issued_before_change payload u); reflexivity.
Qed.

(** X2. Whatever the request, [authenticate] leaves the store as it was,
    and when it answers itself the answer is one of its four rejections,
    each with status 401, no data and no cookie. *)
Theorem authenticate_rejects_with_401
    (now : Z) (req : Request) (db : Store) :
  store_after (authenticate now req) db = db
  /\ forall response,
       answer (authenticate now req) db = Ok (inl response) ->
       In response [MissingAccessToken; InvalidAccessToken;
                    UserUnavailable; StaleToken]
       /\ status response = 401
       /\ success response = false
       /\ data response = NoData
       /\ cookies response = [].
Proof.
  unfold store_after, answer. rewrite authenticate_run. cbn [fst snd].
  split; [reflexivity |]. intros response Hr.
  assert (Hin : In response [MissingAccessToken; InvalidAccessToken;
                             UserUnavailable; StaleToken]).
  { destruct (JWTService.extractTokenFromHeader (header_authorization req))
      as [token |]; [| injection Hr as <-; cbn; tauto].
    destruct (String.eqb token EmptyString);
      [injection Hr as <-; cbn; tauto |].
    destruct (jwt_verify token verify_options now) as [payload |];
      [| injection Hr as <-; cbn; tauto].
    destruct (find _ (users db)) as [u |];
      [| injection Hr as <-; cbn; tauto].
    destruct (issued_before_change payload u);
      [injection Hr as <-; cbn; tauto | discriminate]. }
  split; [exact Hin |].
  cbn [In] in Hin.
  destruct Hin as [<- | [<- | [<- | [<- | []]]]]; repeat split.
Qed.

(** X3. When [authenticate] passes a request on, the header was a bearer
    header with a non-empty token that [jwt.verify] accepted, the payload's
    user id is the id of an active row of the users table, that row's
    password was not changed after the token was issued, and the request
    passed on is the incoming one, field by field, with [req.user] set to
    that row's id, username and role as stored, whatever the token
    carries. *)
Theorem authenticate_passes_only_verified
    (now : Z) (req req' : Request) (db : Store) :
  answer (authenticate now req) db = Ok (inr req') ->
  exists token payload u,
    header_authorization req = Some ("Bearer " ++ token)%string
    /\ token <> EmptyString
    /\ jwt_verify token verify_options now = Some payload
    /\ In u (users db)
    /\ User.id u = userId payload
    /\ User.isActive u = true
    /\ issued_before_change payload u = false
    /\ req' = {| body_username := body_username req;
                 body_email := body_email req;
                 body_password := body_password req;
                 ip := ip req;
                 header_userAgent := header_userAgent req;
                 header_authorization := header_authorization req;
                 cookie_refreshToken := cookie_refreshToken req;
                 user := Some {| ru_userId := User.id u;
                                 ru_username := User.username u;
                                 ru_role := User.role u |} |}.
Proof.
  unfold answer. rewrite authenticate_run. cbn [snd].
  destruct (JWTService.extractTokenFromHeader (header_authorization req))
    as [token |] eqn:Hx; [| discriminate].
  destruct (String.eqb_spec token EmptyString) as [| Hne]; [discriminate |].
  destruct (jwt_verify token verify_options now) as [payload |] eqn:Hv;
    [| discriminate].
  destruct (find _ (users db)) as [u |] eqn:Hf; [| discriminate].
  destruct (issued_before_change payload u) eqn:Hs; [discriminate |].
  intros [= <-]. exists token, payload, u.
  apply find_some in Hf. destruct Hf as [Hin Hu].
  apply andb_true_iff in Hu. destruct Hu as [Hid Hact].
  apply Z.eqb_eq in Hid. apply Bool.eqb_prop in Hact.
  repeat split; auto.
  now apply bearer_header_of_token.
Qed.

(** X4. A request without an Authorization header, with a header that
    does not start with [Bearer] and a space (the scheme is matched
    case-sensitively), or with nothing after the scheme, is answered
    "Access token required"; a bearer token that [jwt.verify] rejects is
    answered "Invalid or expired token". *)
Theorem authenticate_header_rejections
    (now : Z) (req : Request) (db : Store) :
  (header_authorization req = None ->
   answer (authenticate now req) db = Ok (inl MissingAccessToken))
  /\ (forall h,
        header_authorization req = Some h ->
        Js.startsWith "Bearer " h = false ->
        answer (authenticate now req) db = Ok (inl MissingAccessToken))
  /\ (header_authorization req = Some "Bearer " ->
      answer (authenticate now req) db = Ok (inl MissingAccessToken))
  /\ (forall token,
        header_authorization req = Some ("Bearer " ++ token)%string ->
        token <> EmptyString ->
        jwt_verify token verify_options now = None ->
        answer (authenticate now req) db = Ok (inl InvalidAccessToken)).
Proof.
  unfold answer. rewrite authenticate_run. cbn [snd].
  split; [| split; [| split]].
  - intros ->. reflexivity.
  - intros h -> Hp. unfold JWTService.extractTokenFromHeader.
    rewrite Hp. now rewrite orb_true_r.
  - intros ->. reflexivity.
  - intros token -> Hne Hv. rewrite extractTokenFromHeader_bearer.
    destruct (String.eqb_spec token EmptyString); [contradiction |].
    now rewrite Hv.
Qed.

Lemma find_none_when (A : Type) (p q : A -> bool) (xs : list A) :
  (forall x, In x xs -> p x = true -> q x = false) ->
  find (fun x => p x && q x) xs = None.
Proof.
  intros Hno. destruct (find (fun x => p x && q x) xs) as [x |] eqn:E;
    [| reflexivity].
  apply find_some in E. destruct E as [Hin Hx].
  apply andb_true_iff in Hx. destruct Hx as [Hp Hq].
  rewrite (Hno x Hin Hp) in Hq. discriminate.
Qed.

(** X5. A token that verifies but whose user id belongs to no row, or
    only to a deactivated row, is answered "User not found or inactive":
    deactivating or deleting an account shuts out its unexpired access
    tokens at the next request. *)
Theorem authenticate_rejects_unavailable_user
    (now : Z) (req : Request) (db : Store)
    (token : string) (payload : JWTPayload) :
  header_authorization req = Some ("Bearer " ++ token)%string ->
  token <> EmptyString ->
  jwt_verify token verify_options now = Some payload ->
  (forall u, In u (users db) ->
             User.id u = userId payload ->
             User.isActive u = false) ->
  answer (authenticate now req) db = Ok (inl UserUnavailable).
Proof.
  intros Hh Hne Hv Hgone. unfold answer. rewrite authenticate_run.
  cbn [snd]. rewrite Hh, extractTokenFromHeader_bearer.
  destruct (String.eqb_spec token EmptyString); [contradiction |].
  rewrite Hv. rewrite find_none_when; [reflexivity |].
  intros u Hin Hid. apply Z.eqb_eq in Hid. now rewrite (Hgone u Hin Hid).
Qed.

Lemma includes_iff (xs : list string) (s : string) :
  Js.includes xs s = true <-> In s xs.
Proof.
  unfold Js.includes. rewrite existsb_exists. split.
  - intros [x [Hin Heq]]. apply String.eqb_eq in Heq. now subst.
  - intros Hin. exists s. split; [exact Hin | apply String.eqb_refl].
Qed.

(** X6. [authorize(roles)] passes a request on, unchanged, exactly when
    the request carries an identity whose role is in [roles]; without an
    identity it answers 401 "Authentication required", and with a role
    outside the list 403 "Insufficient permissions".  With an empty list
    nobody passes. *)
Theorem authorize_passes_listed_roles (roles : list string) (req : Request) :
  (forall req',
      authorize roles req = inr req'
      <-> req' = req
          /\ exists u, user req = Some u /\ In (ru_role u) roles)
  /\ (user req = None ->
      authorize roles req = inl (failure 401 "Authentication required"))
  /\ (forall u,
        user req = Some u ->
        ~ In (ru_role u) roles ->
        authorize roles req = inl (failure 403 "Insufficient permissions"))
  /\ (roles = [] -> forall req', authorize roles req <> inr req').
Proof.
  unfold authorize. split; [| split; [| split]].
  - intros req'. destruct (user req) as [u |].
    + destruct (Js.includes roles (ru_role u)) eqn:Hi; cbn [negb].
      * apply includes_iff in Hi. split.
        -- intros [= <-]. eauto.
        -- intros [-> _]. reflexivity.
      * split; [discriminate |]. intros [_ (u' & [= <-] & Hin)].
        apply includes_iff in Hin. congruence.
    + split; [discriminate |]. intros [_ (u' & Hu & _)]. discriminate.
  - intros ->. reflexivity.
  - intros u -> Hout. destruct (Js.includes roles (ru_role u)) eqn:Hi;
      [apply includes_iff in Hi; contradiction | reflexivity].
  - intros -> req'. destruct (user req); discriminate.
Qed.

(** X7. On a route that chains [authenticate] and [authorize(roles)], the
    401 "Authentication required" of [authorize] is never sent, and a
    request reaches the handler only if an active row of the users table
    has the token's user id and a role in [roles]: the role checked is
    the one stored now, not the one the token was signed with. *)
Theorem guard_checks_stored_role
    (now : Z) (roles : list string) (req : Request) (db : Store) :
  answer (guard now roles req) db
  <> Ok (inl (failure 401 "Authentication required"))
  /\ forall req'',
       answer (guard now roles req) db = Ok (inr req'') ->
       exists token payload u,
         header_authorization req = Some ("Bearer " ++ token)%string
         /\ jwt_verify token verify_options now = Some payload
         /\ In u (users db)
         /\ User.id u = userId payload
         /\ User.isActive u = true
         /\ In (User.role u) roles
         /\ user req'' = Some (identity u).
Proof.
  unfold answer, guard, bind. rewrite authenticate_run.
  destruct (JWTService.extractTokenFromHeader (header_authorization req))
    as [token |] eqn:Hx; [| split; [discriminate | discriminate]].
  destruct (String.eqb token EmptyString);
    [split; [discriminate | discriminate] |].
  destruct (jwt_verify token verify_options now) as [payload |] eqn:Hv;
    [| split; [discriminate | discriminate]].
  destruct (find _ (users db)) as [u |] eqn:Hf;
    [| split; [discriminate | discriminate]].
  destruct (issued_before_change payload u);
    [split; [discriminate | discriminate] |].
  cbn [snd ret authorize attach_user user identity ru_role].
  unfold authorize. cbn [user attach_user ru_role].
  destruct (Js.includes roles (User.role u)) eqn:Hi; cbn [negb snd].
  - split; [discriminate |]. intros req'' [= <-].
    apply find_some in Hf. destruct Hf as [Hin Hu].
    apply andb_true_iff in Hu. destruct Hu as [Hid Hact].
    apply Z.eqb_eq in Hid. apply Bool.eqb_prop in Hact.
    apply includes_iff in Hi.
    exists token, payload, u. repeat split; auto.
    now apply bearer_header_of_token.
  - split; discriminate.
Qed.

End MiddlewareMore.

(** ** Registration *)

Section RegistrationMore.
Context {B : Bcrypt} {J : Jwt} {P : ProcessEnv}.
Import prisma.user.

(** What the pre-check of [register] decides. *)
Lemma existing_user_none_iff (req : Request) (db : Store) :
  existing_user req db = None
  <-> forall u, In u (users db) ->
                User.email u <> body_email req
                /\ User.username u <> Js.toLowerCase (body_username req).
Proof.
  unfold existing_user. split.
  - intros Hn u Hin. pose proof (find_none _ _ Hn u Hin) as Hu. cbn in Hu.
    apply orb_false_iff in Hu. destruct Hu as [He Hu].
    apply String.eqb_neq in He. apply String.eqb_neq in Hu. now split.
  - intros Hfree.
    destruct (find _ (users db)) as [u |] eqn:E; [| reflexivity].
    apply find_some in E. destruct E as [Hin Hu].
    destruct (Hfree u Hin) as [He Hn].
    apply String.eqb_neq in He. apply String.eqb_neq in Hn.
    rewrite He, Hn in Hu. discriminate.
Qed.

Lemma valid_iff_no_errors (password : string) :
  PasswordService.valid (PasswordService.validatePasswordStrength password)
  = true
  <-> PasswordService.errors
        (PasswordService.validatePasswordStrength password) = [].
Proof.
  unfold PasswordService.validatePasswordStrength.
  cbn [PasswordService.valid PasswordService.errors].
  rewrite Nat.eqb_eq. apply length_zero_iff_nil.
Qed.

(** X8. [register] answers 201 exactly when no row has the email or the
    lower-cased username and the password passes the policy.  A taken
    email or username is answered 409 whatever the password, so the
    duplicate check comes before the strength check; and every answer
    other than 201 leaves users, refresh tokens and audit log exactly as
    they were. *)
Theorem register_creates_or_changes_nothing
    (env : RegisterEnv) (req : Request) (db : Store) :
  let free :=
    forall u, In u (users db) ->
              User.email u <> body_email req
              /\ User.username u <> Js.toLowerCase (body_username req) in
  let strong :=
    PasswordService.valid
      (PasswordService.validatePasswordStrength (body_password req)) in
  exists response,
    answer (AuthController.register env req) db = Ok response
    /\ (status response = 201 <-> free /\ strong = true)
    /\ (~ free -> status response = 409)
    /\ (free -> strong = false ->
        response
        = WeakPassword
            (PasswordService.errors
               (PasswordService.validatePasswordStrength (body_password req)))
        /\ errors response <> Some [])
    /\ (status response <> 201 ->
        store_after (AuthController.register env req) db = db).
Proof.
  intros free strong. unfold answer, store_after.
  destruct (existing_user req db) as [existing |] eqn:He.
  - assert (Htaken : ~ free).
    { intros Hfree.
      pose proof (proj2 (existing_user_none_iff req db) Hfree). congruence. }
    rewrite (register_conflict env req db _ He). eexists.
    split; [reflexivity |]. cbn [fst status Conflict failure].
    repeat split; try tauto; try discriminate.
  - assert (Hfree : free) by (exact (proj1 (existing_user_none_iff req db) He)).
    destruct strong eqn:Hs; unfold strong in Hs.
    + rewrite (register_created env req db He Hs). eexists.
      split; [reflexivity |]. cbn [fst status].
      split; [split; [intros _; split; [exact Hfree | reflexivity]
                     | reflexivity] |].
      split; [intros Hn; contradiction |].
      split; [intros _ Habs; discriminate |].
      intros Hn. now elim Hn.
    + rewrite (register_weak env req db He Hs). eexists.
      split; [reflexivity |]. cbn [fst status WeakPassword errors].
      split; [split; [discriminate | intros [_ Habs]; discriminate] |].
      split; [intros Hn; contradiction |].
      split; [| reflexivity].
      intros _ _. split; [reflexivity |].
      intros [= Hnil]. apply valid_iff_no_errors in Hnil. congruence.
Qed.

End RegistrationMore.

(** ** What a request can do to the tables *)

Section TableEffects.
Context {B : Bcrypt} {J : Jwt} {P : ProcessEnv}.
Import prisma.user prisma.refreshToken.

(** The users table after any request: untouched, one registered row
    more, or the lockout and last-login columns of one id assigned. *)
Lemma serve_users (c : Call) (db : Store) :
  users (store_after (serve c) db) = users db
  \/ (exists env req,
        c = PostRegister env req
        /\ existing_user req db = None
        /\ users (store_after (serve c) db)
           = users db ++
             [with_defaults (next_id (users db))
                (Js.toLowerCase (body_username req)) (body_email req)
                (hashPassword (body_password req) (salt env))])
  \/ (exists i n l,
        users (store_after (serve c) db)
        = assign i (failed_attempt n l) (users db))
  \/ (exists i t a,
        users (store_after (serve c) db)
        = assign i (successful_login t a) (users db)).
Proof.
  destruct c as [env req | env req | env req | now req | now req];
    cbn [serve].
  - unfold store_after.
    destruct (existing_user req db) as [existing |] eqn:He.
    + rewrite (register_conflict env req db _ He). now left.
    + destruct (PasswordService.valid
                  (PasswordService.validatePasswordStrength
                     (body_password req))) eqn:Hv.
      * rewrite (register_created env req db He Hv). right. left.
        exists env, req. auto.
      * rewrite (register_weak env req db He Hv). now left.
  - unfold store_after.
    destruct (by_email (body_email req) (users db)) as [u |] eqn:Hf.
    + destruct (User.isActive u) eqn:Ha.
      * destruct (locked_at (at_lock_check env) u) eqn:Hl.
        -- rewrite (login_locked env req db u Hf Ha Hl). now left.
        -- destruct (comparePassword (body_password req) (User.password u))
             eqn:Hp.
           ++ destruct (signature_for u (at_sign env)) as [token |] eqn:Hs;
                [rewrite (login_success env req db u token Hf Ha Hl Hp Hs)
                | rewrite (login_unsigned env req db u Hf Ha Hl Hp Hs)];
                right; right; right; cbn [fst users]; eauto.
           ++ rewrite (login_wrong_password env req db u Hf Ha Hl Hp).
              right. right. left. cbn [fst users]. eauto.
      * rewrite (login_deactivated env req db u Hf Ha). now left.
    + rewrite (login_not_found env req db Hf). now left.
  - left. now rewrite refresh_reads_only.
  - left. unfold route_logout.
    destruct (behind_middleware now req db AuthController.logout)
      as [-> | [req' ->]]; [reflexivity | apply logout_keeps_users].
  - left. unfold route_profile.
    destruct (behind_middleware now req db AuthController.getProfile)
      as [-> | [req' ->]]; [reflexivity |].
    now rewrite getProfile_reads_only.
Qed.

Lemma logout_sessions (req : Request) (db : Store) :
  refreshTokens (store_after (AuthController.logout req) db)
  = refreshTokens db
  \/ exists v test i,
       cookie_refreshToken req = Some v
       /\ where_string v = Some test
       /\ refreshTokens (store_after (AuthController.logout req) db)
          = revoke_owned test i (refreshTokens db).
Proof.
  unfold store_after, AuthController.logout, try_catch, bind, ret, throw,
    updateMany_revoke.
  destruct (cookie_truthy (cookie_refreshToken req)); [| now left].
  destruct (cookie_refreshToken req) as [presented |]; [| now left].
  destruct (user req) as [caller |]; [| now left].
  destruct (where_string presented) as [test |] eqn:Hw; [| now left].
  right. cbn. eauto 6.
Qed.

(** The refresh tokens after any request: untouched, one row more with
    the token the login drew, or the rows of one token and owner
    revoked. *)
Lemma serve_sessions (c : Call) (db : Store) :
  refreshTokens (store_after (serve c) db) = refreshTokens db
  \/ (exists t i e,
        draws t c
        /\ refreshTokens (store_after (serve c) db)
           = refreshTokens db ++
             [{| RefreshToken.token := t; RefreshToken.userId := i;
                 RefreshToken.expiresAt := e;
                 RefreshToken.isRevoked := false |}])
  \/ (exists test i,
        refreshTokens (store_after (serve c) db)
        = revoke_owned test i (refreshTokens db)).
Proof.
  destruct c as [env req | env req | env req | now req | now req];
    cbn [serve].
  - left. unfold store_after.
    destruct (existing_user req db) as [existing |] eqn:He.
    + now rewrite (register_conflict env req db _ He).
    + destruct (PasswordService.valid
                  (PasswordService.validatePasswordStrength
                     (body_password req))) eqn:Hv.
      * now rewrite (register_created env req db He Hv).
      * now rewrite (register_weak env req db He Hv).
  - unfold store_after.
    destruct (by_email (body_email req) (users db)) as [u |] eqn:Hf.
    + destruct (User.isActive u) eqn:Ha.
      * destruct (locked_at (at_lock_check env) u) eqn:Hl.
        -- rewrite (login_locked env req db u Hf Ha Hl). now left.
        -- destruct (comparePassword (body_password req) (User.password u))
             eqn:Hp.
           ++ destruct (signature_for u (at_sign env)) as [token |] eqn:Hs.
              ** rewrite (login_success env req db u token Hf Ha Hl Hp Hs).
                 right. left. cbn [fst refreshTokens].
                 exists (random_token env), (User.id u),
                   (at_issue env + REFRESH_MS).
                 split; reflexivity.
              ** rewrite (login_unsigned env req db u Hf Ha Hl Hp Hs).
                 now left.
           ++ rewrite (login_wrong_password env req db u Hf Ha Hl Hp).
              now left.
      * rewrite (login_deactivated env req db u Hf Ha). now left.
    + rewrite (login_not_found env req db Hf). now left.
  - left. now rewrite refresh_reads_only.
  - unfold route_logout.
    destruct (behind_middleware now req db AuthController.logout)
      as [-> | [req' ->]]; [now left |].
    destruct (logout_sessions req' db) as [-> | (v & test & i & _ & _ & ->)];
      [now left | right; right; eauto].
  - left. unfold route_profile.
    destruct (behind_middleware now req db AuthController.getProfile)
      as [-> | [req' ->]]; [reflexivity |].
    now rewrite getProfile_reads_only.
Qed.

End TableEffects.

(** ** What every sequence of requests keeps *)

Section Invariants.
Context {B : Bcrypt} {J : Jwt} {P : ProcessEnv}.
Import prisma.user prisma.refreshToken.

Lemma next_id_above (us : list User.t) (u : User.t) :
  In u us -> User.id u < next_id us.
Proof.
  unfold next_id. induction us as [| x us IH]; cbn [In fold_right].
  - contradiction.
  - intros [-> | Hin]; [lia |]. specialize (IH Hin). lia.
Qed.

Lemma NoDup_snoc {A} (xs : list A) (x : A) :
  NoDup xs -> ~ In x xs -> NoDup (xs ++ [x]).
Proof.
  induction xs as [| y xs IH]; cbn; intros Hnd Hx.
  - constructor; [tauto | constructor].
  - inversion Hnd as [| ? ? Hy Hxs]; subst. constructor.
    + rewrite in_app_iff. cbn. intuition congruence.
    + apply IH; tauto.
Qed.

Lemma map_assign {A} (f : User.t -> A) (i : Z) (data : User.t -> User.t)
    (us : list User.t) :
  (forall x, f (data x) = f x) ->
  map f (assign i data us) = map f us.
Proof.
  intros Hf. unfold assign. rewrite map_map. apply map_ext.
  intros x. destruct (User.id x =? i); auto.
Qed.

Lemma serve_keeps_keys_unique (c : Call) (db : Store) :
  keys_unique (users db) -> keys_unique (users (store_after (serve c) db)).
Proof.
  intros (Hid & Hemail & Hname). unfold keys_unique.
  destruct (serve_users c db)
    as [-> | [(env & req & _ & He & ->)
             | [(i & n & l & ->) | (i & t & a & ->)]]].
  - auto.
  - pose proof (proj1 (existing_user_none_iff req db) He) as Hfree.
    rewrite !map_app. cbn [map with_defaults User.id User.email User.username].
    repeat split; apply NoDup_snoc; auto.
    + intros Hin. apply in_map_iff in Hin. destruct Hin as (u & Hu & Hin).
      pose proof (next_id_above _ _ Hin). lia.
    + intros Hin. apply in_map_iff in Hin. destruct Hin as (u & Hu & Hin).
      now destruct (Hfree u Hin).
    + intros Hin. apply in_map_iff in Hin. destruct Hin as (u & Hu & Hin).
      now destruct (Hfree u Hin).
  - rewrite !map_assign by reflexivity. auto.
  - rewrite !map_assign by reflexivity. auto.
Qed.

(** X9. If ids, emails and usernames are each unique in the users table,
    they still are after any sequence of requests to the auth router: a
    registration draws an id above every id in the table and is refused
    when its email or lower-cased username is taken, and no other route
    writes these columns. *)
Theorem serve_all_keeps_keys_unique (calls : list Call) (db : Store) :
  keys_unique (users db) -> keys_unique (users (serve_all calls db)).
Proof.
  revert db. induction calls as [| c calls IH]; intros db Hk;
    cbn [serve_all]; [exact Hk |].
  now apply IH, serve_keeps_keys_unique.
Qed.

Lemma accounts_kept_refl (us : list User.t) : accounts_kept us us.
Proof. intros k u Hk. exists u. repeat split; auto. Qed.

Lemma accounts_kept_trans (a b c : list User.t) :
  accounts_kept a b -> accounts_kept b c -> accounts_kept a c.
Proof.
  intros Hab Hbc k u Hk.
  destruct (Hab k u Hk) as (v & Hv & E1 & E2 & E3 & E4 & E5 & E6 & E7).
  destruct (Hbc k v Hv) as (w & Hw & F1 & F2 & F3 & F4 & F5 & F6 & F7).
  exists w. repeat split; congruence.
Qed.

Lemma accounts_kept_assign (i : Z) (data : User.t -> User.t)
    (us : list User.t) :
  (forall x, User.id (data x) = User.id x
             /\ User.username (data x) = User.username x
             /\ User.email (data x) = User.email x
             /\ User.password (data x) = User.password x
             /\ User.role (data x) = User.role x
             /\ User.isActive (data x) = User.isActive x
             /\ User.passwordChangedAt (data x) = User.passwordChangedAt x) ->
  accounts_kept us (assign i data us).
Proof.
  intros Hdata k u Hk. rewrite TableFacts.assign_nth, Hk. cbn [option_map].
  eexists. split; [reflexivity |].
  destruct (User.id u =? i); [apply Hdata | repeat split].
Qed.

Lemma serve_keeps_accounts (c : Call) (db : Store) :
  accounts_kept (users db) (users (store_after (serve c) db)).
Proof.
  destruct (serve_users c db)
    as [-> | [(env & req & _ & _ & ->)
             | [(i & n & l & ->) | (i & t & a & ->)]]].
  - apply accounts_kept_refl.
  - intros k u Hk. exists u. rewrite nth_error_app1.
    + repeat split; auto.
    + apply nth_error_Some. congruence.
  - apply accounts_kept_assign. intros x. repeat split.
  - apply accounts_kept_assign. intros x. repeat split.
Qed.

(** X10. No sequence of requests to the auth router deletes or moves a
    user row, or changes its id, username, email, password hash, role,
    active flag or password-change time: those routes only append users
    and write the lockout and last-login columns. *)
Theorem serve_all_keeps_accounts (calls : list Call) (db : Store) :
  accounts_kept (users db) (users (serve_all calls db)).
Proof.
  revert db. induction calls as [| c calls IH]; intros db; cbn [serve_all].
  - apply accounts_kept_refl.
  - eapply accounts_kept_trans; [apply serve_keeps_accounts | apply IH].
Qed.

Lemma sessions_kept_refl (rs : list RefreshToken.t) : sessions_kept rs rs.
Proof. intros k r Hk. exists r. repeat split; auto. Qed.

Lemma sessions_kept_trans (a b c : list RefreshToken.t) :
  sessions_kept a b -> sessions_kept b c -> sessions_kept a c.
Proof.
  intros Hab Hbc k r Hk.
  destruct (Hab k r Hk) as (v & Hv & E1 & E2 & E3 & E4).
  destruct (Hbc k v Hv) as (w & Hw & F1 & F2 & F3 & F4).
  exists w. repeat split; try congruence. auto.
Qed.

Lemma serve_keeps_sessions (c : Call) (db : Store) :
  sessions_kept (refreshTokens db)
                (refreshTokens (store_after (serve c) db)).
Proof.
  destruct (serve_sessions c db)
    as [-> | [(t & i & e & _ & ->) | (test & i & ->)]].
  - apply sessions_kept_refl.
  - intros k r Hk. exists r. rewrite nth_error_app1.
    + repeat split; auto.
    + apply nth_error_Some. congruence.
  - intros k r Hk. rewrite (revoke_owned_nth test i _ k r Hk).
    eexists. split; [reflexivity |].
    destruct (owned_by test i r); cbn; repeat split; auto.
Qed.

(** X11. No sequence of requests to the auth router deletes or moves a
    refresh-token row, changes its token, owner or expiry, or clears its
    revoked flag: sessions are only added by login and revoked by
    logout, and a revocation is never undone. *)
Theorem serve_all_keeps_sessions (calls : list Call) (db : Store) :
  sessions_kept (refreshTokens db) (refreshTokens (serve_all calls db)).
Proof.
  revert db. induction calls as [| c calls IH]; intros db; cbn [serve_all].
  - apply sessions_kept_refl.
  - eapply sessions_kept_trans; [apply serve_keeps_sessions | apply IH].
Qed.

End Invariants.

(** ** Sessions over several requests *)

Section SessionsMore.
Context {B : Bcrypt} {J : Jwt} {P : ProcessEnv}.
Import prisma.user prisma.refreshToken.

(** A cookie whose text is a non-empty value is there, and the store
    reads it as equality with that value. *)
Lemma text_truthy (t : string) :
  t <> EmptyString -> cookie_truthy (Some (Text t)) = true.
Proof.
  intros Hne. cbn. destruct (String.eqb_spec t EmptyString);
    [contradiction | reflexivity].
Qed.

Lemma refused_when_all_revoked (env : RefreshEnv) (req : Request)
    (db : Store) (t : string) :
  cookie_refreshToken req = Some (Text t) ->
  t <> EmptyString ->
  (forall r, In r (refreshTokens db) ->
             RefreshToken.token r = t ->
             RefreshToken.isRevoked r = true) ->
  answer (AuthController.refreshToken env req) db = Ok InvalidToken.
Proof.
  intros Hc Hne Hall.
  rewrite (refresh_run env req db (Text t) _ Hc (text_truthy t Hne) eq_refl).
  assert (Hnone : first_usable (fun value => String.eqb value t)
                    (at_lookup env) (refreshTokens db) = None).
  { apply first_usable_none. intros (r & Hin & Ht & Hr & _).
    apply String.eqb_eq in Ht. rewrite (Hall r Hin Ht) in Hr. discriminate. }
  now rewrite Hnone.
Qed.

Lemma serve_keeps_all_revoked (t : string) (c : Call) (db : Store) :
  ~ draws t c ->
  (forall r, In r (refreshTokens db) ->
             RefreshToken.token r = t ->
             RefreshToken.isRevoked r = true) ->
  forall r, In r (refreshTokens (store_after (serve c) db)) ->
            RefreshToken.token r = t ->
            RefreshToken.isRevoked r = true.
Proof.
  intros Hfresh Hall r.
  destruct (serve_sessions c db)
    as [-> | [(t' & i & e & Hd & ->) | (test & i & ->)]].
  - apply Hall.
  - rewrite in_app_iff. cbn [In]. intros [Hin | [<- | []]].
    + now apply Hall.
    + cbn. intros <-. contradiction.
  - intros Hin. apply in_map_iff in Hin. destruct Hin as (r0 & <- & Hin).
    destruct (owned_by test i r0); [reflexivity |]. now apply Hall.
Qed.

(** X12. Once every row carrying a token value is revoked, that value is
    refused by refresh after any further sequence of requests, as long
    as no login in the sequence draws the same value again. *)
Theorem revoked_token_stays_refused
    (t : string) (calls : list Call) (db : Store)
    (env : RefreshEnv) (req : Request) :
  cookie_refreshToken req = Some (Text t) ->
  t <> EmptyString ->
  (forall r, In r (refreshTokens db) ->
             RefreshToken.token r = t ->
             RefreshToken.isRevoked r = true) ->
  Forall (fun c => ~ draws t c) calls ->
  answer (AuthController.refreshToken env req) (serve_all calls db)
  = Ok InvalidToken.
Proof.
  intros Hc Hne Hall Hcalls.
  apply (refused_when_all_revoked env req _ t Hc Hne).
  revert db Hall. induction Hcalls as [| c calls Hfresh _ IH];
    intros db Hall; cbn [serve_all]; [exact Hall |].
  apply IH. now apply serve_keeps_all_revoked.
Qed.

(** X13. After a logout that presents a token value whose rows all belong
    to the caller, refresh with that value is answered "Invalid or
    expired refresh token". *)
Theorem logout_then_refresh_is_refused
    (req : Request) (db : Store) (caller : ReqUser) (t : string)
    (env : RefreshEnv) (again : Request) :
  user req = Some caller ->
  cookie_refreshToken req = Some (Text t) ->
  t <> EmptyString ->
  (forall r, In r (refreshTokens db) ->
             RefreshToken.token r = t ->
             RefreshToken.userId r = ru_userId caller) ->
  cookie_refreshToken again = Some (Text t) ->
  answer (AuthController.refreshToken env again)
         (store_after (AuthController.logout req) db)
  = Ok InvalidToken.
Proof.
  intros Hu Hc Hne Hown Hagain.
  apply (refused_when_all_revoked env again _ t Hagain Hne).
  unfold store_after. rewrite (logout_run req db caller Hu).
  rewrite Hc, (text_truthy t Hne). cbn [where_string fst refreshTokens].
  intros r Hin Ht. unfold revoke_owned in Hin.
  apply in_map_iff in Hin. destruct Hin as (r0 & <- & Hin).
  destruct (owned_by (fun value => String.eqb value t) (ru_userId caller) r0)
    eqn:Ho; [reflexivity |].
  exfalso. unfold owned_by in Ho. cbn in Ht.
  rewrite Ht, String.eqb_refl, (Hown r0 Hin Ht), Z.eqb_refl in Ho.
  discriminate.
Qed.

Lemma revoke_twice (test : string -> bool) (i : Z)
    (rs : list RefreshToken.t) :
  revoke_owned test i (revoke_owned test i rs) = revoke_owned test i rs.
Proof.
  unfold revoke_owned. rewrite map_map. apply map_ext. intros r.
  destruct (owned_by test i r) eqn:Ho; [| now rewrite Ho].
  unfold owned_by in *. cbn. now rewrite Ho.
Qed.

(** X14. Logging out twice with the same request leaves the store as
    logging out once does, and a logout without a cookie value
    (undefined or empty) leaves the store untouched. *)
Theorem logout_is_idempotent (req : Request) (db : Store) :
  store_after (AuthController.logout req)
              (store_after (AuthController.logout req) db)
  = store_after (AuthController.logout req) db
  /\ (cookie_refreshToken req = None
      \/ cookie_refreshToken req = Some (Text EmptyString) ->
      store_after (AuthController.logout req) db = db).
Proof.
  unfold store_after, AuthController.logout, try_catch, bind, ret, throw,
    updateMany_revoke.
  split; [| intros [-> | ->]; reflexivity].
  destruct (cookie_truthy (cookie_refreshToken req)) eqn:Ht;
    [| reflexivity].
  destruct (cookie_refreshToken req) as [presented |]; [| reflexivity].
  destruct (user req) as [caller |]; [| reflexivity].
  destruct (where_string presented) as [test |]; [| reflexivity].
  cbn [fst snd users refreshTokens loginLogs].
  now rewrite revoke_twice.
Qed.

(** X27. [logout] reads [req.user] only to build the filter of the
    revocation.  Reached without a caller, it answers 500 and writes
    nothing when a cookie is there to revoke, and it answers success and
    clears the cookie, writing nothing, when the cookie is missing or
    empty. *)
Theorem logout_without_caller (req : Request) (db : Store) :
  user req = None ->
  (forall v,
      cookie_refreshToken req = Some v ->
      v <> Text EmptyString ->
      AuthController.logout req db = (db, Ok Internal))
  /\ (cookie_refreshToken req = None
      \/ cookie_refreshToken req = Some (Text EmptyString) ->
      AuthController.logout req db
      = (db, Ok {| status := 200; success := true;
                   message := Some "Logged out successfully";
                   errors := None; data := NoData;
                   cookies :=
                     [ClearCookie "refreshToken"
                        {| httpOnly := true; secure := true;
                           sameSite := "none"; path := "/";
                           maxAge := None |}] |})).
Proof.
  intros Hu. unfold AuthController.logout, try_catch, bind, ret, throw.
  rewrite Hu. split.
  - intros v Hc Hv. apply cookie_truthy_iff in Hv. now rewrite Hc, Hv.
  - intros [-> | ->]; reflexivity.
Qed.

End SessionsMore.

(** ** Login over several requests *)

Section LoginMore.
Context {B : Bcrypt} {J : Jwt} {P : ProcessEnv}.
Import prisma.user prisma.refreshToken.

Lemma by_id_assign (j i : Z) (data : User.t -> User.t) (us : list User.t) :
  (forall x, User.id (data x) = User.id x) ->
  by_id j (assign i data us)
  = option_map (fun x => if User.id x =? i then data x else x) (by_id j us).
Proof.
  intros Hkeep. unfold by_id, assign.
  induction us as [| x us IH]; cbn [map find option_map]; [reflexivity |].
  assert (Hx : User.id (if User.id x =? i then data x else x) = User.id x)
    by (destruct (User.id x =? i); auto).
  rewrite Hx. destruct (User.id x =? j); [reflexivity | exact IH].
Qed.

(** Under the primary key, a row is the one its id finds. *)
Lemma by_id_unique (us : list User.t) (u : User.t) :
  NoDup (map User.id us) -> In u us -> by_id (User.id u) us = Some u.
Proof.
  unfold by_id. induction us as [| x us IH]; cbn [map In find];
    [contradiction |].
  intros Hnd [-> | Hin].
  - now rewrite Z.eqb_refl.
  - inversion Hnd as [| ? ? Hx Hus]; subst.
    destruct (Z.eqb_spec (User.id x) (User.id u)) as [Heq | _].
    + exfalso. apply Hx. rewrite Heq. now apply in_map.
    + now apply IH.
Qed.

(** X15. For every login request there is an answer, and either it has
    status 200, exactly one refresh-token row was added (the drawn token,
    owned by the user found, unrevoked, expiring 7 days after issue) and
    the answer sets that same token as the [refreshToken] cookie with a
    7-day max-age; or the status is not 200, the refresh tokens are as
    before and the answer carries no cookie and no data. *)
Theorem login_issues_session_only_on_success
    (env : LoginEnv) (req : Request) (db : Store) :
  let after := store_after (AuthController.login env req) db in
  exists response,
    answer (AuthController.login env req) db = Ok response
    /\ ((status response = 200
         /\ (exists u,
               by_email (body_email req) (users db) = Some u
               /\ refreshTokens after
                  = refreshTokens db ++
                    [{| RefreshToken.token := random_token env;
                        RefreshToken.userId := User.id u;
                        RefreshToken.expiresAt :=
                          at_issue env + 7 * 24 * 60 * 60 * 1000;
                        RefreshToken.isRevoked := false |}])
         /\ cookies response
            = [SetCookie "refreshToken" (random_token env)
                 {| httpOnly := true; secure := true; sameSite := "none";
                    path := "/";
                    maxAge := Some (7 * 24 * 60 * 60 * 1000) |}])
        \/ (status response <> 200
            /\ refreshTokens after = refreshTokens db
            /\ cookies response = []
            /\ data response = NoData)).
Proof.
  intros after. unfold after, store_after, answer.
  destruct (by_email (body_email req) (users db)) as [u |] eqn:Hf.
  - destruct (User.isActive u) eqn:Ha.
    + destruct (locked_at (at_lock_check env) u) eqn:Hl.
      * rewrite (login_locked env req db u Hf Ha Hl). eexists.
        split; [reflexivity |]. right. repeat split. discriminate.
      * destruct (comparePassword (body_password req) (User.password u))
          eqn:Hp.
        -- destruct (signature_for u (at_sign env)) as [token |] eqn:Hs.
           ++ rewrite (login_success env req db u token Hf Ha Hl Hp Hs).
              eexists. split; [reflexivity |]. left.
              split; [reflexivity |]. split; [| reflexivity].
              exists u. split; reflexivity.
           ++ rewrite (login_unsigned env req db u Hf Ha Hl Hp Hs).
              eexists. split; [reflexivity |]. right. repeat split.
              discriminate.
        -- rewrite (login_wrong_password env req db u Hf Ha Hl Hp). eexists.
           split; [reflexivity |]. right. repeat split. discriminate.
    + rewrite (login_deactivated env req db u Hf Ha). eexists.
      split; [reflexivity |]. right. repeat split. discriminate.
  - rewrite (login_not_found env req db Hf). eexists.
    split; [reflexivity |]. right. repeat split. discriminate.
Qed.

Lemma usable_fresh_row (t : string) (now i e : Z) :
  usable (fun value => String.eqb value t) now
         {| RefreshToken.token := t; RefreshToken.userId := i;
            RefreshToken.expiresAt := e;
            RefreshToken.isRevoked := false |}
  = (now <? e).
Proof. unfold usable. cbn. now rewrite String.eqb_refl. Qed.

(** X16. Take a login with the right password on an open account, whose
    drawn token is not empty and not yet in the table, with ids unique
    among users.  If [jwt.sign] returned a token for the login, refresh
    with the drawn value as cookie finds the session for as long as the
    lookup time is before the row's expiry (7 days after issue): it then
    answers 200 with the token [jwt.sign] returns for the user's id,
    username and role, or 500 if [jwt.sign] throws this time; from the
    expiry on it is answered "Invalid or expired refresh token".  If
    [jwt.sign] threw during the login, no session was stored and refresh
    with the drawn value is answered "Invalid or expired refresh token"
    at any time. *)
Theorem login_then_refresh
    (env : LoginEnv) (req : Request) (db : Store) (u : User.t)
    (renv : RefreshEnv) (again : Request) :
  by_email (body_email req) (users db) = Some u ->
  User.isActive u = true ->
  locked_at (at_lock_check env) u = false ->
  comparePassword (body_password req) (User.password u) = true ->
  NoDup (map User.id (users db)) ->
  random_token env <> EmptyString ->
  (forall r, In r (refreshTokens db) ->
             RefreshToken.token r <> random_token env) ->
  cookie_refreshToken again = Some (Text (random_token env)) ->
  let db1 := store_after (AuthController.login env req) db in
  let said := answer (AuthController.refreshToken renv again) db1 in
  (forall issued,
      signature_for u (at_sign env) = Some issued ->
      (at_lookup renv < at_issue env + 7 * 24 * 60 * 60 * 1000 ->
       (forall token,
           signature_for u (at_resign renv) = Some token ->
           said = Ok {| status := 200; success := true; message := None;
                        errors := None; data := Refreshed token;
                        cookies := [] |})
       /\ (signature_for u (at_resign renv) = None -> said = Ok Internal))
      /\ (at_issue env + 7 * 24 * 60 * 60 * 1000 <= at_lookup renv ->
          said = Ok InvalidToken))
  /\ (signature_for u (at_sign env) = None -> said = Ok InvalidToken).
Proof.
  intros Hf Ha Hl Hp Hnd Hne Hfresh Hc db1 said.
  assert (Hold : find (usable (fun value => String.eqb value (random_token env))
                              (at_lookup renv))
                      (refreshTokens db) = None).
  { apply first_usable_none. intros (r & Hin & Ht & _).
    apply String.eqb_eq in Ht. now apply (Hfresh r Hin). }
  assert (Hu : by_id (User.id u) (users db) = Some u).
  { apply by_id_unique; [exact Hnd |].
    now apply TableFacts.by_email_some in Hf. }
  pose proof (refresh_run renv again db1 (Text (random_token env)) _ Hc
                (text_truthy _ Hne) eq_refl) as Hrun.
  fold said in Hrun. split.
  - intros issued Hs. revert Hrun.
    unfold db1, store_after, first_usable.
    rewrite (login_success env req db u issued Hf Ha Hl Hp Hs).
    cbn [fst users refreshTokens]. rewrite (find_app_none _ _ _ Hold).
    cbn [find]. rewrite usable_fresh_row. intros Hrun.
    split; intros Ht.
    + assert (E : (at_lookup renv <? at_issue env + REFRESH_MS) = true)
        by (apply Z.ltb_lt; exact Ht).
      rewrite E in Hrun. unfold owner in Hrun.
      cbn [RefreshToken.userId] in Hrun.
      rewrite by_id_assign in Hrun by reflexivity. rewrite Hu in Hrun.
      cbn [option_map] in Hrun. rewrite Z.eqb_refl in Hrun.
      cbn [successful_login User.isActive] in Hrun. rewrite Ha in Hrun.
      change (signature_for
                (successful_login (at_success env)
                   (Js.or_else (ip req) "unknown") u) (at_resign renv))
        with (signature_for u (at_resign renv)) in Hrun.
      split.
      * intros token Hs'. now rewrite Hrun, Hs'.
      * intros Hs'. now rewrite Hrun, Hs'.
    + assert (E : (at_lookup renv <? at_issue env + REFRESH_MS) = false)
        by (apply Z.ltb_ge; exact Ht).
      now rewrite E in Hrun.
  - intros Hs. revert Hrun. unfold db1, store_after, first_usable.
    rewrite (login_unsigned env req db u Hf Ha Hl Hp Hs).
    cbn [fst users refreshTokens]. now rewrite Hold.
Qed.

(** X17. A successful login clears the failure history: whatever the
    counter was, the next wrong password for the account is logged as
    attempt 1 and leaves the counter at 1 with no lockout. *)
Theorem success_then_failure_counts_from_one
    (env : LoginEnv) (req : Request) (db : Store) (u : User.t)
    (env' : LoginEnv) (req' : Request) :
  by_email (body_email req) (users db) = Some u ->
  User.isActive u = true ->
  locked_at (at_lock_check env) u = false ->
  comparePassword (body_password req) (User.password u) = true ->
  body_email req' = body_email req ->
  comparePassword (body_password req') (User.password u) = false ->
  let db1 := store_after (AuthController.login env req) db in
  let db2 := store_after (AuthController.login env' req') db1 in
  answer (AuthController.login env' req') db1 = Ok InvalidCredentials
  /\ (exists u2,
        by_email (body_email req) (users db2) = Some u2
        /\ User.failedLoginAttempts u2 = 1
        /\ User.lockoutUntil u2 = None)
  /\ loginLogs db2
     = loginLogs db1 ++
       [attempt_log req' (Some (User.id u)) false
          "Invalid password (attempt 1)"].
Proof.
  intros Hf Ha Hl Hp He Hp' db1 db2.
  pose proof (row_after_success env req db u Hf Ha Hl Hp) as Hrow.
  fold db1 in Hrow. rewrite <- He in Hrow.
  set (u1 := successful_login (at_success env)
               (Js.or_else (ip req) "unknown") u) in *.
  assert (Ha1 : User.isActive u1 = true) by exact Ha.
  assert (Hl1 : locked_at (at_lock_check env') u1 = false) by reflexivity.
  assert (Hp1 : comparePassword (body_password req') (User.password u1)
                = false) by exact Hp'.
  pose proof (row_after_failure env' req' db1 u1 Hrow Ha1 Hl1 Hp1) as Hrow2.
  fold db2 in Hrow2. rewrite He in Hrow2.
  unfold db2, answer, store_after.
  rewrite (login_wrong_password env' req' db1 u1 Hrow Ha1 Hl1 Hp1).
  cbn [fst snd loginLogs]. split; [reflexivity |]. split.
  - unfold db2, store_after in Hrow2.
    rewrite (login_wrong_password env' req' db1 u1 Hrow Ha1 Hl1 Hp1)
      in Hrow2.
    cbn [fst] in Hrow2. eexists. split; [exact Hrow2 |].
    split; reflexivity.
  - reflexivity.
Qed.

(** X18. The end of a lockout does not reset the counter: on an active
    account with consistent lockout columns whose lockout has elapsed, a
    single wrong password sets a new lockout of 30 minutes from that
    failure and raises the counter by one. *)
Theorem one_failure_after_lockout_locks_again
    (env : LoginEnv) (req : Request) (db : Store) (u : User.t)
    (elapsed : Z) :
  by_email (body_email req) (users db) = Some u ->
  User.isActive u = true ->
  lockout_consistent u ->
  User.lockoutUntil u = Some elapsed ->
  elapsed <= at_lock_check env ->
  comparePassword (body_password req) (User.password u) = false ->
  exists u',
    by_email (body_email req)
             (users (store_after (AuthController.login env req) db))
    = Some u'
    /\ User.failedLoginAttempts u' = User.failedLoginAttempts u + 1
    /\ User.lockoutUntil u' = Some (at_failure env + 30 * 60 * 1000).
Proof.
  intros Hf Ha [_ Hcons] Hu Hgone Hp.
  assert (Hl : locked_at (at_lock_check env) u = false).
  { unfold locked_at. rewrite Hu. now apply Z.ltb_ge. }
  rewrite (row_after_failure env req db u Hf Ha Hl Hp).
  assert (Hfive : 5 <= User.failedLoginAttempts u)
    by (apply Hcons; congruence).
  assert (E : (5 <=? User.failedLoginAttempts u + 1) = true)
    by (apply Z.leb_le; lia).
  rewrite E. eexists. split; [reflexivity |]. split; reflexivity.
Qed.

End LoginMore.

(** ** Registration followed by login, and the profile *)

Section AccountMore.
Context {B : Bcrypt} {J : Jwt} {P : ProcessEnv}.
Import prisma.user.

(** X19. An account is usable as soon as it is registered: the next
    login under its email reaches the password comparison against the
    stored hash.  If bcrypt accepts the password, the login answers 200
    with the new user's id, lower-cased username, email and role "user"
    and the token [jwt.sign] returned for that id, username and role, or
    500 if [jwt.sign] throws; if bcrypt rejects it, the answer is the
    generic 401 and the failure is logged as attempt 1. *)
Theorem register_then_login
    (env : RegisterEnv) (req : Request) (db : Store)
    (lenv : LoginEnv) (lreq : Request) :
  (forall u, In u (users db) ->
             User.email u <> body_email req
             /\ User.username u <> Js.toLowerCase (body_username req)) ->
  PasswordService.valid
    (PasswordService.validatePasswordStrength (body_password req)) = true ->
  body_email lreq = body_email req ->
  let db1 := store_after (AuthController.register env req) db in
  let stored := hashPassword (body_password req) (salt env) in
  let newcomer :=
    {| pu_id := next_id (users db);
       pu_username := Js.toLowerCase (body_username req);
       pu_email := body_email req;
       pu_role := "user" |} in
  let signed :=
    jwt_sign
      {| tc_userId := next_id (users db);
         tc_username := Js.toLowerCase (body_username req);
         tc_role := "user" |}
      {| expiresIn :=
           Some (match JWT_ACCESS_EXPIRE with
                 | Some span => if String.eqb span EmptyString then "15m"
                                else span
                 | None => "15m"
                 end);
         issuer := "fruit-inventory";
         audience := "fruit-inventory-client" |}
      (at_sign lenv) in
  (comparePassword (body_password lreq) stored = true ->
   (forall token,
       signed = Some token ->
       exists response,
         answer (AuthController.login lenv lreq) db1 = Ok response
         /\ status response = 200
         /\ data response = LoggedIn newcomer token)
   /\ (signed = None ->
       answer (AuthController.login lenv lreq) db1 = Ok Internal))
  /\ (comparePassword (body_password lreq) stored = false ->
      answer (AuthController.login lenv lreq) db1 = Ok InvalidCredentials
      /\ loginLogs (store_after (AuthController.login lenv lreq) db1)
         = loginLogs db1 ++
           [attempt_log lreq (Some (pu_id newcomer)) false
              "Invalid password (attempt 1)"]).
Proof.
  intros Hfree Hv He db1 stored newcomer signed.
  pose proof (proj2 (existing_user_none_iff req db) Hfree) as Hnone.
  set (created := with_defaults (next_id (users db))
                    (Js.toLowerCase (body_username req)) (body_email req)
                    (hashPassword (body_password req) (salt env))).
  assert (Hrow : by_email (body_email lreq) (users db1) = Some created).
  { rewrite He. apply (register_stores_hash env req db Hnone Hv). }
  assert (Ha : User.isActive created = true) by reflexivity.
  assert (Hl : locked_at (at_lock_check lenv) created = false)
    by reflexivity.
  assert (Hsig : signature_for created (at_sign lenv) = signed)
    by reflexivity.
  split; intros Hp.
  - destruct (login_granted_answer lenv lreq db1 created Hrow Ha Hl Hp)
      as [Hyes Hno].
    rewrite Hsig in Hyes, Hno. split.
    + intros token Hs. rewrite (Hyes token Hs). eexists.
      split; [reflexivity |]. split; reflexivity.
    + exact Hno.
  - unfold answer, store_after.
    rewrite (login_wrong_password lenv lreq db1 created Hrow Ha Hl Hp).
    split; reflexivity.
Qed.

Lemma by_id_none_iff (i : Z) (us : list User.t) :
  by_id i us = None <-> forall u, In u us -> User.id u <> i.
Proof.
  unfold by_id. split.
  - intros Hn u Hin. pose proof (find_none _ _ Hn u Hin) as Hu.
    now apply Z.eqb_neq.
  - intros Hno. destruct (find _ us) as [u |] eqn:E; [| reflexivity].
    apply find_some in E. destruct E as [Hin Hu]. apply Z.eqb_eq in Hu.
    now elim (Hno u Hin).
Qed.

Lemma getProfile_run (req : Request) (db : Store) (caller : ReqUser) :
  user req = Some caller ->
  answer (AuthController.getProfile req) db
  = match by_id (ru_userId caller) (users db) with
    | None => Ok NotFound
    | Some u =>
        Ok {| status := 200; success := true;
              message := None; errors := None;
              data := ProfileOf
                        {| pr_user := public u;
                           pr_isActive := User.isActive u;
                           pr_lastLoginAt := User.lastLoginAt u |};
              cookies := [] |}
    end.
Proof.
  intros Hu. unfold answer, AuthController.getProfile, try_catch, bind, ret,
    findUnique_id.
  rewrite Hu. destruct (by_id (ru_userId caller) (users db)); reflexivity.
Qed.

(** X20. For a request that carries an identity, [getProfile] reads the
    store without writing it; it answers 404 "User not found" exactly
    when no row has the caller's id, and otherwise answers 200 with the
    id, username, email, role, active flag and last login of the row with
    that id. *)
Theorem getProfile_finds_caller_or_404
    (req : Request) (db : Store) (caller : ReqUser) :
  user req = Some caller ->
  store_after (AuthController.getProfile req) db = db
  /\ (answer (AuthController.getProfile req) db = Ok NotFound
      <-> forall u, In u (users db) -> User.id u <> ru_userId caller)
  /\ (forall u,
        by_id (ru_userId caller) (users db) = Some u ->
        User.id u = ru_userId caller
        /\ answer (AuthController.getProfile req) db
           = Ok {| status := 200; success := true;
                   message := None; errors := None;
                   data := ProfileOf
                             {| pr_user :=
                                  {| pu_id := User.id u;
                                     pu_username := User.username u;
                                     pu_email := User.email u;
                                     pu_role := User.role u |};
                                pr_isActive := User.isActive u;
                                pr_lastLoginAt := User.lastLoginAt u |};
                   cookies := [] |}).
Proof.
  intros Hu. split; [apply getProfile_reads_only |].
  rewrite (getProfile_run req db caller Hu). split.
  - rewrite <- by_id_none_iff.
    destruct (by_id (ru_userId caller) (users db)); split;
      try reflexivity; discriminate.
  - intros u Hf. rewrite Hf. split; [| reflexivity].
    now apply TableFacts.by_id_some in Hf.
Qed.

(** X21. On the profile route, on one state of the store, the answer is
    either a 401 of the middleware or a 200 carrying the profile of a row
    whose id is the verified token's user id; the 404 and the 500 of the
    handler are not reached. *)
Theorem route_profile_answers_401_or_profile
    (now : Z) (req : Request) (db : Store) :
  exists response,
    answer (route_profile now req) db = Ok response
    /\ (status response = 401
        \/ (status response = 200
            /\ exists token payload u,
                 header_authorization req
                 = Some ("Bearer " ++ token)%string
                 /\ jwt_verify token verify_options now = Some payload
                 /\ In u (users db)
                 /\ User.id u = userId payload
                 /\ data response
                    = ProfileOf
                        {| pr_user := public u;
                           pr_isActive := User.isActive u;
                           pr_lastLoginAt := User.lastLoginAt u |})).
Proof.
  unfold answer, route_profile, bind. rewrite authenticate_run.
  destruct (JWTService.extractTokenFromHeader (header_authorization req))
    as [token |] eqn:Hx;
    [| eexists; split; [reflexivity | now left]].
  destruct (String.eqb token EmptyString);
    [eexists; split; [reflexivity | now left] |].
  destruct (jwt_verify token verify_options now) as [payload |] eqn:Hv;
    [| eexists; split; [reflexivity | now left]].
  destruct (find _ (users db)) as [u |] eqn:Hf;
    [| eexists; split; [reflexivity | now left]].
  destruct (issued_before_change payload u);
    [eexists; split; [reflexivity | now left] |].
  apply find_some in Hf. destruct Hf as [Hin Hu].
  apply andb_true_iff in Hu. destruct Hu as [Hid _]. apply Z.eqb_eq in Hid.
  destruct (TableFacts.by_id_of_member (users db) u Hin) as [u0 Hu0].
  pose proof (getProfile_run (attach_user req (identity u)) db (identity u)
                eq_refl) as Hrun.
  unfold answer in Hrun. cbn [identity ru_userId] in Hrun.
  rewrite Hu0 in Hrun. rewrite Hrun. eexists. split; [reflexivity |].
  right. split; [reflexivity |].
  apply TableFacts.by_id_some in Hu0. destruct Hu0 as [Hin0 Hid0].
  exists token, payload, u0. repeat split; auto.
  - now apply bearer_header_of_token.
  - congruence.
Qed.

End AccountMore.

(** ** The password policy, further *)

Module PolicyMore.
Import PasswordService Policy.








End PolicyMore.

(** ** Deleting a fruit record *)

Module FruitFacts.
Import Fruit.

Section Delete.
Context {Columns : Type}.

Lemma findUnique_some_iff (i : Z) (rows : @table Columns) :
  (exists r, findUnique i rows = Some r)
  <-> exists r, In r rows /\ id r = i.
Proof.
  unfold findUnique. split.
  - intros [r Hr]. apply find_some in Hr. destruct Hr as [Hin Hi].
    apply Z.eqb_eq in Hi. eauto.
  - intros [r [Hin Hi]].
    destruct (find (fun x => id x =? i) rows) as [r0 |] eqn:E; [eauto |].
    pose proof (find_none _ _ E r Hin) as Hno. cbn in Hno.
    apply Z.eqb_neq in Hno. contradiction.
Qed.

Lemma delete_in (i : Z) (rows : @table Columns) (r : row Columns) :
  In r (delete i rows) <-> In r rows /\ id r <> i.
Proof.
  unfold delete. rewrite filter_In, negb_true_iff, Z.eqb_neq. tauto.
Qed.

Lemma delete_absent (i : Z) (rows : @table Columns) :
  (forall r, In r rows -> id r <> i) -> delete i rows = rows.
Proof.
  intros Hno. unfold delete. induction rows as [| r rows IH]; cbn;
    [reflexivity |].
  assert (Hr : (id r =? i) = false)
    by (apply Z.eqb_neq, Hno; now left).
  rewrite Hr. cbn. f_equal. apply IH. intros x Hx. apply Hno. now right.
Qed.

(** X23. [deleteFruit] answers 400 "Invalid ID" exactly when [parseInt]
    finds no number in the route parameter.  With a number that a row
    has as its id, it answers 200 and the table afterwards is the table
    before without the rows of that id, the others in their order; with
    a number that no row has, it answers 404 "Fruit not found".  Every
    answer other than 200 leaves the table as it was. *)
Theorem deleteFruit_removes_exactly_that_id
    (param : string) (rows : @table Columns) :
  let after := fst (deleteFruit param rows) in
  let response := snd (deleteFruit param rows) in
  (response = failure 400 "Invalid ID" <-> parseInt10 param = None)
  /\ (forall i,
        parseInt10 param = Some i ->
        fits_int i ->
        (exists r, In r rows /\ id r = i) ->
        status response = 200
        /\ after = filter (fun r => negb (id r =? i)) rows
        /\ (forall r, In r after <-> In r rows /\ id r <> i))
  /\ (forall i,
        parseInt10 param = Some i ->
        fits_int i ->
        (forall r, In r rows -> id r <> i) ->
        response = failure 404 "Fruit not found")
  /\ (status response <> 200 -> after = rows).
Proof.
  intros after response. unfold after, response, deleteFruit.
  destruct (parseInt10 param) as [i |].
  - split; [| split; [| split]].
    + destruct (findUnique i rows); cbn [snd]; split; discriminate.
    + intros i' [= <-] _ Hex.
      apply findUnique_some_iff in Hex. destruct Hex as [r0 Hr0].
      rewrite Hr0. cbn [fst snd status].
      split; [reflexivity |]. split; [reflexivity |].
      intros r. apply delete_in.
    + intros i' [= <-] _ Hno.
      destruct (findUnique i rows) as [r0 |] eqn:E; [| reflexivity].
      exfalso. destruct (proj1 (findUnique_some_iff i rows)) as [r [Hin Hi]];
        [eauto |]. now apply (Hno r Hin).
    + destruct (findUnique i rows); cbn [fst snd status];
        [intros Hn; now elim Hn | reflexivity].
  - split; [| split; [| split]].
    + cbn [snd]. tauto.
    + discriminate.
    + discriminate.
    + reflexivity.
Qed.

(** X24. Deleting the same id again finds nothing: on a table whose ids
    the column can hold, after a [deleteFruit] answered 200, the same
    request is answered 404 and changes nothing. *)
Theorem deleteFruit_twice_is_not_found
    (param : string) (rows : @table Columns) :
  Forall (fun r => fits_int (id r)) rows ->
  status (snd (deleteFruit param rows)) = 200 ->
  deleteFruit param (fst (deleteFruit param rows))
  = (fst (deleteFruit param rows), failure 404 "Fruit not found").
Proof.
  intros _. unfold deleteFruit. destruct (parseInt10 param) as [i |] eqn:Hp;
    [| cbn; discriminate].
  destruct (findUnique i rows) as [r0 |]; [| cbn; discriminate].
  intros _. cbn [fst].
  assert (Hgone : findUnique i (delete i rows) = None).
  { destruct (findUnique i (delete i rows)) as [r |] eqn:E; [| reflexivity].
    exfalso. destruct (proj1 (findUnique_some_iff i (delete i rows)))
      as [x [Hin Hi]]; [eauto |].
    apply delete_in in Hin. tauto. }
  now rewrite Hgone.
Qed.

End Delete.

Lemma digit_is_not_space (c : ascii) :
  PasswordService.is_digit c = true -> is_space c = false.
Proof.
  unfold PasswordService.is_digit, Js.in_range, is_space.
  change (Js.code "0") with 48. change (Js.code "9") with 57.
  intros Hd. apply andb_true_iff in Hd. destruct Hd as [Hlo Hhi].
  apply Z.leb_le in Hlo, Hhi.
  repeat rewrite orb_false_iff. repeat split.
  - apply andb_false_iff. right. apply Z.leb_gt. lia.
  - apply Z.eqb_neq. lia.
  - apply Z.eqb_neq. lia.
Qed.

Lemma trim_start_spaces (w s : string) :
  Forall (fun c => is_space c = true) (Js.chars w) ->
  trim_start (w ++ s) = trim_start s.
Proof.
  unfold Js.chars. induction w as [| c w IH]; cbn; [reflexivity |].
  intros Hw. inversion Hw as [| ? ? Hc Hrest]; subst.
  rewrite Hc. now apply IH.
Qed.

Lemma digits_prefix (d rest : string) :
  all_digits d ->
  ends_number rest ->
  forall acc,
    digits acc (d ++ rest)
    = match d with
      | EmptyString => acc
      | String _ _ =>
          Some (fold_left (fun a c => 10 * a + (Js.code c - 48))
                          (Js.chars d)
                          match acc with Some a => a | None => 0 end)
      end.
Proof.
  unfold all_digits, Js.chars. intros Hd Hr.
  induction d as [| c d IH]; intros acc.
  - cbn. destruct rest as [| c rest]; [reflexivity |].
    cbn in Hr. cbn. now rewrite Hr.
  - inversion Hd as [| ? ? Hc Hrest]; subst.
    cbn [append digits]. rewrite Hc. rewrite (IH Hrest).
    destruct d; reflexivity.
Qed.

Lemma parseInt10_lenient (w d rest : string) :
  Forall (fun c => is_space c = true) (Js.chars w) ->
  all_digits d ->
  d <> EmptyString ->
  ends_number rest ->
  parseInt10 (w ++ d ++ rest) = Some (number d).
Proof.
  intros Hw Hd Hne Hr. unfold parseInt10. rewrite (trim_start_spaces _ _ Hw).
  destruct d as [| c d']; [contradiction |].
  assert (Hc : PasswordService.is_digit c = true).
  { unfold all_digits, Js.chars in Hd. now inversion Hd. }
  cbn [append trim_start]. rewrite (digit_is_not_space c Hc).
  assert (Hminus : Ascii.eqb c "-" = false).
  { destruct (Ascii.eqb_spec c "-"); [subst; discriminate | reflexivity]. }
  assert (Hplus : Ascii.eqb c "+" = false).
  { destruct (Ascii.eqb_spec c "+"); [subst; discriminate | reflexivity]. }
  rewrite Hminus, Hplus.
  change (String c (d' ++ rest)) with (String c d' ++ rest)%string.
  now rewrite (digits_prefix _ _ Hd Hr).
Qed.

(** X25. The handler [deleteFruit] reads the parameter it is given the
    way [parseInt] does: leading white space and whatever follows the
    leading digits are ignored, so a parameter made of spaces, a
    non-empty run of decimal digits (a number the id column can hold) and
    a tail that does not start with a digit addresses the same record,
    with the same answer, as the digits alone. *)
Theorem deleteFruit_ignores_text_around_the_number
    {Columns : Type} (w d rest : string) (rows : @table Columns) :
  Forall (fun c => is_space c = true) (Js.chars w) ->
  all_digits d ->
  d <> EmptyString ->
  fits_int (number d) ->
  ends_number rest ->
  parseInt10 (w ++ d ++ rest) = Some (number d)
  /\ deleteFruit (w ++ d ++ rest) rows = deleteFruit d rows.
Proof.
  intros Hw Hd Hne _ Hr.
  pose proof (parseInt10_lenient w d rest Hw Hd Hne Hr) as Hfull.
  pose proof (parseInt10_lenient EmptyString d EmptyString
                (Forall_nil _) Hd Hne I) as Hbare.
  cbn [append] in Hbare.
  assert (Hd' : (d ++ EmptyString)%string = d).
  { clear. induction d as [| c d IH]; cbn; [reflexivity | now rewrite IH]. }
  rewrite Hd' in Hbare.
  split; [exact Hfull |]. unfold deleteFruit. now rewrite Hfull, Hbare.
Qed.

Lemma parseInt10_signed (d rest : string) :
  all_digits d ->
  d <> EmptyString ->
  ends_number rest ->
  parseInt10 ("+" ++ d ++ rest) = Some (number d)
  /\ parseInt10 ("-" ++ d ++ rest) = Some (- number d).
Proof.
  intros Hd Hne Hr. unfold parseInt10. cbn.
  rewrite (digits_prefix _ _ Hd Hr).
  destruct d as [| c d']; [contradiction |]. split; reflexivity.
Qed.

(** X26. The handler [deleteFruit] reads a sign in front of the digits
    the way [parseInt] does: with a plus sign the parameter addresses the
    same record as the digits alone, and with a minus sign it addresses
    the negative id, which on a table whose ids are all positive is
    answered 404 "Fruit not found" with the table unchanged. *)
Theorem deleteFruit_reads_a_sign
    {Columns : Type} (d rest : string) (rows : @table Columns) :
  all_digits d ->
  d <> EmptyString ->
  fits_int (number d) ->
  ends_number rest ->
  parseInt10 ("+" ++ d ++ rest) = Some (number d)
  /\ parseInt10 ("-" ++ d ++ rest) = Some (- number d)
  /\ deleteFruit ("+" ++ d ++ rest) rows = deleteFruit d rows
  /\ (0 < number d ->
      Forall (fun r => 0 < id r) rows ->
      deleteFruit ("-" ++ d ++ rest) rows
      = (rows, failure 404 "Fruit not found")).
Proof.
  intros Hd Hne _ Hr.
  destruct (parseInt10_signed d rest Hd Hne Hr) as [Hplus Hminus].
  pose proof (parseInt10_lenient EmptyString d EmptyString
                (Forall_nil _) Hd Hne I) as Hbare.
  cbn [append] in Hbare.
  assert (Hd' : (d ++ EmptyString)%string = d).
  { clear. induction d as [| c d IH]; cbn; [reflexivity | now rewrite IH]. }
  rewrite Hd' in Hbare.
  split; [exact Hplus |]. split; [exact Hminus |]. split.
  - unfold deleteFruit. now rewrite Hplus, Hbare.
  - intros Hpos Hrows. unfold deleteFruit. rewrite Hminus.
    destruct (findUnique (- number d) rows) as [r |] eqn:E; [| reflexivity].
    exfalso. unfold findUnique in E. apply find_some in E.
    destruct E as [Hin Hid]. apply Z.eqb_eq in Hid.
    rewrite Forall_forall in Hrows. specialize (Hrows r Hin). lia.
Qed.

End FruitFacts.

(** ** The further statements on sample data *)

Section OnFixtures.
#[local] Existing Instance Sample.bcrypt.
#[local] Existing Instance Sample.jwt.
#[local] Existing Instance Sample.process_env.
Import Sample Fixture.

(** Bob's token passes and the request goes on as Bob. *)
Lemma authenticate_passes_only_verified_on_bob :
  exists token payload u,
    header_authorization (bearer "bob") = Some ("Bearer " ++ token)%string
    /\ jwt_verify token verify_options 1500 = Some payload
    /\ In u (users db0)
    /\ User.id u = userId payload
    /\ User.isActive u = true.
Proof.
  assert (Hpass : answer (authenticate 1500 (bearer "bob")) db0
                  = Ok (inr (attach_user (bearer "bob") (identity bob))))
    by reflexivity.
  destruct (authenticate_passes_only_verified 1500 (bearer "bob") _ db0 Hpass)
    as (token & payload & u & Hh & _ & Hv & Hin & Hid & Ha & _).
  exists token, payload, u. auto.
Defined.

(** Bob's token after Bob was deactivated. *)
Lemma authenticate_rejects_unavailable_user_on_bob :
  answer (authenticate 1500 (bearer "bob")) db_locked
  = Ok (inl UserUnavailable).
Proof.
  assert (Hne : "bob" <> EmptyString) by discriminate.
  assert (Hv : jwt_verify "bob" verify_options 1500
               = Some {| userId := 2; username := "bob"; role := "user";
                         iat := Some 1000; exp := Some 1900 |})
    by reflexivity.
  apply (authenticate_rejects_unavailable_user 1500 (bearer "bob") db_locked
           "bob" _ eq_refl Hne Hv).
  intros u Hin Hid. cbn in Hin. destruct Hin as [<- | [<- | []]].
  - discriminate.
  - reflexivity.
Defined.

Lemma serve_all_keeps_keys_unique_on_traffic :
  keys_unique (users db0) /\ keys_unique (users (serve_all traffic db0)).
Proof.
  assert (Hk : keys_unique (users db0)).
  { unfold keys_unique. cbn. repeat split; repeat constructor; cbn;
      intuition discriminate. }
  split; [exact Hk |]. exact (serve_all_keeps_keys_unique traffic db0 Hk).
Defined.

Lemma revoked_token_stays_refused_on_traffic :
  answer (AuthController.refreshToken (refresh_at 5000)
            (alice_with_cookie "bbbb"))
         (serve_all traffic db_revoked)
  = Ok InvalidToken.
Proof.
  assert (Hne : "bbbb" <> EmptyString) by discriminate.
  assert (Hall : forall r, In r (refreshTokens db_revoked) ->
                           RefreshToken.token r = "bbbb" ->
                           RefreshToken.isRevoked r = true).
  { intros r Hin Ht. cbn in Hin. destruct Hin as [<- | [<- | []]];
      [discriminate | reflexivity]. }
  assert (Hfresh : Forall (fun c => ~ draws "bbbb" c) traffic).
  { unfold traffic. repeat constructor; cbn; try tauto; discriminate. }
  exact (revoked_token_stays_refused "bbbb" traffic db_revoked
           (refresh_at 5000) (alice_with_cookie "bbbb") eq_refl Hne Hall
           Hfresh).
Defined.

Lemma logout_then_refresh_is_refused_on_alice :
  answer (AuthController.refreshToken (refresh_at 100)
            (alice_with_cookie "aaaa")) db_sessions
  = Ok {| status := 200; success := true; message := None; errors := None;
          data := Refreshed "alice"; cookies := [] |}
  /\ answer (AuthController.refreshToken (refresh_at 100)
               (alice_with_cookie "aaaa"))
            (store_after (AuthController.logout (alice_with_cookie "aaaa"))
                         db_sessions)
     = Ok InvalidToken.
Proof.
  split; [reflexivity |].
  assert (Hne : "aaaa" <> EmptyString) by discriminate.
  assert (Hown : forall r, In r (refreshTokens db_sessions) ->
                           RefreshToken.token r = "aaaa" ->
                           RefreshToken.userId r = ru_userId as_alice).
  { intros r Hin Ht. cbn in Hin. destruct Hin as [<- | [<- | []]];
      [reflexivity | discriminate]. }
  exact (logout_then_refresh_is_refused (alice_with_cookie "aaaa")
           db_sessions as_alice "aaaa" (refresh_at 100)
           (alice_with_cookie "aaaa") eq_refl eq_refl Hne Hown eq_refl).
Defined.

Lemma login_then_refresh_on_alice :
  let db1 :=
    store_after (AuthController.login (clock 1000)
                   (alice_login "Str0ng!Pass")) db0 in
  answer (AuthController.refreshToken (refresh_at 2000)
            (alice_with_cookie "c0ffee")) db1
  = Ok {| status := 200; success := true; message := None; errors := None;
          data := Refreshed "alice"; cookies := [] |}
  /\ answer (AuthController.refreshToken (refresh_at 604801000)
               (alice_with_cookie "c0ffee")) db1
     = Ok InvalidToken.
Proof.
  assert (Hp : comparePassword (body_password (alice_login "Str0ng!Pass"))
                               (User.password alice) = true)
    by reflexivity.
  assert (Hnd : NoDup (map User.id (users db0))).
  { cbn. repeat constructor; cbn; intuition discriminate. }
  assert (Hne : random_token (clock 1000) <> EmptyString) by discriminate.
  assert (Hfresh : forall r, In r (refreshTokens db0) ->
                             RefreshToken.token r
                             <> random_token (clock 1000)).
  { intros r []. }
  assert (Hissued : signature_for alice (at_sign (clock 1000))
                    = Some "alice") by reflexivity.
  assert (Hagain : signature_for alice (at_resign (refresh_at 2000))
                   = Some "alice") by reflexivity.
  assert (Hearly : at_lookup (refresh_at 2000)
                   < at_issue (clock 1000) + 7 * 24 * 60 * 60 * 1000)
    by reflexivity.
  assert (Hlate : at_issue (clock 1000) + 7 * 24 * 60 * 60 * 1000
                  <= at_lookup (refresh_at 604801000))
    by (apply Z.leb_le; reflexivity).
  split.
  - destruct (login_then_refresh (clock 1000)
                (alice_login "Str0ng!Pass") db0 alice (refresh_at 2000)
                (alice_with_cookie "c0ffee")
                eq_refl eq_refl eq_refl Hp Hnd Hne Hfresh eq_refl)
      as [Hsigned _].
    destruct (Hsigned "alice" Hissued) as [Hin _].
    destruct (Hin Hearly) as [Hyes _].
    exact (Hyes "alice" Hagain).
  - destruct (login_then_refresh (clock 1000)
                (alice_login "Str0ng!Pass") db0 alice
                (refresh_at 604801000) (alice_with_cookie "c0ffee")
                eq_refl eq_refl eq_refl Hp Hnd Hne Hfresh eq_refl)
      as [Hsigned _].
    destruct (Hsigned "alice" Hissued) as [_ Hout].
    exact (Hout Hlate).
Defined.

Lemma success_then_failure_counts_from_one_on_alice :
  let db1 :=
    store_after (AuthController.login (clock 1805000)
                   (alice_login "Str0ng!Pass")) db_alice_locked in
  User.failedLoginAttempts alice_locked = 5
  /\ answer (AuthController.login (clock 1806000) (alice_login "guess")) db1
     = Ok InvalidCredentials
  /\ exists u2,
       prisma.user.by_email "alice@x.com"
         (users (store_after (AuthController.login (clock 1806000)
                                (alice_login "guess")) db1))
       = Some u2
       /\ User.failedLoginAttempts u2 = 1.
Proof.
  assert (Hp : comparePassword (body_password (alice_login "Str0ng!Pass"))
                               (User.password alice_locked) = true)
    by reflexivity.
  assert (Hp' : comparePassword (body_password (alice_login "guess"))
                                (User.password alice_locked) = false)
    by reflexivity.
  destruct (success_then_failure_counts_from_one (clock 1805000)
              (alice_login "Str0ng!Pass") db_alice_locked alice_locked
              (clock 1806000) (alice_login "guess")
              eq_refl eq_refl eq_refl Hp eq_refl Hp')
    as (Hsaid & (u2 & Hrow & Hcount & _) & _).
  split; [reflexivity |]. split; [exact Hsaid |].
  exists u2. split; [exact Hrow | exact Hcount].
Defined.

Lemma one_failure_after_lockout_locks_again_on_alice :
  exists u',
    prisma.user.by_email "alice@x.com"
      (users (store_after (AuthController.login (clock 1900000)
                             (alice_login "guess")) db_alice_locked))
    = Some u'
    /\ User.failedLoginAttempts u' = 6
    /\ User.lockoutUntil u' = Some (1900000 + 30 * 60 * 1000).
Proof.
  assert (Hcons : lockout_consistent alice_locked).
  { unfold lockout_consistent. cbn. split; [discriminate |].
    intros _. discriminate. }
  assert (Hgone : 5000 + LOCKOUT_MS <= at_lock_check (clock 1900000))
    by (apply Z.leb_le; reflexivity).
  assert (Hp : comparePassword (body_password (alice_login "guess"))
                               (User.password alice_locked) = false)
    by reflexivity.
  exact (one_failure_after_lockout_locks_again (clock 1900000)
           (alice_login "guess") db_alice_locked alice_locked
           (5000 + LOCKOUT_MS) eq_refl eq_refl Hcons eq_refl Hgone Hp).
Defined.

Lemma register_then_login_on_carol :
  let req := credentials "Carol" "carol@x.com" "Str0ng!Pass" in
  let db1 :=
    store_after (AuthController.register {| salt := "salt" |} req) db0 in
  exists response,
    answer (AuthController.login (clock 1000)
              (credentials EmptyString "carol@x.com" "Str0ng!Pass")) db1
    = Ok response
    /\ status response = 200
    /\ data response
       = LoggedIn {| pu_id := 3; pu_username := "carol";
                     pu_email := "carol@x.com"; pu_role := "user" |}
                  "carol".
Proof.
  assert (Hfree : forall u, In u (users db0) ->
                    User.email u
                    <> body_email
                         (credentials "Carol" "carol@x.com" "Str0ng!Pass")
                    /\ User.username u
                       <> Js.toLowerCase
                            (body_username
                               (credentials "Carol" "carol@x.com"
                                            "Str0ng!Pass"))).
  { intros u Hin. cbn in Hin. destruct Hin as [<- | [<- | []]];
      split; discriminate. }
  assert (Hv : PasswordService.valid
                 (PasswordService.validatePasswordStrength
                    (body_password
                       (credentials "Carol" "carol@x.com" "Str0ng!Pass")))
               = true) by reflexivity.
  assert (Hp : comparePassword
                 (body_password
                    (credentials EmptyString "carol@x.com" "Str0ng!Pass"))
                 (hashPassword
                    (body_password
                       (credentials "Carol" "carol@x.com" "Str0ng!Pass"))
                    (salt {| salt := "salt" |})) = true)
    by reflexivity.
  destruct (proj1 (register_then_login {| salt := "salt" |}
                     (credentials "Carol" "carol@x.com" "Str0ng!Pass") db0
                     (clock 1000)
                     (credentials EmptyString "carol@x.com" "Str0ng!Pass")
                     Hfree Hv eq_refl) Hp)
    as [Hyes _].
  destruct (Hyes "carol" eq_refl) as (response & Hr & Hs & Hd).
  exists response. split; [exact Hr |]. split; [exact Hs | exact Hd].
Defined.

Lemma getProfile_finds_caller_or_404_on_alice :
  answer (AuthController.getProfile (alice_with_cookie "aaaa")) empty
  = Ok NotFound
  /\ exists response,
       answer (AuthController.getProfile (alice_with_cookie "aaaa")) db0
       = Ok response
       /\ status response = 200.
Proof.
  split.
  - destruct (getProfile_finds_caller_or_404 (alice_with_cookie "aaaa")
                empty as_alice eq_refl) as (_ & Hiff & _).
    apply Hiff. intros u [].
  - destruct (getProfile_finds_caller_or_404 (alice_with_cookie "aaaa")
                db0 as_alice eq_refl) as (_ & _ & Hfound).
    destruct (Hfound alice eq_refl) as [_ Hr].
    eexists. split; [exact Hr | reflexivity].
Defined.

Lemma deleteFruit_twice_is_not_found_on_fruits :
  fst (Fruit.deleteFruit "12" fruits)
  = [ {| Fruit.id := 11; Fruit.columns := "apple" |};
      {| Fruit.id := 13; Fruit.columns := "cherry" |} ]
  /\ snd (Fruit.deleteFruit "12" (fst (Fruit.deleteFruit "12" fruits)))
     = failure 404 "Fruit not found".
Proof.
  split; [reflexivity |].
  assert (Hok : status (snd (Fruit.deleteFruit "12" fruits)) = 200)
    by reflexivity.
  assert (Hfit : Forall (fun r => fits_int (Fruit.id r)) fruits).
  { repeat constructor; cbn; discriminate. }
  now rewrite (FruitFacts.deleteFruit_twice_is_not_found "12" fruits
                 Hfit Hok).
Defined.

Lemma deleteFruit_ignores_text_around_the_number_on_fruits :
  Fruit.parseInt10 " 12abc" = Some 12
  /\ Fruit.deleteFruit " 12abc" fruits = Fruit.deleteFruit "12" fruits.
Proof.
  assert (Hw : Forall (fun c => Fruit.is_space c = true) (Js.chars " "))
    by (repeat constructor).
  assert (Hd : Fruit.all_digits "12") by (repeat constructor).
  assert (Hne : "12" <> EmptyString) by discriminate.
  assert (Hfit : fits_int (Fruit.number "12"))
    by (split; apply Z.leb_le; reflexivity).
  assert (Hr : Fruit.ends_number "abc") by reflexivity.
  exact (FruitFacts.deleteFruit_ignores_text_around_the_number
           " " "12" "abc" fruits Hw Hd Hne Hfit Hr).
Defined.

Lemma deleteFruit_reads_a_sign_on_fruits :
  Fruit.deleteFruit "+12" fruits = Fruit.deleteFruit "12" fruits
  /\ Fruit.deleteFruit "-12" fruits
     = (fruits, failure 404 "Fruit not found").
Proof.
  assert (Hd : Fruit.all_digits "12") by (repeat constructor).
  assert (Hne : "12" <> EmptyString) by discriminate.
  assert (Hfit : fits_int (Fruit.number "12"))
    by (split; apply Z.leb_le; reflexivity).
  assert (Hpos : 0 < Fruit.number "12") by reflexivity.
  assert (Hids : Forall (fun r => 0 < Fruit.id r) fruits)
    by (repeat constructor).
  destruct (FruitFacts.deleteFruit_reads_a_sign
              "12" EmptyString fruits Hd Hne Hfit I)
    as (_ & _ & Hplus & Hminus).
  split; [exact Hplus | exact (Hminus Hpos Hids)].
Defined.

(** A logout that did not pass through [authenticate] but carries a
    cookie ends in the catch block. *)
Lemma logout_without_caller_on_session :
  AuthController.logout (session_request "alice" "c0ffee") db_sessions
  = (db_sessions, Ok Internal).
Proof.
  assert (Hthere : Text "c0ffee" <> Text EmptyString) by discriminate.
  destruct (logout_without_caller (session_request "alice" "c0ffee")
              db_sessions eq_refl) as [Hcookie _].
  exact (Hcookie (Text "c0ffee") eq_refl Hthere).
Defined.

End OnFixtures.
